(** * Multi-App RAG Chatbot: indexing pipeline, tenant lifecycle and chat

    A shallow embedding of [app/db.py], [app/services/storage.py],
    [app/services/indexing.py], [app/services/llm.py],
    [app/services/rag.py] and the request validators and endpoints of
    [app/main.py].

    Python [str] values are [string]s of 8-bit characters.  The metadata
    store, the blob store and the clock form an explicit [World] that is
    threaded through a state-and-exception monad.  Third-party library
    calls (TextLoader, the text splitter, the embedding model, Chroma, the
    OpenAI chain, SHA-256) and the file system's verdict on opening a file
    for writing are fields of the [Externals] class: the development never
    looks inside them, and the few facts it needs about them are the laws
    of [ExternalsLaws]. *)

From Stdlib Require Import ZArith Lia Bool Ascii String List.
From stdpp Require Import base option list gmap strings pretty sorting.

Local Open Scope Z_scope.

(** ** Python strings *)

Module Py.

Definition chars (s : string) : list ascii := String.list_ascii_of_string s.
Definition str (l : list ascii) : string := String.string_of_list_ascii l.

(** The line feed and the double quote, which have no literal. *)
Definition LF : ascii := ascii_of_nat 10.
Definition DQUOTE : ascii := ascii_of_nat 34.
Definition SPACE : ascii := ascii_of_nat 32.
Definition nl : string := String LF EmptyString.
Definition dq : string := String DQUOTE EmptyString.

Definition len (s : string) : nat := length (chars s).

(** [c.lower()] on one character.  Only [A]..[Z] change; the callers
    compare the result with [.txt] and [.md], which no other character
    lower-cases into. *)
Definition lower_char (c : ascii) : ascii :=
  let n := nat_of_ascii c in
  if ((65 <=? n)%nat && (n <=? 90)%nat)%bool then ascii_of_nat (n + 32) else c.

Definition lower (s : string) : string := str (map lower_char (chars s)).

(** [s.startswith(p)] *)
Fixpoint starts_with (p s : list ascii) : bool :=
  match p, s with
  | [], _ => true
  | _ :: _, [] => false
  | a :: p', b :: s' => Ascii.eqb a b && starts_with p' s'
  end.

(** Index of the first occurrence of [p] in [s], counted from [i]. *)
Fixpoint find_from (p s : list ascii) (i : nat) : option nat :=
  if starts_with p s then Some i
  else match s with
       | [] => None
       | _ :: s' => find_from p s' (S i)
       end.

(** [s.find(p)]: the lowest index, or [-1]. *)
Definition find (s p : string) : Z :=
  match find_from (chars p) (chars s) 0 with
  | Some i => Z.of_nat i
  | None => -1
  end.

(** [p in s] *)
Definition contains (p s : string) : bool :=
  match find_from (chars p) (chars s) 0 with Some _ => true | None => false end.

Fixpoint rfind_from (c : ascii) (l : list ascii) (i : nat) (acc : Z) : Z :=
  match l with
  | [] => acc
  | x :: l' => rfind_from c l' (S i) (if Ascii.eqb x c then Z.of_nat i else acc)
  end.

(** [s.rfind(c)] for a one-character [c]: the highest index, or [-1]. *)
Definition rfind (s : string) (c : ascii) : Z := rfind_from c (chars s) 0 (-1).

(** [s[a:b]] for indices that are not negative. *)
Definition slice (s : string) (a b : Z) : string :=
  str (take (Z.to_nat b - Z.to_nat a) (drop (Z.to_nat a) (chars s))).

(** [s[:b]] and [s[a:]] for indices that are not negative. *)
Definition slice_to (s : string) (b : Z) : string := str (take (Z.to_nat b) (chars s)).
Definition slice_from (s : string) (a : Z) : string := str (drop (Z.to_nat a) (chars s)).

(** [c.isspace()] on the 8-bit range. *)
Definition isspace (c : ascii) : bool :=
  let n := nat_of_ascii c in
  (((9 <=? n) && (n <=? 13)) || ((28 <=? n) && (n <=? 32))
   || (n =? 133) || (n =? 160))%nat%bool.

Fixpoint lstrip_chars (l : list ascii) : list ascii :=
  match l with
  | c :: l' => if isspace c then lstrip_chars l' else l
  | [] => []
  end.

Definition rstrip_chars (l : list ascii) : list ascii :=
  rev (lstrip_chars (rev l)).

(** [s.strip()] *)
Definition strip (s : string) : string := str (rstrip_chars (lstrip_chars (chars s))).

(** [sep.join(parts)] *)
Fixpoint join (sep : string) (parts : list string) : string :=
  match parts with
  | [] => EmptyString
  | [x] => x
  | x :: rest => x +:+ sep +:+ join sep rest
  end.

(** Truthiness of a string. *)
Definition truthy (s : string) : bool :=
  match s with EmptyString => false | _ => true end.

(** [x in xs] for a list of strings. *)
Definition elem (x : string) (xs : list string) : bool :=
  existsb (String.eqb x) xs.

End Py.

(** ** [os.path] (POSIX flavour) *)

Module OsPath.

Definition SEP : ascii := "/"%char.
Definition EXTSEP : ascii := "."%char.

(** [posixpath.join(a, b)] *)
Definition join (a b : string) : string :=
  if Py.starts_with [SEP] (Py.chars b) then b
  else if (negb (Py.truthy a) || Py.starts_with [SEP] (rev (Py.chars a)))%bool
       then a +:+ b
       else a +:+ String SEP EmptyString +:+ b.

(** [posixpath.basename(p)]: what follows the last separator. *)
Definition basename (p : string) : string :=
  Py.slice_from p (Py.rfind p SEP + 1).

(** [genericpath._splitext]: the extension starts at the last dot of the
    last component, unless that component has only dots before it. *)
Definition splitext (p : string) : string * string :=
  let sepIndex := Py.rfind p SEP in
  let dotIndex := Py.rfind p EXTSEP in
  if sepIndex <? dotIndex then
    if existsb (fun c => negb (Ascii.eqb c EXTSEP))
               (Py.chars (Py.slice p (sepIndex + 1) dotIndex))
    then (Py.slice_to p dotIndex, Py.slice_from p dotIndex)
    else (p, EmptyString)
  else (p, EmptyString).

End OsPath.

(** ** Exceptions and results *)

Inductive exn : Type :=
| ValueError (msg : string)
| HTTPException (status_code : nat) (detail : string)
| LibraryError (msg : string)
| OSError (msg : string).

(** [str(e)] *)
Definition str_exn (e : exn) : string :=
  match e with
  | ValueError m => m
  | HTTPException _ d => d
  | LibraryError m => m
  | OSError m => m
  end.

Inductive result (A : Type) : Type :=
| Ok (a : A)
| Raise (e : exn).
Arguments Ok {A} a.
Arguments Raise {A} e.

(** ** Data model *)

(** A LangChain document: text and a metadata dictionary. *)
Record Document : Type := mkDocument {
  page_content : string;
  metadata : gmap string string
}.

(** A row of the [apps] table. *)
Record AppRow : Type := mkAppRow {
  app_id : string;
  name : string;
  status : string;
  last_indexed_at : option string;
  created_at : string;
  updated_at : string
}.

(** A row of the [files] table. *)
Record FileRow : Type := mkFileRow {
  id : nat;
  file_app_id : string;
  filename : string;
  file_path : string;
  file_size : nat;
  file_hash : string;
  uploaded_at : string
}.

(** The metadata database: [apps] keyed by its primary key, [files] in
    insertion order, and the AUTOINCREMENT counter of [files]. *)
Record Db : Type := mkDb {
  apps : gmap string AppRow;
  files : list FileRow;
  files_seq : nat
}.

(** A Chroma persistence directory: whether [chroma.sqlite3] is there, and
    the chunks of its collection. *)
Record ChromaDir : Type := mkChromaDir {
  chroma_sqlite3 : bool;
  collection : list Document
}.

(** The blob store, keyed by directory path.  A key that is absent is a
    directory that does not exist.  A files directory maps the names of
    its entries to their content. *)
Record Fs : Type := mkFs {
  file_dirs : gmap string (gmap string string);
  chroma_dirs : gmap string ChromaDir
}.

(** The side-effecting steps of the indexing pipeline, in call order. *)
Inductive Event : Type :=
| EvStatus (app status : string) (indexed_at : option string)
| EvClearIndex (app : string)
| EvLoadDocuments (app : string)
| EvChunk
| EvEmbeddingModel
| EvPersist (app : string).

Record World : Type := mkWorld {
  w_db : Db;
  w_fs : Fs;
  w_clock : nat;
  w_trace : list Event
}.

(** ** The state-and-exception monad

    A Python exception leaves the side effects made so far in place, so
    the world comes back on both outcomes. *)

Definition M (A : Type) : Type := World -> result A * World.

Definition ret {A : Type} (a : A) : M A := fun w => (Ok a, w).

Definition raise {A : Type} (e : exn) : M A := fun w => (Raise e, w).

Definition bind {A B : Type} (c : M A) (k : A -> M B) : M B :=
  fun w => match c w with
           | (Ok a, w') => k a w'
           | (Raise e, w') => (Raise e, w')
           end.

(** [try: c except Exception as e: h e] *)
Definition try_except {A : Type} (c : M A) (h : exn -> M A) : M A :=
  fun w => match c w with
           | (Ok a, w') => (Ok a, w')
           | (Raise e, w') => h e w'
           end.

Definition lift {A : Type} (r : result A) : M A := fun w => (r, w).

Definition get_db : M Db := fun w => (Ok (w_db w), w).
Definition put_db (d : Db) : M unit :=
  fun w => (Ok tt, mkWorld d (w_fs w) (w_clock w) (w_trace w)).
Definition get_fs : M Fs := fun w => (Ok (w_fs w), w).
Definition put_fs (f : Fs) : M unit :=
  fun w => (Ok tt, mkWorld (w_db w) f (w_clock w) (w_trace w)).
Definition emit (e : Event) : M unit :=
  fun w => (Ok tt, mkWorld (w_db w) (w_fs w) (w_clock w) (w_trace w ++ [e])).

#[export] Instance M_ret : MRet M := @ret.
#[export] Instance M_bind : MBind M := fun A B k c => bind c k.

(** ** Third-party libraries *)

Class Externals : Type := mkExternals {
  (** where [storage/apps] lives *)
  STORAGE_ROOT : string;
  (** [datetime.isoformat] of the clock reading *)
  isoformat : nat -> string;
  (** [hashlib.sha256(content).hexdigest()] *)
  sha256_hexdigest : string -> string;
  (** [TextLoader(file_path, encoding=utf-8).load()] *)
  TextLoader_load : Fs -> string -> result (list Document);
  (** [RecursiveCharacterTextSplitter(chunk_size, chunk_overlap).split_documents] *)
  split_documents : nat -> nat -> list Document -> result (list Document);
  (** [HuggingFaceEmbeddings(model_name=...)] *)
  HuggingFaceEmbeddings : string -> result unit;
  (** [Chroma.from_documents(documents, embedding, persist_directory)]:
      the outcome and what the directory holds afterwards *)
  Chroma_from_documents : list Document -> ChromaDir -> result unit * ChromaDir;
  (** [Chroma(persist_directory, embedding_function)] *)
  Chroma_open : ChromaDir -> result unit;
  (** [vectordb.as_retriever(search_kwargs={k}).invoke(message)] *)
  retriever_invoke : ChromaDir -> nat -> string -> result (list Document);
  (** the environment variable *)
  OPENAI_API_KEY : option string;
  (** [ChatOpenAI(model_name, temperature, openai_api_key)] *)
  ChatOpenAI : string -> result unit;
  (** [llm.generate(prompt)] on the OpenAI client *)
  ChatOpenAI_generate : string -> result string;
  (** [PromptTemplate(template=..., input_variables=[context, question])] *)
  PromptTemplate : string -> result unit;
  (** [prompt.format(context=..., question=...)] *)
  PromptTemplate_format : string -> string -> string -> result string;
  (** [RetrievalQA.from_chain_type(llm, retriever, return_source_documents=True,
      prompt).invoke(message)]: the [result] and [source_documents] entries *)
  RetrievalQA_invoke : ChromaDir -> nat -> string -> string -> result (string * list Document);
  (** [open(path, wb)] and the write: whether the file system lets the
      file be created or truncated *)
  open_wb : Fs -> string -> result unit;
  (** the blob store after a write to a path that is not an entry of the
      directory it was joined to *)
  write_elsewhere : Fs -> string -> string -> Fs
}.

(** What the proofs assume of the libraries. *)
Class ExternalsLaws (E : Externals) : Prop := mkExternalsLaws {
  isoformat_nonempty : forall t, isoformat t <> EmptyString;
  TextLoader_source : forall fs p ds d,
    TextLoader_load fs p = Ok ds -> d ∈ ds -> metadata d !! "source" = Some p;
  split_documents_metadata : forall size overlap docs chunks c,
    split_documents size overlap docs = Ok chunks -> c ∈ chunks ->
    exists d, d ∈ docs /\ metadata c = metadata d;
  Chroma_from_documents_adds : forall chunks dir dir',
    Chroma_from_documents chunks dir = (Ok tt, dir') ->
    chroma_sqlite3 dir' = true /\ collection dir' = collection dir ++ chunks;
  retriever_invoke_top_k : forall dir k q r,
    retriever_invoke dir k q = Ok r -> (length r <= k)%nat /\ r ⊆ collection dir;
  RetrievalQA_sources : forall dir k t q a r,
    RetrievalQA_invoke dir k t q = Ok (a, r) -> (length r <= k)%nat /\ r ⊆ collection dir
}.

(** ** [app/services/storage.py] *)

Module storage.
Section defs.
Context {E : Externals}.

Definition get_app_root (app_id : string) : string :=
  OsPath.join STORAGE_ROOT app_id.

Definition get_files_dir (app_id : string) : string :=
  OsPath.join (get_app_root app_id) "files".

Definition get_chroma_dir (app_id : string) : string :=
  OsPath.join (get_app_root app_id) "chroma_db".

(** The directory without its index: what [os.makedirs] leaves when it
    creates the path. *)
Definition empty_chroma_dir : ChromaDir := mkChromaDir false [].

(** [os.makedirs(path, exist_ok=True)] on a files directory and on an
    index directory. *)
Definition makedirs_files (path : string) : M unit :=
  fs ← get_fs;
  match file_dirs fs !! path with
  | Some _ => mret tt
  | None => put_fs (mkFs (<[path := ∅]> (file_dirs fs)) (chroma_dirs fs))
  end.

Definition makedirs_chroma (path : string) : M unit :=
  fs ← get_fs;
  match chroma_dirs fs !! path with
  | Some _ => mret tt
  | None => put_fs (mkFs (file_dirs fs) (<[path := empty_chroma_dir]> (chroma_dirs fs)))
  end.

Definition ensure_app_dirs (app_id : string) : M unit :=
  makedirs_files (get_files_dir app_id);;
  makedirs_chroma (get_chroma_dir app_id).

Definition compute_file_hash (content : string) : string :=
  sha256_hexdigest content.

(** A name that [os.path.join] places directly in the directory it is
    joined to: not empty, without separator, and neither [.] nor [..]. *)
Definition is_entry_name (filename : string) : bool :=
  negb (String.eqb filename EmptyString)
  && negb (existsb (Ascii.eqb OsPath.SEP) (Py.chars filename))
  && negb (String.eqb filename ".")
  && negb (String.eqb filename "..").

(** [open] may refuse the path: a directory part that is missing, a name
    that is too long or that names a directory.  Its exception leaves
    [save_file] after the directories were made; a file that was opened
    is written in full.  A file under an entry name lands in the tenant's
    files directory; where another name lands is the file system's to
    say. *)
Definition save_file (app_id filename content : string) : M string :=
  ensure_app_dirs app_id;;
  let file_path := OsPath.join (get_files_dir app_id) filename in
  fs ← get_fs;
  lift (open_wb fs file_path);;
  (if is_entry_name filename then
     let dir := default ∅ (file_dirs fs !! get_files_dir app_id) in
     put_fs (mkFs (<[get_files_dir app_id := <[filename := content]> dir]> (file_dirs fs))
                  (chroma_dirs fs))
   else put_fs (write_elsewhere fs file_path content));;
  mret file_path.

Definition get_all_file_paths (app_id : string) : M (list string) :=
  let files_dir := get_files_dir app_id in
  fs ← get_fs;
  match file_dirs fs !! files_dir with
  | None => mret []
  | Some dir => mret (map (fun entry => OsPath.join files_dir entry.1) (map_to_list dir))
  end.

(** [shutil.rmtree] when the directory exists, then [os.makedirs]. *)
Definition clear_chroma_dir (app_id : string) : M unit :=
  let chroma_dir := get_chroma_dir app_id in
  emit (EvClearIndex app_id);;
  fs ← get_fs;
  match chroma_dirs fs !! chroma_dir with
  | Some _ => put_fs (mkFs (file_dirs fs) (delete chroma_dir (chroma_dirs fs)))
  | None => mret tt
  end;;
  makedirs_chroma chroma_dir.

Definition get_supported_extensions : list string := [".txt"; ".md"].

Definition is_supported_file (filename : string) : bool :=
  let ext := Py.lower (OsPath.splitext filename).2 in
  Py.elem ext get_supported_extensions.

(** [os.remove(file_path)] when the file exists; the answer says whether
    it did. *)
Definition delete_file (app_id filename : string) : M bool :=
  let files_dir := get_files_dir app_id in
  fs ← get_fs;
  match file_dirs fs !! files_dir with
  | Some dir =>
      match dir !! filename with
      | Some _ =>
          put_fs (mkFs (<[files_dir := delete filename dir]> (file_dirs fs))
                       (chroma_dirs fs));;
          mret true
      | None => mret false
      end
  | None => mret false
  end.

(** The path of a directory as a prefix of what lies in it. *)
Definition dir_prefix (root : string) : list ascii :=
  if Py.starts_with [OsPath.SEP] (rev (Py.chars root)) then Py.chars root
  else Py.chars root ++ [OsPath.SEP].

(** [path] is [root] or lies below it. *)
Definition is_below (root path : string) : bool :=
  String.eqb path root || Py.starts_with (dir_prefix root) (Py.chars path).

(** [shutil.rmtree(app_root)] when the root exists: every directory at or
    below the root goes.  (Nothing lies below a root that does not exist,
    so the test for existence needs no case of its own.) *)
Definition delete_app_storage (app_id : string) : M unit :=
  let app_root := get_app_root app_id in
  fs ← get_fs;
  put_fs (mkFs (filter (fun entry => is_below app_root entry.1 = false) (file_dirs fs))
               (filter (fun entry => is_below app_root entry.1 = false) (chroma_dirs fs))).

End defs.
End storage.

(** ** [app/db.py] *)

Module db.
Section defs.
Context {E : Externals}.

(** [datetime.utcnow().isoformat()]: reads the clock, which moves on. *)
Definition utcnow : M string :=
  fun w => (Ok (isoformat (w_clock w)),
            mkWorld (w_db w) (w_fs w) (S (w_clock w)) (w_trace w)).

Definition get_app (app_id : string) : M (option AppRow) :=
  d ← get_db;
  mret (apps d !! app_id).

(** The two UPDATE statements; a missing row updates nothing. *)
Definition update_app_status (app_id status : string)
    (last_indexed_at : option string) : M unit :=
  now ← utcnow;
  emit (EvStatus app_id status last_indexed_at);;
  d ← get_db;
  let set_status (r : AppRow) : AppRow :=
    let '(mkAppRow i n _ l c _) := r in mkAppRow i n status l c now in
  let set_status_indexed (ts : string) (r : AppRow) : AppRow :=
    let '(mkAppRow i n _ _ c _) := r in mkAppRow i n status (Some ts) c now in
  match last_indexed_at with
  | Some ts =>
      if Py.truthy ts then
        put_db (mkDb (alter (set_status_indexed ts) app_id (apps d)) (files d) (files_seq d))
      else
        put_db (mkDb (alter set_status app_id (apps d)) (files d) (files_seq d))
  | None =>
      put_db (mkDb (alter set_status app_id (apps d)) (files d) (files_seq d))
  end.

(** The dictionary [add_file] returns. *)
Record FileData : Type := mkFileData {
  fd_id : nat;
  fd_app_id : string;
  fd_filename : string;
  fd_file_size : nat;
  fd_uploaded_at : string
}.

Definition add_file (app_id filename file_path : string) (file_size : nat)
    (file_hash : string) : M FileData :=
  now ← utcnow;
  d ← get_db;
  let file_id := S (files_seq d) in
  put_db (mkDb (apps d)
               (files d ++ [mkFileRow file_id app_id filename file_path file_size
                                      file_hash now])
               file_id);;
  mret (mkFileData file_id app_id filename file_size now).

(** The dictionary [create_app] returns. *)
Record AppData : Type := mkAppData {
  ad_app_id : string;
  ad_name : string;
  ad_status : string;
  ad_created_at : string
}.

(** The INSERT fails on the primary key when the identifier is taken;
    [status] and [last_indexed_at] get their column defaults. *)
Definition create_app (app_id name : string) : M AppData :=
  now ← utcnow;
  d ← get_db;
  match apps d !! app_id with
  | Some _ => raise (ValueError ("App '" +:+ app_id +:+ "' already exists"))
  | None =>
      put_db (mkDb (<[app_id := mkAppRow app_id name "CREATED" None now now]> (apps d))
                   (files d) (files_seq d));;
      mret (mkAppData app_id name "CREATED" now)
  end.

(** [ORDER BY created_at DESC] and [ORDER BY uploaded_at DESC]: text
    columns compare as strings.  (Among equal time stamps the order is
    the one this sort gives; SQLite promises none.) *)
Definition created_not_before (r1 r2 : AppRow) : Prop :=
  String.le (created_at r2) (created_at r1).

Definition uploaded_not_before (r1 r2 : FileRow) : Prop :=
  String.le (uploaded_at r2) (uploaded_at r1).

#[export] Instance created_not_before_dec : RelDecision created_not_before :=
  fun r1 r2 => String.le_dec (created_at r2) (created_at r1).

#[export] Instance uploaded_not_before_dec : RelDecision uploaded_not_before :=
  fun r1 r2 => String.le_dec (uploaded_at r2) (uploaded_at r1).

Definition get_all_apps : M (list AppRow) :=
  d ← get_db;
  mret (merge_sort created_not_before (map snd (map_to_list (apps d)))).

(** The two DELETE statements.  The AUTOINCREMENT counter stays. *)
Definition delete_app (app_id : string) : M unit :=
  d ← get_db;
  put_db (mkDb (delete app_id (apps d))
               (List.filter (fun r => negb (String.eqb (file_app_id r) app_id)) (files d))
               (files_seq d)).

Definition get_files_for_app (app_id : string) : M (list FileRow) :=
  d ← get_db;
  mret (merge_sort uploaded_not_before
          (List.filter (fun r => String.eqb (file_app_id r) app_id) (files d))).

Definition delete_file (file_id : nat) : M unit :=
  d ← get_db;
  put_db (mkDb (apps d)
               (List.filter (fun r => negb (id r =? file_id)%nat) (files d))
               (files_seq d)).

Definition delete_files_for_app (app_id : string) : M unit :=
  d ← get_db;
  put_db (mkDb (apps d)
               (List.filter (fun r => negb (String.eqb (file_app_id r) app_id)) (files d))
               (files_seq d)).

End defs.
End db.

(** ** [app/services/indexing.py] *)

Module indexing.
Section defs.
Context {E : Externals}.

Definition EMBED_MODEL : string := "sentence-transformers/all-MiniLM-L6-v2".
Definition CHUNK_SIZE : nat := 800.
Definition CHUNK_OVERLAP : nat := 120.

(** One turn of the loading loop: a supported file is loaded and its
    documents appended; a loader failure and an unsupported extension
    both leave [all_docs] as it is. *)
Definition load_one (fs : Fs) (all_docs : list Document) (file_path : string)
    : list Document :=
  let ext := Py.lower (OsPath.splitext file_path).2 in
  if Py.elem ext [".txt"; ".md"] then
    match TextLoader_load fs file_path with
    | Ok docs => all_docs ++ docs
    | Raise _ => all_docs
    end
  else all_docs.

Definition load_documents (app_id : string) : M (list Document) :=
  emit (EvLoadDocuments app_id);;
  file_paths ← storage.get_all_file_paths app_id;
  match file_paths with
  | [] => raise (ValueError ("No files found for app '" +:+ app_id
                             +:+ "'. Please upload files first."))
  | _ =>
      fs ← get_fs;
      mret (fold_left (load_one fs) file_paths [])
  end.

Definition chunk_documents (docs : list Document) : M (list Document) :=
  emit EvChunk;;
  lift (split_documents CHUNK_SIZE CHUNK_OVERLAP docs).

(** [Chroma.from_documents] on the directory at [chroma_dir]. *)
Definition persist_chroma (app_id chroma_dir : string) (chunks : list Document)
    : M unit :=
  emit (EvPersist app_id);;
  fs ← get_fs;
  let dir := default storage.empty_chroma_dir (chroma_dirs fs !! chroma_dir) in
  let '(outcome, dir') := Chroma_from_documents chunks dir in
  put_fs (mkFs (file_dirs fs) (<[chroma_dir := dir']> (chroma_dirs fs)));;
  lift outcome.

(** The body of the [try] of [build_index]. *)
Definition build_index_steps (app_id : string) : M (nat * nat) :=
  db.update_app_status app_id "INDEXING" None;;
  storage.clear_chroma_dir app_id;;
  docs ← load_documents app_id;
  match docs with
  | [] => raise (ValueError "No documents could be loaded")
  | _ =>
      chunks ← chunk_documents docs;
      emit EvEmbeddingModel;;
      lift (HuggingFaceEmbeddings EMBED_MODEL);;
      let chroma_dir := storage.get_chroma_dir app_id in
      persist_chroma app_id chroma_dir chunks;;
      now ← db.utcnow;
      db.update_app_status app_id "READY" (Some now);;
      mret (length docs, length chunks)
  end.

Definition build_index (app_id : string) : M (nat * nat) :=
  try_except
    (build_index_steps app_id)
    (fun e =>
       db.update_app_status app_id "FAILED" None;;
       raise e).

(** [os.path.exists(os.path.join(chroma_dir, chroma.sqlite3))] *)
Definition index_exists (app_id : string) : M bool :=
  let chroma_dir := storage.get_chroma_dir app_id in
  fs ← get_fs;
  mret (match chroma_dirs fs !! chroma_dir with
        | Some dir => chroma_sqlite3 dir
        | None => false
        end).

End defs.
End indexing.

(** ** [app/services/llm.py] *)

Module llm.
Section defs.
Context {E : Externals}.

Inductive LLM : Type := ChatOpenAI_client | MockLLM.

Definition NO_LLM_NOTICE : string :=
  "I found some relevant information but need an LLM to generate a proper response. Please configure OPENAI_API_KEY.".

Definition MockLLM_generate (prompt : string) : string :=
  if (Py.contains "Context:" prompt && Py.contains "Question:" prompt)%bool then
    let context_start := Py.find prompt "Context:" + Z.of_nat (Py.len "Context:") in
    let context_end := Py.find prompt "Question:" in
    let context := Py.strip (Py.slice prompt context_start context_end) in
    if (Py.truthy context && (50 <? Py.len context)%nat)%bool then
      "Based on the documents: " +:+ Py.slice_to context 500 +:+ "..."
    else NO_LLM_NOTICE
  else NO_LLM_NOTICE.

(** [bool(OPENAI_API_KEY)] *)
Definition has_openai_key : bool :=
  match OPENAI_API_KEY with
  | Some key => Py.truthy key
  | None => false
  end.

Definition get_llm : M LLM :=
  match OPENAI_API_KEY with
  | Some key =>
      if Py.truthy key then lift (ChatOpenAI key);; mret ChatOpenAI_client
      else mret MockLLM
  | None => mret MockLLM
  end.

(** [llm.generate(prompt)] *)
Definition generate (llm : LLM) (prompt : string) : M string :=
  match llm with
  | MockLLM => mret (MockLLM_generate prompt)
  | ChatOpenAI_client => lift (ChatOpenAI_generate prompt)
  end.

End defs.
End llm.

(** ** [app/services/rag.py] *)

Module rag.
Section defs.
Context {E : Externals}.

Definition TOP_K : nat := 3.

(** The template up to and including the line feed after its
    [Context:] label; the tenant name and identifier are already
    interpolated by the f-string. *)
Definition template_head (app_id app_name : string) : string :=
  "You are a helpful assistant for the " +:+ app_name +:+ " system." +:+ Py.nl
  +:+ "Answer the question based ONLY on the following context from the uploaded documents."
  +:+ Py.nl
  +:+ "If the question cannot be answered from the context, say:" +:+ Py.nl
  +:+ Py.dq +:+ "I don't have that information in the uploaded " +:+ app_id
  +:+ " documents." +:+ Py.dq +:+ Py.nl
  +:+ Py.nl
  +:+ "Context:" +:+ Py.nl.

(** The [template] argument of [PromptTemplate]. *)
Definition template_text (app_id app_name : string) : string :=
  template_head app_id app_name
  +:+ "{context}" +:+ Py.nl
  +:+ Py.nl
  +:+ "Question: {question}" +:+ Py.nl
  +:+ Py.nl
  +:+ "Answer:".

(** The prompt is its template, once [PromptTemplate] has accepted it. *)
Definition get_prompt_template (app_id app_name : string) : M string :=
  lift (PromptTemplate (template_text app_id app_name));;
  mret (template_text app_id app_name).

Definition load_vector_db (app_id : string) : M ChromaDir :=
  let chroma_dir := storage.get_chroma_dir app_id in
  exists_ ← indexing.index_exists app_id;
  if negb exists_ then
    raise (ValueError ("No index found for app '" +:+ app_id
                       +:+ "'. Please train first."))
  else
    lift (HuggingFaceEmbeddings indexing.EMBED_MODEL);;
    fs ← get_fs;
    let dir := default storage.empty_chroma_dir (chroma_dirs fs !! chroma_dir) in
    lift (Chroma_open dir);;
    mret dir.

(** The dictionary [chat] returns. *)
Record ChatResult : Type := mkChatResult {
  success : bool;
  error : option string;
  answer : option string;
  sources : list string
}.

Definition REFUSAL (app_id : string) : string :=
  "I don't have that information in the uploaded " +:+ app_id +:+ " documents.".

(** The loop that collects the source file names. *)
Definition add_source (sources : list string) (doc : Document) : list string :=
  let source := default "unknown" (metadata doc !! "source") in
  let filename := OsPath.basename source in
  if Py.elem filename sources then sources else sources ++ [filename].

Definition extract_sources (source_docs : list Document) : list string :=
  fold_left add_source source_docs [].

(** The branch of [chat] taken without an OpenAI key. *)
Definition manual_retrieval (app_id : string) (llm : llm.LLM) (vectordb : ChromaDir)
    (prompt message : string) : M (string * list Document) :=
  docs ← lift (retriever_invoke vectordb TOP_K message);
  match docs with
  | [] => mret (REFUSAL app_id, [])
  | _ =>
      let context := Py.join (Py.nl +:+ Py.nl) (map page_content docs) in
      full_prompt ← lift (PromptTemplate_format prompt context message);
      answer ← llm.generate llm full_prompt;
      mret (answer, docs)
  end.

(** The body of the [try] of [chat]. *)
Definition chat_steps (app_id message : string) (app : AppRow) : M ChatResult :=
  vectordb ← load_vector_db app_id;
  llm ← llm.get_llm;
  let app_name := name app in
  prompt ← get_prompt_template app_id app_name;
  '(answer, source_docs) ←
    (if llm.has_openai_key then
       lift (RetrievalQA_invoke vectordb TOP_K prompt message)
     else manual_retrieval app_id llm vectordb prompt message);
  let sources := extract_sources source_docs in
  mret (mkChatResult true None (Some answer) sources).

Definition not_found (app_id : string) : ChatResult :=
  mkChatResult false (Some ("App '" +:+ app_id +:+ "' not found")) None [].

Definition not_trained (app_id status : string) : ChatResult :=
  mkChatResult false
    (Some ("App '" +:+ app_id +:+ "' is not trained yet. Status: " +:+ status))
    None [].

Definition failure (e : exn) : ChatResult :=
  mkChatResult false (Some (str_exn e)) None [].

Definition chat (app_id message : string) : M ChatResult :=
  app ← db.get_app app_id;
  match app with
  | None => mret (not_found app_id)
  | Some app =>
      if negb (String.eqb (status app) "READY") then
        mret (not_trained app_id (status app))
      else
        try_except
          (chat_steps app_id message app)
          (fun e => mret (failure e))
  end.

End defs.
End rag.

(** ** [app/main.py] *)

Module main.
Section defs.
Context {E : Externals}.

(** An uploaded part: its file name and what [await file.read()] gives. *)
Record UploadFile : Type := mkUploadFile {
  uf_filename : string;
  uf_read : result string
}.

(** The [data] of the response. *)
Record UploadData : Type := mkUploadData {
  uploaded : list db.FileData;
  errors : list string;
  message : string
}.

(** The body of the [try] for one supported file. *)
Definition upload_one (app_id : string) (file : UploadFile) : M db.FileData :=
  content ← lift (uf_read file);
  let file_hash := storage.compute_file_hash content in
  file_path ← storage.save_file app_id (uf_filename file) content;
  db.add_file app_id (uf_filename file) file_path (Py.len content) file_hash.

Fixpoint upload_loop (app_id : string) (files : list UploadFile)
    (uploaded : list db.FileData) (errors : list string)
    : M (list db.FileData * list string) :=
  match files with
  | [] => mret (uploaded, errors)
  | file :: rest =>
      if negb (storage.is_supported_file (uf_filename file)) then
        upload_loop app_id rest uploaded
          (errors ++ ["Unsupported file type: " +:+ uf_filename file])
      else
        r ← try_except
              (file_data ← upload_one app_id file; mret (inl file_data))
              (fun e => mret (inr ("Error uploading " +:+ uf_filename file +:+ ": "
                                   +:+ str_exn e)));
        match r with
        | inl file_data => upload_loop app_id rest (uploaded ++ [file_data]) errors
        | inr err => upload_loop app_id rest uploaded (errors ++ [err])
        end
  end.

Definition upload_files (app_id : string) (files : list UploadFile) : M UploadData :=
  app_data ← db.get_app app_id;
  match app_data with
  | None => raise (HTTPException 404 ("App '" +:+ app_id +:+ "' not found"))
  | Some _ =>
      '(uploaded, errors) ← upload_loop app_id files [] [];
      match uploaded with
      | [] => mret tt
      | _ => db.update_app_status app_id "FILES_UPDATED" None
      end;;
      mret (mkUploadData uploaded errors
              ("Uploaded " +:+ pretty (length uploaded) +:+ " file(s)"))
  end.

(** A character of the class [[a-zA-Z0-9-]]. *)
Definition is_app_id_char (c : ascii) : bool :=
  let n := nat_of_ascii c in
  (((97 <=? n) && (n <=? 122)) || ((65 <=? n) && (n <=? 90))
   || ((48 <=? n) && (n <=? 57)) || (n =? 45))%nat%bool.

(** What [$] leaves for the class to match: the string without its final
    line feed, if it ends in one. *)
Fixpoint before_final_newline (cs : list ascii) : list ascii :=
  match cs with
  | [] => []
  | [c] => if Ascii.eqb c Py.LF then [] else [c]
  | c :: rest => c :: before_final_newline rest
  end.

(** [re.match(r"^[a-zA-Z0-9-]+$", v)]: one or more characters of the
    class, up to the end of the string or to a line feed that ends it. *)
Definition match_app_id (v : string) : bool :=
  let body := before_final_newline (Py.chars v) in
  match body with
  | [] => false
  | _ => forallb is_app_id_char body
  end.

(** [CreateAppRequest.validate_app_id] *)
Definition validate_app_id (v : string) : result string :=
  if negb (match_app_id v) then
    Raise (ValueError "appId must contain only letters, numbers, and dashes")
  else if ((Py.len v <? 2) || (50 <? Py.len v))%nat%bool then
    Raise (ValueError "appId must be between 2 and 50 characters")
  else Ok (Py.lower v).

(** [ChatRequest.validate_message] *)
Definition validate_message (v : string) : result string :=
  if (negb (Py.truthy v) || (Py.len (Py.strip v) =? 0)%nat)%bool then
    Raise (ValueError "Message cannot be empty")
  else Ok (Py.strip v).

(** [except ValueError] gives 400, [except Exception] gives 500. *)
Definition create_app (appId name : string) : M db.AppData :=
  try_except
    (app_data ← db.create_app appId name;
     storage.ensure_app_dirs appId;;
     mret app_data)
    (fun e => match e with
              | ValueError msg => raise (HTTPException 400 msg)
              | _ => raise (HTTPException 500 (str_exn e))
              end).

Definition list_apps : M (list AppRow) := db.get_all_apps.

(** The row and its [file_count]. *)
Definition get_app (app_id : string) : M (AppRow * nat) :=
  app_data ← db.get_app app_id;
  match app_data with
  | None => raise (HTTPException 404 ("App '" +:+ app_id +:+ "' not found"))
  | Some row =>
      files ← db.get_files_for_app app_id;
      mret (row, length files)
  end.

Definition delete_app (app_id : string) : M string :=
  app_data ← db.get_app app_id;
  match app_data with
  | None => raise (HTTPException 404 ("App '" +:+ app_id +:+ "' not found"))
  | Some _ =>
      storage.delete_app_storage app_id;;
      db.delete_app app_id;;
      mret ("App '" +:+ app_id +:+ "' deleted")
  end.

Definition list_files (app_id : string) : M (list FileRow) :=
  app_data ← db.get_app app_id;
  match app_data with
  | None => raise (HTTPException 404 ("App '" +:+ app_id +:+ "' not found"))
  | Some _ => db.get_files_for_app app_id
  end.

(** The [data] of a training response. *)
Record TrainData : Type := mkTrainData {
  td_message : string;
  td_documents : nat;
  td_chunks : nat;
  td_status : string
}.

Definition train_app (app_id : string) : M TrainData :=
  app_data ← db.get_app app_id;
  match app_data with
  | None => raise (HTTPException 404 ("App '" +:+ app_id +:+ "' not found"))
  | Some _ =>
      files ← db.get_files_for_app app_id;
      match files with
      | [] => raise (HTTPException 400 ("No files uploaded for app '" +:+ app_id
                                        +:+ "'. Please upload files first."))
      | _ =>
          try_except
            ('(num_docs, num_chunks) ← indexing.build_index app_id;
             mret (mkTrainData ("Training complete for app '" +:+ app_id +:+ "'")
                               num_docs num_chunks "READY"))
            (fun e => raise (HTTPException 500 (str_exn e)))
      end
  end.

(** [HTTPException(detail=None)] carries the phrase of its status. *)
Definition chat (appId message : string) : M rag.ChatResult :=
  result ← rag.chat appId message;
  if negb (rag.success result) then
    raise (HTTPException 400 (default "Bad Request" (rag.error result)))
  else mret (rag.mkChatResult true None (rag.answer result) (rag.sources result)).

End defs.
End main.

(** ** Specification-side definitions *)

(** Removing duplicates while keeping every first occurrence, in order:
    the head stays and is struck from the rest. *)
Fixpoint dedup_first (l : list string) : list string :=
  match l with
  | [] => []
  | x :: rest => x :: filter (fun y => y ≠ x) (dedup_first rest)
  end.

(** The file name a retrieved chunk is attributed to. *)
Definition source_filename (doc : Document) : string :=
  OsPath.basename (default "unknown" (metadata doc !! "source")).

(** The prompt with both fields filled in. *)
Definition filled_prompt `{Externals} (app_id app_name context question : string) : string :=
  rag.template_head app_id app_name
  +:+ context +:+ Py.nl
  +:+ Py.nl
  +:+ "Question: " +:+ question +:+ Py.nl
  +:+ Py.nl
  +:+ "Answer:".

(** The fallback answer as the specification words it: the notice for a
    context of at most fifty characters, else the label, the first five
    hundred characters and an ellipsis. *)
Definition fallback_answer (context : string) : string :=
  if (Py.len context <=? 50)%nat then llm.NO_LLM_NOTICE
  else "Based on the documents: " +:+ Py.slice_to context 500 +:+ "...".

(** The status a tenant has in a world. *)
Definition status_of (w : World) (app_id : string) : option string :=
  status <$> apps (w_db w) !! app_id.

(** The index directory of a tenant in a world. *)
Definition index_of `{Externals} (w : World) (app_id : string) : ChromaDir :=
  default storage.empty_chroma_dir (chroma_dirs (w_fs w) !! storage.get_chroma_dir app_id).

(** The paths [get_all_file_paths] lists for a tenant. *)
Definition stored_paths `{Externals} (fs : Fs) (app_id : string) : list string :=
  match file_dirs fs !! storage.get_files_dir app_id with
  | None => []
  | Some dir => map (fun entry => OsPath.join (storage.get_files_dir app_id) entry.1)
                    (map_to_list dir)
  end.

(** The blob store once the index directory of a tenant is cleared. *)
Definition cleared `{Externals} (fs : Fs) (app_id : string) : Fs :=
  mkFs (file_dirs fs)
       (<[storage.get_chroma_dir app_id := storage.empty_chroma_dir]> (chroma_dirs fs)).

(** The trace of a build that runs to its end. *)
Definition build_trace (app_id ts : string) : list Event :=
  [EvStatus app_id "INDEXING" None; EvClearIndex app_id; EvLoadDocuments app_id;
   EvChunk; EvEmbeddingModel; EvPersist app_id; EvStatus app_id "READY" (Some ts)].

(** A computation keeps a relation between the world it starts in and
    the world it ends in, whatever its outcome. *)
Definition keeps {A : Type} (R : relation World) (c : M A) : Prop :=
  forall w, R w (c w).2.

(** The tenants of the metadata store stay the same. *)
Definition same_tenants (w w' : World) : Prop :=
  dom (apps (w_db w')) =@{gset string} dom (apps (w_db w)).

(** An uploaded part has a supported extension; its content can be read;
    the parts of a batch the handler tries to save. *)
Definition supported_upload `{Externals} (f : main.UploadFile) : bool :=
  storage.is_supported_file (main.uf_filename f).

Definition readable (f : main.UploadFile) : bool :=
  match main.uf_read f with Ok _ => true | Raise _ => false end.

Definition attempted_uploads `{Externals} (fs : list main.UploadFile)
    : list main.UploadFile :=
  List.filter (fun f => supported_upload f && readable f) fs.

(** The parts of a batch that end up stored: those with a supported
    extension for which the body of the [try] runs to its end, each in the
    world the parts before it have left. *)
Fixpoint stored_uploads `{Externals} (app_id : string) (fs : list main.UploadFile)
    (w : World) : list main.UploadFile :=
  match fs with
  | [] => []
  | f :: rest =>
      if negb (supported_upload f) then stored_uploads app_id rest w
      else match main.upload_one app_id f w with
           | (Ok _, w') => f :: stored_uploads app_id rest w'
           | (Raise _, w') => stored_uploads app_id rest w'
           end
  end.

(** The blob store after [save_file] has written. *)
Definition saved `{Externals} (fs : Fs) (app_id filename content : string) : Fs :=
  if storage.is_entry_name filename then
    mkFs (<[storage.get_files_dir app_id :=
              <[filename := content]>
                (default ∅ (file_dirs fs !! storage.get_files_dir app_id))]>
            (file_dirs fs))
         (chroma_dirs fs)
  else write_elsewhere fs (OsPath.join (storage.get_files_dir app_id) filename) content.

(** The fixed stretches of the prompt between the interpolated values:
    before the tenant name, between name and identifier, and from the
    identifier to the end of the [Context:] label.  Each is given without
    the blank it shares with the value next to it. *)
Definition prompt_opening : list ascii :=
  Py.chars "You are a helpful assistant for the".

Definition prompt_rules : list ascii :=
  Py.chars ("system." +:+ Py.nl
            +:+ "Answer the question based ONLY on the following context from the uploaded documents."
            +:+ Py.nl
            +:+ "If the question cannot be answered from the context, say:" +:+ Py.nl
            +:+ Py.dq +:+ "I don't have that information in the uploaded").

Definition prompt_label : list ascii :=
  Py.chars ("documents." +:+ Py.dq +:+ Py.nl +:+ Py.nl +:+ "Context:").

Definition prompt_question (question : string) : list ascii :=
  Py.LF :: Py.chars "Question: " ++ Py.chars question
  ++ Py.LF :: Py.LF :: Py.chars "Answer:".

(** Where the fixed text after the tenant identifier starts. *)
Definition label_at (a app_name : string) : nat :=
  S (length (Py.chars a)
     + S (length prompt_rules
          + S (length (Py.chars app_name) + S (length prompt_opening + 0)))).

(** A character of the class [[a-z0-9-]]. *)
Definition is_lower_id_char (c : ascii) : bool :=
  let n := nat_of_ascii c in
  (((97 <=? n) && (n <=? 122)) || ((48 <=? n) && (n <=? 57)) || (n =? 45))%nat%bool.

(** An identifier that names a directory of its own under the storage
    root: not empty, without a separator, and neither of the two
    relative names. *)
Definition plain_id (a : string) : Prop :=
  a ≠ EmptyString /\ (OsPath.SEP ∉ Py.chars a) /\ a ≠ "." /\ a ≠ "..".

(** A file name that names an entry of the directory it is joined to. *)
Definition plain_name (n : string) : Prop := OsPath.SEP ∉ Py.chars n.

(** What stands before the identifier in every path of a tenant. *)
Definition root_prefix `{Externals} : list ascii :=
  if Py.truthy STORAGE_ROOT then storage.dir_prefix STORAGE_ROOT else [].

(** What an operation on another tenant leaves of tenant [b]: its record
    and its index directory; and the whole of the file records and the
    file directories. *)
Definition untouched `{Externals} (b : string) (w w' : World) : Prop :=
  apps (w_db w') !! b = apps (w_db w) !! b
  /\ files (w_db w') = files (w_db w)
  /\ file_dirs (w_fs w') = file_dirs (w_fs w)
  /\ chroma_dirs (w_fs w') !! storage.get_chroma_dir b
     = chroma_dirs (w_fs w) !! storage.get_chroma_dir b.

(** The content of a readable part, and a directory after parts were
    written to it in order, a later part replacing an earlier one of the
    same name. *)
Definition upload_content (f : main.UploadFile) : string :=
  match main.uf_read f with Ok c => c | Raise _ => EmptyString end.

Definition written (parts : list main.UploadFile)
    (dir : gmap string string) : gmap string string :=
  foldl (fun d f => <[main.uf_filename f := upload_content f]> d) dir parts.

(** The file records of a tenant. *)
Definition rows_of (w : World) (a : string) : list FileRow :=
  List.filter (fun r => String.eqb (file_app_id r) a) (files (w_db w)).

(** What a build for tenant [a] leaves, whatever its outcome: the file
    records and their counter, the files directories, the records of the
    other tenants, every index directory but its own, and the key of its
    own record. *)
Definition build_frame `{Externals} (a : string) (w w' : World) : Prop :=
  files (w_db w') = files (w_db w)
  /\ files_seq (w_db w') = files_seq (w_db w)
  /\ file_dirs (w_fs w') = file_dirs (w_fs w)
  /\ (forall b, b ≠ a -> apps (w_db w') !! b = apps (w_db w) !! b)
  /\ (forall p, p ≠ storage.get_chroma_dir a ->
        chroma_dirs (w_fs w') !! p = chroma_dirs (w_fs w) !! p)
  /\ (forall r, apps (w_db w) !! a = Some r ->
        exists r', apps (w_db w') !! a = Some r' /\ app_id r' = app_id r).

(** ** The API as a transition system

    One request served by the API takes the world to the world the
    endpoint leaves, whether it returns or raises.  Requests are as the
    HTTP layer delivers them: the identifier of a creation request and the
    message of a chat request have passed their validators; path
    parameters and uploaded parts are arbitrary. *)
Inductive api_step `{Externals} : World -> World -> Prop :=
| step_create_app (v a n : string) (w : World) :
    main.validate_app_id v = Ok a -> api_step w (main.create_app a n w).2
| step_list_apps (w : World) : api_step w (main.list_apps w).2
| step_get_app (a : string) (w : World) : api_step w (main.get_app a w).2
| step_delete_app (a : string) (w : World) : api_step w (main.delete_app a w).2
| step_upload_files (a : string) (fs : list main.UploadFile) (w : World) :
    api_step w (main.upload_files a fs w).2
| step_list_files (a : string) (w : World) : api_step w (main.list_files a w).2
| step_train_app (a : string) (w : World) : api_step w (main.train_app a w).2
| step_chat (a v m : string) (w : World) :
    main.validate_message v = Ok m -> api_step w (main.chat a m w).2.

(** A metadata store without tenants and file records. *)
Definition empty_store (w : World) : Prop :=
  apps (w_db w) = ∅ /\ files (w_db w) = [].

(** The worlds the API reaches from an empty metadata store. *)
Definition reachable `{Externals} (w : World) : Prop :=
  exists w0, empty_store w0 /\ rtc api_step w0 w.

(** What holds of the metadata store of every reachable world.  (That a
    READY tenant has a last-indexed time rests on the time stamps not
    being empty strings, which [update_app_status] would drop.) *)
Record api_inv `{Externals} (w : World) : Prop := mkApiInv {
  inv_key : forall a r, apps (w_db w) !! a = Some r ->
    app_id r = a /\ exists v, main.validate_app_id v = Ok a;
  inv_status : forall a r, apps (w_db w) !! a = Some r ->
    status r ∈ ["CREATED"; "FILES_UPDATED"; "READY"; "FAILED"];
  inv_created : forall a r, apps (w_db w) !! a = Some r ->
    (status r = "CREATED" <-> rows_of w a = []);
  inv_ready : forall a r, apps (w_db w) !! a = Some r -> status r = "READY" ->
    (forall t, isoformat t ≠ EmptyString) -> is_Some (last_indexed_at r);
  inv_ids : NoDup (map id (files (w_db w)))
            /\ Forall (fun r => (id r <= files_seq (w_db w))%nat) (files (w_db w));
  inv_rows : forall row, row ∈ files (w_db w) ->
    is_Some (apps (w_db w) !! file_app_id row)
    /\ file_path row = OsPath.join (storage.get_files_dir (file_app_id row)) (filename row)
}.

(** ** A concrete deployment

    Small stand-ins for the libraries, used to run the model on examples. *)

Module Demo.

(** Fills [{context}] and [{question}]; [skip] counts the characters of
    a field still to drop. *)
Fixpoint fill (t : list ascii) (skip : nat) (context question : list ascii)
    : list ascii :=
  match t with
  | [] => []
  | c :: t' =>
      match skip with
      | S n => fill t' n context question
      | O =>
          if Py.starts_with (Py.chars "{context}") t
          then context ++ fill t' 8 context question
          else if Py.starts_with (Py.chars "{question}") t
               then question ++ fill t' 9 context question
               else c :: fill t' 0 context question
      end
  end.

(** Reads the file whose path is [p] from whichever directory has it. *)
Definition read_text (fs : Fs) (p : string) : option string :=
  list_find (fun entry => entry.1 = p)
    (mbind (fun d : string * gmap string string =>
              map (fun e : string * string => (OsPath.join d.1 e.1, e.2)) (map_to_list d.2))
           (map_to_list (file_dirs fs)))
  ≫= fun found => Some found.2.2.

(** [os.path.dirname(p)] *)
Definition dirname (p : string) : string := Py.slice_to p (Py.rfind p OsPath.SEP).

#[export] Instance externals : Externals := {|
  STORAGE_ROOT := "/srv/storage/apps";
  isoformat := fun t => "2024-01-01T00:00:00." +:+ pretty t;
  sha256_hexdigest := fun content => content;
  TextLoader_load := fun fs p =>
    match read_text fs p with
    | Some text => Ok [mkDocument text {[ "source" := p ]}]
    | None => Raise (LibraryError ("Error loading " +:+ p))
    end;
  split_documents := fun _ _ docs => Ok docs;
  HuggingFaceEmbeddings := fun _ => Ok tt;
  Chroma_from_documents := fun chunks dir =>
    (Ok tt, mkChromaDir true (collection dir ++ chunks));
  Chroma_open := fun _ => Ok tt;
  retriever_invoke := fun dir k _ => Ok (take k (collection dir));
  OPENAI_API_KEY := None;
  ChatOpenAI := fun _ => Raise (LibraryError "no client");
  ChatOpenAI_generate := fun _ => Raise (LibraryError "no client");
  PromptTemplate := fun _ => Ok tt;
  PromptTemplate_format := fun t context question =>
    Ok (Py.str (fill (Py.chars t) 0 (Py.chars context) (Py.chars question)));
  RetrievalQA_invoke := fun _ _ _ _ => Raise (LibraryError "no client");
  open_wb := fun fs path =>
    if (255 <? Py.len (OsPath.basename path))%nat
    then Raise (OSError ("[Errno 36] File name too long: '" +:+ path +:+ "'"))
    else match file_dirs fs !! dirname path with
         | Some _ => Ok tt
         | None => Raise (OSError ("[Errno 2] No such file or directory: '"
                                   +:+ path +:+ "'"))
         end;
  write_elsewhere := fun fs path content =>
    match file_dirs fs !! dirname path with
    | Some dir => mkFs (<[dirname path := <[OsPath.basename path := content]> dir]>
                          (file_dirs fs))
                       (chroma_dirs fs)
    | None => fs
    end
|}.

Definition row (app_id status : string) : AppRow :=
  mkAppRow app_id "Demo" status None "2023-12-31T00:00:00" "2023-12-31T00:00:00".

(** A tenant [demo] with the given status, files and index. *)
Definition world (status : string) (dir : gmap string string)
    (index : option ChromaDir) : World :=
  mkWorld (mkDb {[ "demo" := row "demo" status ]} [] 0)
          (mkFs {[ "/srv/storage/apps/demo/files" := dir ]}
                (match index with
                 | Some d => {[ "/srv/storage/apps/demo/chroma_db" := d ]}
                 | None => ∅
                 end))
          0 [].

Definition chunk (text path : string) : Document :=
  mkDocument text {[ "source" := path ]}.

(** [demo] has uploaded one note; its index still holds a chunk of a
    file that is gone. *)
Definition w_uploaded : World :=
  world "FILES_UPDATED"
    {[ "notes.txt" :=
         "The sky is blue. The grass is green. Water is wet and the sun is bright." ]}
    (Some (mkChromaDir true [chunk "old text" "/srv/storage/apps/demo/files/gone.txt"])).

(** [demo] holds nothing the loader supports. *)
Definition w_unloadable : World :=
  world "FILES_UPDATED" {[ "scan.pdf" := "%PDF" ]} None.

(** [demo] is marked READY although no index was ever written. *)
Definition w_ready_no_index : World :=
  world "READY" {[ "notes.txt" := "The sky is blue." ]} (Some storage.empty_chroma_dir).

(** [demo] is trained: three chunks from two files. *)
Definition w_trained : World :=
  world "READY" {[ "a.txt" := "alpha"; "b.txt" := "beta" ]}
    (Some (mkChromaDir true
             [chunk "The sky is blue on a clear day, and it turns red at dusk and at dawn."
                    "/srv/storage/apps/demo/files/a.txt";
              chunk "Grass is green." "/srv/storage/apps/demo/files/b.txt";
              chunk "Water is wet." "/srv/storage/apps/demo/files/a.txt"])).

(** [demo] is trained, but its index holds no chunk. *)
Definition w_trained_empty : World :=
  world "READY" {[ "a.txt" := "alpha" ]} (Some (mkChromaDir true [])).

(** [demo] is trained on a text that itself contains [Question:]. *)
Definition w_trained_quiz : World :=
  world "READY" {[ "quiz.txt" := "quiz" ]}
    (Some (mkChromaDir true
             [chunk "Question: what colour is the sky on a clear day? It is blue, every child knows that."
                    "/srv/storage/apps/demo/files/quiz.txt"])).

(** A batch of three parts: supported in upper case, unsupported, and
    supported but unreadable. *)
Definition batch : list main.UploadFile :=
  [main.mkUploadFile "a.TXT" (Ok "hello");
   main.mkUploadFile "b.pdf" (Ok "%PDF");
   main.mkUploadFile "c.md" (Raise (LibraryError "connection reset"))].

(** Nothing stored yet. *)
Definition w_empty : World := mkWorld (mkDb ∅ [] 0) (mkFs ∅ ∅) 0 [].

(** Three parts, two of them under the same name. *)
Definition notes : list main.UploadFile :=
  [main.mkUploadFile "notes.txt" (Ok "The sky is blue.");
   main.mkUploadFile "notes.txt" (Ok "The sky is blue today.");
   main.mkUploadFile "b.md" (Ok "Grass is green.")].

(** The API at work: [demo] is created, gets [notes] and is trained;
    then [other] is created and gets one file. *)
Definition w_created : World := (main.create_app "demo" "Demo" w_empty).2.
Definition w_filled : World := (main.upload_files "demo" notes w_created).2.
Definition w_reached : World := (main.train_app "demo" w_filled).2.
Definition w_two : World :=
  (main.upload_files "other" [main.mkUploadFile "o.txt" (Ok "omega")]
     (main.create_app "other" "Other" w_reached).2).2.

End Demo.

(** * Proofs *)

(** ** Running the monad *)

Ltac munfold :=
  unfold mbind, M_bind, bind, mret, M_ret, ret, lift, raise;
  cbn [w_db w_fs w_clock w_trace file_dirs chroma_dirs apps files files_seq fst snd].

Section monad_lemmas.
Context {A B : Type}.

Lemma bind_run (c : M A) (k : A -> M B) (w : World) :
  (c ≫= k) w = match c w with
               | (Ok a, w') => k a w'
               | (Raise e, w') => (Raise e, w')
               end.
Proof. reflexivity. Qed.

Lemma bind_Ok_inv (c : M A) (k : A -> M B) w b w' :
  (c ≫= k) w = (Ok b, w') ->
  exists a w1, c w = (Ok a, w1) /\ k a w1 = (Ok b, w').
Proof.
  rewrite bind_run. destruct (c w) as [[a|e] w1]; [eauto | discriminate].
Qed.

Lemma bind_Raise_inv (c : M A) (k : A -> M B) w e w' :
  (c ≫= k) w = (Raise e, w') ->
  c w = (Raise e, w') \/ exists a w1, c w = (Ok a, w1) /\ k a w1 = (Raise e, w').
Proof.
  rewrite bind_run. destruct (c w) as [[a|e0] w1]; [eauto | intros [= -> ->]; auto].
Qed.

Lemma bind_Ok_run (c : M A) (k : A -> M B) w a w1 :
  c w = (Ok a, w1) -> (c ≫= k) w = k a w1.
Proof. intros Hc. rewrite bind_run, Hc. reflexivity. Qed.

Lemma bind_Raise_run (c : M A) (k : A -> M B) w e w1 :
  c w = (Raise e, w1) -> (c ≫= k) w = (Raise e, w1).
Proof. intros Hc. rewrite bind_run, Hc. reflexivity. Qed.

End monad_lemmas.

Lemma try_except_run {A : Type} (c : M A) (h : exn -> M A) (w : World) :
  try_except c h w = match c w with
                     | (Ok a, w') => (Ok a, w')
                     | (Raise e, w') => h e w'
                     end.
Proof. reflexivity. Qed.

(** ** Membership in a list of strings *)

Lemma elem_true (x : string) (xs : list string) : Py.elem x xs = true <-> x ∈ xs.
Proof.
  unfold Py.elem. rewrite existsb_exists. split.
  - intros (y & Hy & Heq). apply String.eqb_eq in Heq as ->. by apply list_elem_of_In.
  - intros Hx. exists x. split.
    + by apply list_elem_of_In.
    + apply String.eqb_refl.
Qed.

Lemma elem_false (x : string) (xs : list string) : Py.elem x xs = false <-> x ∉ xs.
Proof.
  rewrite <- elem_true. destruct (Py.elem x xs); split; done.
Qed.

(** ** The metadata store *)

Section db_lemmas.
Context {E : Externals}.

(** What a status update leaves behind. *)
Lemma update_app_status_run (a s : string) (l : option string) (w : World) :
  exists w',
    db.update_app_status a s l w = (Ok tt, w')
    /\ w_fs w' = w_fs w
    /\ w_clock w' = S (w_clock w)
    /\ w_trace w' = w_trace w ++ [EvStatus a s l]
    /\ files (w_db w') = files (w_db w)
    /\ files_seq (w_db w') = files_seq (w_db w)
    /\ (forall b, b ≠ a -> apps (w_db w') !! b = apps (w_db w) !! b)
    /\ (apps (w_db w) !! a = None -> apps (w_db w') !! a = None)
    /\ (forall r, apps (w_db w) !! a = Some r ->
          exists r', apps (w_db w') !! a = Some r'
            /\ status r' = s /\ name r' = name r /\ app_id r' = app_id r
            /\ created_at r' = created_at r
            /\ last_indexed_at r' =
                 match l with
                 | Some ts => if Py.truthy ts then Some ts else last_indexed_at r
                 | None => last_indexed_at r
                 end).
Proof.
  unfold db.update_app_status, db.utcnow, emit, get_db, put_db.
  rewrite !bind_run; cbn [w_db w_fs w_clock w_trace].
  destruct l as [ts|]; [destruct (Py.truthy ts)|];
    (eexists; split; [reflexivity|]; cbn [w_db w_fs w_clock w_trace apps files files_seq];
     repeat split; try done;
     [ intros b Hb; by rewrite lookup_alter_ne
     | intros Hn; by rewrite lookup_alter_eq, Hn
     | intros [i n st li c u] Hr; rewrite lookup_alter_eq, Hr; cbn; eauto 10 ]).
Qed.

Lemma get_app_run (a : string) (w : World) :
  db.get_app a w = (Ok (apps (w_db w) !! a), w).
Proof. reflexivity. Qed.

End db_lemmas.

(** ** The blob store *)

Section storage_lemmas.
Context {E : Externals}.

Lemma get_all_file_paths_run (a : string) (w : World) :
  storage.get_all_file_paths a w = (Ok (stored_paths (w_fs w) a), w).
Proof.
  unfold storage.get_all_file_paths, stored_paths, get_fs. rewrite bind_run.
  by destruct (file_dirs (w_fs w) !! storage.get_files_dir a).
Qed.

Lemma clear_chroma_dir_run (a : string) (w : World) :
  storage.clear_chroma_dir a w =
    (Ok tt, mkWorld (w_db w) (cleared (w_fs w) a) (w_clock w)
                    (w_trace w ++ [EvClearIndex a])).
Proof.
  unfold storage.clear_chroma_dir, storage.makedirs_chroma, emit, get_fs, put_fs, cleared.
  munfold.
  destruct (chroma_dirs (w_fs w) !! storage.get_chroma_dir a) as [old|] eqn:Hold; munfold.
  - rewrite lookup_delete_eq. by rewrite insert_delete_eq.
  - by rewrite Hold.
Qed.

Lemma stored_paths_cleared (fs : Fs) (a b : string) :
  stored_paths (cleared fs b) a = stored_paths fs a.
Proof. reflexivity. Qed.

End storage_lemmas.

(** ** The indexing pipeline *)

Section indexing_lemmas.
Context {E : Externals}.

Lemma load_documents_run (a : string) (w : World) :
  indexing.load_documents a w =
    (match stored_paths (w_fs w) a with
     | [] => Raise (ValueError ("No files found for app '" +:+ a
                                +:+ "'. Please upload files first."))
     | paths => Ok (fold_left (indexing.load_one (w_fs w)) paths [])
     end,
     mkWorld (w_db w) (w_fs w) (w_clock w) (w_trace w ++ [EvLoadDocuments a])).
Proof.
  unfold indexing.load_documents, emit. rewrite bind_run.
  rewrite bind_run, get_all_file_paths_run; cbn [w_fs].
  by destruct (stored_paths (w_fs w) a).
Qed.

Lemma chunk_documents_run (docs : list Document) (w : World) :
  indexing.chunk_documents docs w =
    (split_documents indexing.CHUNK_SIZE indexing.CHUNK_OVERLAP docs,
     mkWorld (w_db w) (w_fs w) (w_clock w) (w_trace w ++ [EvChunk])).
Proof. reflexivity. Qed.

Lemma persist_chroma_run (a : string) (chunks : list Document) (w : World) :
  indexing.persist_chroma a (storage.get_chroma_dir a) chunks w =
    ((Chroma_from_documents chunks (index_of w a)).1,
     mkWorld (w_db w)
             (mkFs (file_dirs (w_fs w))
                   (<[storage.get_chroma_dir a :=
                        (Chroma_from_documents chunks (index_of w a)).2]>
                      (chroma_dirs (w_fs w))))
             (w_clock w) (w_trace w ++ [EvPersist a])).
Proof.
  unfold indexing.persist_chroma, emit, get_fs, put_fs, lift, index_of.
  rewrite !bind_run; cbn [w_db w_fs w_clock w_trace].
  destruct (Chroma_from_documents chunks _) as [outcome dir'].
  rewrite !bind_run. by destruct outcome.
Qed.

(** Files with an unsupported extension add nothing. *)
Lemma load_one_unsupported (fs : Fs) (paths : list string) (acc : list Document) :
  Forall (fun p => storage.is_supported_file p = false) paths ->
  fold_left (indexing.load_one fs) paths acc = acc.
Proof.
  induction 1 as [|p paths Hp _ IH]; [done|]. cbn [fold_left].
  unfold indexing.load_one at 2.
  change (Py.elem _ _) with (storage.is_supported_file p). by rewrite Hp.
Qed.

(** Every document the loading loop adds carries the path it was
    loaded from. *)
Lemma load_one_sources `{!ExternalsLaws E} (fs : Fs) (paths : list string)
    (acc : list Document) (d : Document) :
  d ∈ fold_left (indexing.load_one fs) paths acc ->
  d ∈ acc \/ exists p, p ∈ paths /\ metadata d !! "source" = Some p.
Proof.
  revert acc. induction paths as [|p paths IH]; intros acc Hd; cbn in Hd; [by left|].
  apply IH in Hd as [Hd | (q & Hq & Hs)].
  - unfold indexing.load_one in Hd.
    destruct (Py.elem _ _); [|by left].
    destruct (TextLoader_load fs p) as [ds|] eqn:Hload; [|by left].
    apply elem_of_app in Hd as [Hd|Hd]; [by left|].
    right. exists p. split; [left|]. by eapply TextLoader_source.
  - right. exists q. split; [by right|done].
Qed.

End indexing_lemmas.

Section build_lemmas.
Context {E : Externals}.

(** What a build that runs to its end has done. *)
Lemma build_index_steps_Ok (a : string) (w w' : World) (n m : nat) :
  indexing.build_index_steps a w = (Ok (n, m), w') ->
  exists docs chunks dir',
    docs = fold_left (indexing.load_one (cleared (w_fs w) a)) (stored_paths (w_fs w) a) []
    /\ docs ≠ []
    /\ split_documents indexing.CHUNK_SIZE indexing.CHUNK_OVERLAP docs = Ok chunks
    /\ Chroma_from_documents chunks storage.empty_chroma_dir = (Ok tt, dir')
    /\ n = length docs /\ m = length chunks
    /\ w_trace w' = w_trace w ++ build_trace a (isoformat (S (w_clock w)))
    /\ w_fs w' = mkFs (file_dirs (w_fs w))
                      (<[storage.get_chroma_dir a := dir']> (chroma_dirs (w_fs w)))
    /\ (forall b, b ≠ a -> apps (w_db w') !! b = apps (w_db w) !! b)
    /\ (forall r, apps (w_db w) !! a = Some r ->
          exists r', apps (w_db w') !! a = Some r'
            /\ status r' = "READY" /\ name r' = name r
            /\ last_indexed_at r' =
                 if Py.truthy (isoformat (S (w_clock w)))
                 then Some (isoformat (S (w_clock w))) else last_indexed_at r).
Proof.
  unfold indexing.build_index_steps. intros H.
  apply bind_Ok_inv in H as ([] & w1 & H1 & H).
  destruct (update_app_status_run a "INDEXING" None w)
    as (w1' & Hu1 & Hfs1 & Hck1 & Htr1 & _ & _ & Hne1 & _ & Hrow1).
  rewrite Hu1 in H1. injection H1 as <-.
  apply bind_Ok_inv in H as ([] & w2 & H2 & H).
  rewrite clear_chroma_dir_run in H2. injection H2 as <-.
  apply bind_Ok_inv in H as (docs & w3 & H3 & H).
  rewrite load_documents_run in H3. cbn [w_db w_fs w_clock w_trace] in H3.
  rewrite stored_paths_cleared, Hfs1 in H3.
  injection H3 as Hdocs <-.
  destruct docs as [|d0 docs0] eqn:Edocs; [discriminate H|]. rewrite <- Edocs in *.
  assert (Hload : docs = fold_left (indexing.load_one (cleared (w_fs w) a))
                                   (stored_paths (w_fs w) a) []).
  { destruct (stored_paths (w_fs w) a); [discriminate|]. by injection Hdocs. }
  clear Hdocs.
  apply bind_Ok_inv in H as (chunks & w4 & H4 & H).
  rewrite chunk_documents_run in H4. injection H4 as Hsplit <-.
  apply bind_Ok_inv in H as ([] & w5 & H5 & H). injection H5 as <-.
  apply bind_Ok_inv in H as ([] & w6 & H6 & H).
  unfold lift in H6. injection H6 as Hemb <-.
  apply bind_Ok_inv in H as ([] & w7 & H7 & H).
  rewrite persist_chroma_run in H7.
  unfold index_of in H7. cbn [w_db w_fs w_clock w_trace chroma_dirs cleared] in H7.
  rewrite lookup_insert_eq in H7. cbn [default from_option] in H7. unfold Datatypes.id in H7.
  destruct (Chroma_from_documents chunks storage.empty_chroma_dir) as [outcome dir'] eqn:Hch.
  cbn [fst snd] in H7. injection H7 as Hout <-. subst outcome.
  apply bind_Ok_inv in H as (now & w8 & H8 & H).
  unfold db.utcnow in H8. cbn [w_db w_fs w_clock w_trace] in H8.
  injection H8 as <- <-.
  apply bind_Ok_inv in H as ([] & w9 & H9 & H).
  injection H as <- <- <-.
  match type of H9 with db.update_app_status _ _ _ ?w0 = _ =>
    destruct (update_app_status_run a "READY" (Some (isoformat (w_clock w1'))) w0)
      as (w9' & Hu9 & Hfs9 & Hck9 & Htr9 & _ & _ & Hne9 & _ & Hrow9) end.
  rewrite Hu9 in H9. injection H9 as <-.
  cbn [w_db w_fs w_clock w_trace] in *.
  exists docs, chunks, dir'. rewrite Hck1 in *.
  split; [done|]. split; [by subst docs|]. split; [done|]. split; [done|].
  split; [done|]. split; [done|]. split; [|split; [|split]].
  - rewrite Htr9, Htr1. unfold build_trace. cbn [w_trace]. by rewrite <- !app_assoc.
  - rewrite Hfs9. cbn [w_fs]. unfold cleared. cbn [file_dirs chroma_dirs].
    by rewrite insert_insert_eq.
  - intros b Hb. rewrite Hne9 by done. cbn [w_db]. by rewrite Hne1.
  - intros r Hr. destruct (Hrow1 r Hr) as (r1 & Hr1 & _ & Hn1 & _ & _ & Hl1).
    destruct (Hrow9 r1 Hr1) as (r9 & Hr9 & Hs9 & Hn9 & _ & _ & Hl9).
    exists r9. split; [done|]. split; [done|]. split; [congruence|].
    rewrite Hl9. by rewrite Hl1.
Qed.

End build_lemmas.

(** ** Relations every step keeps *)

Section keeps_lemmas.
Context (R : relation World) `{!PreOrder R}.

Lemma keeps_ret {A} (a : A) : keeps R (mret a).
Proof. intros w. reflexivity. Qed.

Lemma keeps_raise {A} (e : exn) : keeps R (@raise A e).
Proof. intros w. reflexivity. Qed.

Lemma keeps_lift {A} (r : result A) : keeps R (lift r).
Proof. intros w. reflexivity. Qed.

Lemma keeps_get_fs : keeps R get_fs.
Proof. intros w. reflexivity. Qed.

Lemma keeps_get_db : keeps R get_db.
Proof. intros w. reflexivity. Qed.

Lemma keeps_bind {A B} (c : M A) (k : A -> M B) :
  keeps R c -> (forall a, keeps R (k a)) -> keeps R (c ≫= k).
Proof.
  intros Hc Hk w. rewrite bind_run. specialize (Hc w).
  destruct (c w) as [[a|e] w1]; cbn [snd] in *; [|done].
  etrans; [exact Hc | apply Hk].
Qed.

Lemma keeps_try_except {A} (c : M A) (h : exn -> M A) :
  keeps R c -> (forall e, keeps R (h e)) -> keeps R (try_except c h).
Proof.
  intros Hc Hh w. rewrite try_except_run. specialize (Hc w).
  destruct (c w) as [[a|e] w1]; cbn [snd] in *; [done|].
  etrans; [exact Hc | apply Hh].
Qed.

End keeps_lemmas.

Ltac keeps_steps R :=
  repeat first
    [ apply (keeps_bind R); [|intros ?]
    | apply (keeps_try_except R); [|intros ?]
    | apply (keeps_ret R) | apply (keeps_raise R) | apply (keeps_lift R)
    | apply (keeps_get_fs R) | apply (keeps_get_db R)
    | match goal with
      | |- keeps _ (match ?x with _ => _ end) => destruct x
      | |- keeps _ (if ?x then _ else _) => destruct x
      end ].

(** ** Chat reads and never writes *)

Section chat_frame.
Context {E : Externals}.

Lemma keeps_index_exists a : keeps eq (indexing.index_exists a).
Proof. unfold indexing.index_exists. keeps_steps (@eq World). Qed.

Lemma keeps_load_vector_db a : keeps eq (rag.load_vector_db a).
Proof.
  unfold rag.load_vector_db. apply (keeps_bind eq); [apply keeps_index_exists|].
  intros ?. keeps_steps (@eq World).
Qed.

Lemma keeps_get_llm : keeps eq llm.get_llm.
Proof. unfold llm.get_llm. keeps_steps (@eq World). Qed.

Lemma keeps_generate l p : keeps eq (llm.generate l p).
Proof. unfold llm.generate. keeps_steps (@eq World). Qed.

Lemma keeps_manual_retrieval a l v p m : keeps eq (rag.manual_retrieval a l v p m).
Proof.
  unfold rag.manual_retrieval. apply (keeps_bind eq); [keeps_steps (@eq World)|].
  intros docs. destruct docs; [keeps_steps (@eq World)|].
  apply (keeps_bind eq); [keeps_steps (@eq World)|]. intros ?.
  apply (keeps_bind eq); [apply keeps_generate|]. intros ?. keeps_steps (@eq World).
Qed.

Lemma keeps_chat_steps a m app : keeps eq (rag.chat_steps a m app).
Proof.
  unfold rag.chat_steps.
  apply (keeps_bind eq); [apply keeps_load_vector_db|]. intros ?.
  apply (keeps_bind eq); [apply keeps_get_llm|]. intros ?.
  apply (keeps_bind eq); [unfold rag.get_prompt_template; keeps_steps (@eq World)|].
  intros ?. apply (keeps_bind eq).
  - destruct llm.has_openai_key; [keeps_steps (@eq World)|apply keeps_manual_retrieval].
  - intros [? ?]. keeps_steps (@eq World).
Qed.

Lemma keeps_chat a m : keeps eq (rag.chat a m).
Proof.
  unfold rag.chat, db.get_app.
  apply (keeps_bind eq); [keeps_steps (@eq World)|]. intros [app|]; [|keeps_steps (@eq World)].
  destruct (negb _); [keeps_steps (@eq World)|].
  apply (keeps_try_except eq); [apply keeps_chat_steps|]. intros ?. keeps_steps (@eq World).
Qed.

(** The outcome of [chat], path by path. *)
Lemma chat_run (a m : string) (w : World) :
  rag.chat a m w =
    (Ok (match apps (w_db w) !! a with
         | None => rag.not_found a
         | Some app =>
             if negb (String.eqb (status app) "READY")
             then rag.not_trained a (status app)
             else match (rag.chat_steps a m app w).1 with
                  | Ok r => r
                  | Raise e => rag.failure e
                  end
         end), w).
Proof.
  pose proof (keeps_chat a m w) as Hw.
  unfold rag.chat in *. rewrite bind_run, get_app_run in *.
  destruct (apps (w_db w) !! a) as [app|]; [|done].
  destruct (negb _); [done|].
  rewrite try_except_run in *.
  pose proof (keeps_chat_steps a m app w) as Hs.
  destruct (rag.chat_steps a m app w) as [[r|e] w1]; cbn [fst snd] in *; by subst.
Qed.

End chat_frame.

(** ** The concrete deployment obeys the laws *)

#[export] Instance Demo_laws : ExternalsLaws Demo.externals.
Proof.
  split.
  - intros t. discriminate.
  - intros fs p ds d. cbn. destruct (Demo.read_text fs p); [|discriminate].
    intros [= <-] ->%list_elem_of_singleton. cbn. apply lookup_singleton_eq.
  - intros size overlap docs chunks c [= <-] Hc. by exists c.
  - intros chunks dir dir' [= <-]. done.
  - intros dir k q r [= <-]. split.
    + rewrite length_take. lia.
    + apply subseteq_take.
  - intros dir k t q a r. discriminate.
Qed.

(** ** A build never adds or drops a tenant *)

#[export] Instance same_tenants_preorder : PreOrder same_tenants.
Proof.
  split.
  - intros w. reflexivity.
  - intros w1 w2 w3 H12 H23. unfold same_tenants in *. congruence.
Qed.

Section tenants_lemmas.
Context {E : Externals}.

Lemma keeps_same_db {A} (c : M A) :
  (forall w, w_db (c w).2 = w_db w) -> keeps same_tenants c.
Proof. intros Hc w. unfold same_tenants. by rewrite Hc. Qed.

Lemma keeps_update_app_status a s l :
  keeps same_tenants (db.update_app_status a s l).
Proof.
  intros w. destruct (update_app_status_run a s l w)
    as (w' & -> & _ & _ & _ & _ & _ & Hne & Hnone & Hsome).
  cbn [snd]. unfold same_tenants. apply set_eq. intros b.
  rewrite !elem_of_dom. destruct (decide (b = a)) as [->|Hb]; [|by rewrite Hne].
  destruct (apps (w_db w) !! a) as [r|] eqn:Hr.
  - destruct (Hsome r eq_refl) as (r' & -> & _). split; eauto.
  - by rewrite Hnone.
Qed.

Lemma keeps_build_index_steps a : keeps same_tenants (indexing.build_index_steps a).
Proof.
  unfold indexing.build_index_steps.
  apply (keeps_bind same_tenants); [apply keeps_update_app_status|]. intros _.
  apply (keeps_bind same_tenants).
  { apply keeps_same_db. intros w. by rewrite clear_chroma_dir_run. } intros _.
  apply (keeps_bind same_tenants).
  { apply keeps_same_db. intros w. by rewrite load_documents_run. } intros docs.
  destruct docs; [apply (keeps_raise same_tenants)|].
  apply (keeps_bind same_tenants).
  { apply keeps_same_db. intros w. by rewrite chunk_documents_run. } intros chunks.
  apply (keeps_bind same_tenants); [by apply keeps_same_db|]. intros _.
  apply (keeps_bind same_tenants); [apply (keeps_lift same_tenants)|]. intros _.
  apply (keeps_bind same_tenants).
  { apply keeps_same_db. intros w. by rewrite persist_chroma_run. } intros _.
  apply (keeps_bind same_tenants); [by apply keeps_same_db|]. intros now.
  apply (keeps_bind same_tenants); [apply keeps_update_app_status|]. intros _.
  apply (keeps_ret same_tenants).
Qed.

(** A build that returns has run its steps to the end. *)
Lemma build_index_Ok_inv a w x w' :
  indexing.build_index a w = (Ok x, w') ->
  indexing.build_index_steps a w = (Ok x, w').
Proof.
  unfold indexing.build_index. rewrite try_except_run.
  destruct (indexing.build_index_steps a w) as [[y|e] w1]; [done|].
  rewrite bind_run.
  destruct (update_app_status_run a "FAILED" None w1) as (w2 & -> & _). discriminate.
Qed.

(** A build whose steps raise marks the tenant FAILED and raises the
    same exception. *)
Lemma build_index_Raise a w e w1 r :
  apps (w_db w) !! a = Some r ->
  indexing.build_index_steps a w = (Raise e, w1) ->
  exists w', indexing.build_index a w = (Raise e, w')
    /\ status_of w' a = Some "FAILED"
    /\ w_fs w' = w_fs w1.
Proof.
  intros Hr Hsteps.
  pose proof (keeps_build_index_steps a w) as Hdom. rewrite Hsteps in Hdom.
  cbn [snd] in Hdom. unfold same_tenants in Hdom.
  assert (is_Some (apps (w_db w1) !! a)) as [r1 Hr1].
  { apply elem_of_dom. rewrite Hdom. apply elem_of_dom. eauto. }
  unfold indexing.build_index. rewrite try_except_run, Hsteps, bind_run.
  destruct (update_app_status_run a "FAILED" None w1)
    as (w2 & -> & Hfs & _ & _ & _ & _ & _ & _ & Hsome).
  destruct (Hsome r1 Hr1) as (r2 & Hr2 & Hst & _).
  exists w2. split; [done|]. split; [|done].
  unfold status_of. by rewrite Hr2; cbn; rewrite Hst.
Qed.

End tenants_lemmas.

(** ** Uploading *)

Section upload_lemmas.
Context {E : Externals}.

(** Both directories exist afterwards, with what they held before. *)
Lemma ensure_app_dirs_run (a : string) (w : World) :
  exists w',
    storage.ensure_app_dirs a w = (Ok tt, w')
    /\ w_db w' = w_db w /\ w_clock w' = w_clock w /\ w_trace w' = w_trace w
    /\ file_dirs (w_fs w') !! storage.get_files_dir a
       = Some (default ∅ (file_dirs (w_fs w) !! storage.get_files_dir a))
    /\ chroma_dirs (w_fs w') !! storage.get_chroma_dir a
       = Some (default storage.empty_chroma_dir
                 (chroma_dirs (w_fs w) !! storage.get_chroma_dir a))
    /\ (forall p, p ≠ storage.get_files_dir a ->
          file_dirs (w_fs w') !! p = file_dirs (w_fs w) !! p)
    /\ (forall p, p ≠ storage.get_chroma_dir a ->
          chroma_dirs (w_fs w') !! p = chroma_dirs (w_fs w) !! p).
Proof.
  unfold storage.ensure_app_dirs, storage.makedirs_files, storage.makedirs_chroma,
    get_fs, put_fs. munfold.
  destruct (file_dirs (w_fs w) !! storage.get_files_dir a) as [dir|] eqn:Hf; munfold;
    destruct (chroma_dirs (w_fs w) !! storage.get_chroma_dir a) as [cd|] eqn:Hc; munfold;
    eexists; (split; [reflexivity|]); cbn [w_db w_fs w_clock w_trace file_dirs chroma_dirs];
    rewrite ?lookup_insert_eq, ?Hf, ?Hc;
    (repeat split; try done; intros p Hp; by rewrite lookup_insert_ne).
Qed.

Lemma ensure_app_dirs_db (a : string) (w : World) :
  w_db (storage.ensure_app_dirs a w).2 = w_db w.
Proof. destruct (ensure_app_dirs_run a w) as (w' & -> & Hdb & _). exact Hdb. Qed.

(** [save_file] makes the directories, then writes or raises as [open]
    decides. *)
Lemma save_file_run (a n c : string) (w : World) :
  storage.save_file a n c w =
    let w0 := (storage.ensure_app_dirs a w).2 in
    match open_wb (w_fs w0) (OsPath.join (storage.get_files_dir a) n) with
    | Ok _ => (Ok (OsPath.join (storage.get_files_dir a) n),
               mkWorld (w_db w0) (saved (w_fs w0) a n c) (w_clock w0) (w_trace w0))
    | Raise e => (Raise e, w0)
    end.
Proof.
  unfold storage.save_file. rewrite bind_run.
  destruct (ensure_app_dirs_run a w) as (w0 & -> & _). cbn [snd].
  unfold get_fs, put_fs, saved. munfold.
  destruct (open_wb _ _); [|done]. by destruct (storage.is_entry_name n).
Qed.

(** One part: the read raises, [open] raises, or the file is written and
    recorded. *)
Lemma upload_one_run (a : string) (f : main.UploadFile) (w : World) :
  match main.uf_read f with
  | Raise e => main.upload_one a f w = (Raise e, w)
  | Ok content =>
      let w0 := (storage.ensure_app_dirs a w).2 in
      match open_wb (w_fs w0)
                    (OsPath.join (storage.get_files_dir a) (main.uf_filename f)) with
      | Raise e => main.upload_one a f w = (Raise e, w0)
      | Ok _ =>
          exists fd row w',
            main.upload_one a f w = (Ok fd, w')
            /\ files (w_db w') = files (w_db w) ++ [row]
            /\ files_seq (w_db w') = S (files_seq (w_db w))
            /\ apps (w_db w') = apps (w_db w)
            /\ w_fs w' = saved (w_fs w0) a (main.uf_filename f) content
            /\ id row = S (files_seq (w_db w))
            /\ file_app_id row = a
            /\ filename row = main.uf_filename f
            /\ file_path row
               = OsPath.join (storage.get_files_dir a) (main.uf_filename f)
            /\ db.fd_id fd = id row
            /\ db.fd_filename fd = main.uf_filename f
      end
  end.
Proof.
  assert (Hone : main.upload_one a f w
    = match main.uf_read f with
      | Raise e => (Raise e, w)
      | Ok content =>
          match storage.save_file a (main.uf_filename f) content w with
          | (Ok p, w1) =>
              db.add_file a (main.uf_filename f) p (Py.len content)
                (storage.compute_file_hash content) w1
          | (Raise e, w1) => (Raise e, w1)
          end
      end).
  { unfold main.upload_one. rewrite bind_run. unfold lift at 1.
    by destruct (main.uf_read f). }
  rewrite Hone. clear Hone.
  destruct (main.uf_read f) as [content|e]; [|done].
  cbn zeta. rewrite save_file_run. cbn zeta.
  pose proof (ensure_app_dirs_db a w) as Hdb.
  destruct (open_wb _ _); [|done].
  unfold db.add_file, db.utcnow, get_db, put_db. munfold.
  eexists _, _, _. split; [reflexivity|].
  cbn [w_db w_fs files files_seq apps id file_app_id filename file_path
       db.fd_id db.fd_filename].
  rewrite Hdb. done.
Qed.

(** The three ways the [try] of the loop ends. *)
Lemma upload_try_run (a : string) (f : main.UploadFile) (w : World) :
  try_except
    (file_data ← main.upload_one a f; mret (inl file_data))
    (fun e => mret (inr ("Error uploading " +:+ main.uf_filename f +:+ ": "
                         +:+ str_exn e))) w
  = match main.upload_one a f w with
    | (Ok fd, w') => (Ok (inl fd), w')
    | (Raise e, w') =>
        (Ok (inr ("Error uploading " +:+ main.uf_filename f +:+ ": " +:+ str_exn e)), w')
    end.
Proof.
  rewrite try_except_run, bind_run. by destruct (main.upload_one a f w) as [[fd|e] w'].
Qed.

(** A failed attempt leaves the metadata store alone. *)
Lemma upload_one_Raise (a : string) (f : main.UploadFile) (w w' : World) (e : exn) :
  main.upload_one a f w = (Raise e, w') ->
  w_db w' = w_db w
  /\ (main.uf_read f = Raise e /\ w' = w
      \/ readable f = true /\ w' = (storage.ensure_app_dirs a w).2).
Proof.
  intros Hone. pose proof (upload_one_run a f w) as Hrun. unfold readable.
  destruct (main.uf_read f) as [content|e0].
  - cbn zeta in Hrun. destruct (open_wb _ _).
    + destruct Hrun as (? & ? & ? & Hrun & _). rewrite Hrun in Hone. discriminate.
    + rewrite Hrun in Hone. injection Hone as <- <-.
      split; [apply ensure_app_dirs_db|]. by right.
  - rewrite Hrun in Hone. injection Hone as <- <-. split; [done|]. by left.
Qed.

(** What an attempt that completes has done. *)
Lemma upload_one_Ok (a : string) (f : main.UploadFile) (w w' : World) (fd : db.FileData) :
  main.upload_one a f w = (Ok fd, w') ->
  exists content row,
    main.uf_read f = Ok content
    /\ files (w_db w') = files (w_db w) ++ [row]
    /\ files_seq (w_db w') = S (files_seq (w_db w))
    /\ apps (w_db w') = apps (w_db w)
    /\ w_fs w' = saved (w_fs (storage.ensure_app_dirs a w).2) a (main.uf_filename f) content
    /\ id row = S (files_seq (w_db w))
    /\ file_app_id row = a
    /\ filename row = main.uf_filename f
    /\ file_path row = OsPath.join (storage.get_files_dir a) (main.uf_filename f)
    /\ db.fd_id fd = id row
    /\ db.fd_filename fd = main.uf_filename f.
Proof.
  intros Hone. pose proof (upload_one_run a f w) as Hrun.
  destruct (main.uf_read f) as [content|e0]; [|by rewrite Hrun in Hone].
  cbn zeta in Hrun. destruct (open_wb _ _); [|by rewrite Hrun in Hone].
  destruct Hrun as (fd' & row & w1 & Hrun & H). rewrite Hrun in Hone.
  injection Hone as <- <-. exists content, row. split; [done|exact H].
Qed.

Lemma stored_uploads_cons (a : string) (f : main.UploadFile) (fs : list main.UploadFile)
    (w : World) :
  stored_uploads a (f :: fs) w =
    if negb (supported_upload f) then stored_uploads a fs w
    else match main.upload_one a f w with
         | (Ok _, w') => f :: stored_uploads a fs w'
         | (Raise _, w') => stored_uploads a fs w'
         end.
Proof. reflexivity. Qed.

Lemma attempted_uploads_cons (f : main.UploadFile) (fs : list main.UploadFile) :
  attempted_uploads (f :: fs) =
    if supported_upload f && readable f then f :: attempted_uploads fs
    else attempted_uploads fs.
Proof. reflexivity. Qed.

(** A stored part was supported and readable. *)
Lemma stored_uploads_attempted (a : string) (fs : list main.UploadFile) :
  forall w, sublist (stored_uploads a fs w) (attempted_uploads fs).
Proof.
  induction fs as [|f fs IH]; intros w; [done|].
  rewrite stored_uploads_cons, attempted_uploads_cons.
  destruct (supported_upload f) eqn:Hsup; cbn [negb andb]; [|apply IH].
  destruct (main.upload_one a f w) as [[fd|e] w'] eqn:Hone.
  - apply upload_one_Ok in Hone as (content & row & Hread & _).
    unfold readable. rewrite Hread. by apply sublist_skip.
  - destruct (readable f); [apply sublist_cons|]; apply IH.
Qed.

(** The loop, outcome and effect on the metadata store. *)
Lemma upload_loop_run (a : string) (fs : list main.UploadFile) : forall up0 er0 w,
  exists up er w' errs rows,
    main.upload_loop a fs up0 er0 w = (Ok (up, er), w')
    /\ map db.fd_filename up
       = map db.fd_filename up0 ++ map main.uf_filename (stored_uploads a fs w)
    /\ map db.fd_id up = map db.fd_id up0 ++ map id rows
    /\ (length up = length up0 + length (stored_uploads a fs w))%nat
    /\ er = er0 ++ errs
    /\ (length (stored_uploads a fs w) + length errs = length fs)%nat
    /\ (forall f, f ∈ fs -> supported_upload f = false ->
          "Unsupported file type: " +:+ main.uf_filename f ∈ errs)
    /\ (forall f e, f ∈ fs -> supported_upload f = true -> main.uf_read f = Raise e ->
          "Error uploading " +:+ main.uf_filename f +:+ ": " +:+ str_exn e ∈ errs)
    /\ apps (w_db w') = apps (w_db w)
    /\ files (w_db w') = files (w_db w) ++ rows
    /\ map filename rows = map main.uf_filename (stored_uploads a fs w)
    /\ Forall (fun r => file_app_id r = a
                 /\ file_path r = OsPath.join (storage.get_files_dir a) (filename r)) rows
    /\ map id rows = seq (S (files_seq (w_db w))) (length rows)
    /\ files_seq (w_db w') = (files_seq (w_db w) + length rows)%nat
    /\ (attempted_uploads fs = [] -> w' = w).
Proof.
  induction fs as [|f fs IH]; intros up0 er0 w.
  - exists up0, er0, w, [], []. cbn. rewrite !app_nil_r, Nat.add_0_r.
    repeat split; try done.
    + intros f Hin. by apply elem_of_nil in Hin.
    + intros f e Hin. by apply elem_of_nil in Hin.
  - cbn [main.upload_loop]. rewrite stored_uploads_cons, attempted_uploads_cons.
    change (storage.is_supported_file (main.uf_filename f)) with (supported_upload f).
    destruct (supported_upload f) eqn:Hsup; cbn [negb andb].
    + rewrite bind_run, upload_try_run.
      destruct (main.upload_one a f w) as [[fd|e] w1] eqn:Hone.
      * apply upload_one_Ok in Hone
          as (content & row & Hread & Hfiles & Hseq & Happs & _ & Hid & Hrow & Hname & Hpath
              & Hfdid & Hfdname).
        destruct (IH (up0 ++ [fd]) er0 w1)
          as (up & er & w' & errs & rows & -> & Hup & Hids & Hlen & Her & Hcount & Hunsup
              & Hunread & Ha & Hf & Hn & Hall & Hseqs & Hfs & _).
        exists up, er, w', errs, (row :: rows). split; [done|].
        unfold readable. rewrite Hread.
        split; [rewrite Hup, map_app, <- app_assoc; cbn; by rewrite Hfdname|].
        split; [rewrite Hids, map_app, <- app_assoc; cbn; by rewrite Hfdid|].
        split; [rewrite Hlen, length_app; cbn; lia|].
        split; [done|]. split; [cbn [length]; lia|].
        split.
        { intros g Hg Hgs. apply elem_of_cons in Hg as [->|Hg]; [congruence|].
          by apply Hunsup. }
        split.
        { intros g e Hg Hgs Hgr. apply elem_of_cons in Hg as [->|Hg]; [congruence|].
          by apply (Hunread g e). }
        split; [by rewrite Ha|].
        split; [by rewrite Hf, Hfiles, <- app_assoc|].
        split; [cbn [map]; by rewrite Hname, Hn|].
        split; [constructor; [split; [done|by rewrite Hpath, Hname]|done]|].
        split; [cbn [map length seq]; by rewrite Hid, Hseqs, Hseq|].
        split; [rewrite Hfs, Hseq; cbn [length]; lia|]. done.
      * apply upload_one_Raise in Hone as (Hdb & Hcase).
        destruct (IH up0 (er0 ++ ["Error uploading " +:+ main.uf_filename f +:+ ": "
                                   +:+ str_exn e]) w1)
          as (up & er & w' & errs & rows & -> & Hup & Hids & Hlen & Her & Hcount & Hunsup
              & Hunread & Ha & Hf & Hn & Hall & Hseqs & Hfs & Hsame).
        exists up, er, w',
          (("Error uploading " +:+ main.uf_filename f +:+ ": " +:+ str_exn e) :: errs), rows.
        split; [done|].
        split; [done|]. split; [done|]. split; [done|].
        split; [by rewrite Her, <- app_assoc|]. split; [cbn [length]; lia|].
        split.
        { intros g Hg Hgs. apply elem_of_cons in Hg as [->|Hg]; [congruence|].
          right. by apply Hunsup. }
        split.
        { intros g e' Hg Hgs Hgr. apply elem_of_cons in Hg as [->|Hg].
          - destruct Hcase as [[Hread _]|[Hread _]].
            + assert (e' = e) as -> by congruence. left.
            + unfold readable in Hread. by rewrite Hgr in Hread.
          - right. by apply (Hunread g e'). }
        split; [by rewrite Ha, Hdb|]. split; [by rewrite Hf, Hdb|]. split; [done|].
        split; [done|]. split; [by rewrite Hseqs, Hdb|]. split; [by rewrite Hfs, Hdb|].
        destruct Hcase as [[Hread ->]|[Hread _]].
        -- unfold readable. rewrite Hread. exact Hsame.
        -- by rewrite Hread.
    + destruct (IH up0 (er0 ++ ["Unsupported file type: " +:+ main.uf_filename f]) w)
        as (up & er & w' & errs & rows & -> & Hup & Hids & Hlen & Her & Hcount & Hunsup
            & Hunread & Ha & Hf & Hn & Hall & Hseqs & Hfs & Hsame).
      exists up, er, w', (("Unsupported file type: " +:+ main.uf_filename f) :: errs), rows.
      split; [done|]. rewrite Her, <- app_assoc. cbn [app length].
      split; [done|]. split; [done|]. split; [done|]. split; [done|]. split; [lia|].
      split.
      { intros g Hg Hgs. apply elem_of_cons in Hg as [->|Hg]; [by left|].
        right. by apply Hunsup. }
      split.
      { intros g e Hg Hgs Hgr. apply elem_of_cons in Hg as [->|Hg]; [congruence|].
        right. by apply (Hunread g e). }
      done.
Qed.

(** Unsupported parts change neither what is stored nor the world. *)
Lemma upload_loop_supported_only a fs : forall up0 er0 er1 w,
  exists up er er' w',
    main.upload_loop a fs up0 er0 w = (Ok (up, er), w')
    /\ main.upload_loop a (List.filter supported_upload fs) up0 er1 w = (Ok (up, er'), w').
Proof.
  induction fs as [|f fs IH]; intros up0 er0 er1 w.
  - cbn. eauto 10.
  - cbn [List.filter main.upload_loop].
    change (storage.is_supported_file (main.uf_filename f)) with (supported_upload f).
    destruct (supported_upload f) eqn:Hsup; cbn [negb]; [|apply IH].
    cbn [main.upload_loop].
    change (storage.is_supported_file (main.uf_filename f)) with (supported_upload f).
    rewrite Hsup. cbn [negb]. rewrite !bind_run, upload_try_run.
    destruct (main.upload_one a f w) as [[fd|e] w1]; apply IH.
Qed.

End upload_lemmas.

Section upload_files_lemmas.
Context {E : Externals}.

Lemma upload_files_run a fs w r :
  apps (w_db w) !! a = Some r ->
  exists data w' rows,
    main.upload_files a fs w = (Ok data, w')
    /\ map db.fd_filename (main.uploaded data) = map main.uf_filename (stored_uploads a fs w)
    /\ map db.fd_id (main.uploaded data) = map id rows
    /\ (length (main.uploaded data) + length (main.errors data) = length fs)%nat
    /\ (forall f, f ∈ fs -> supported_upload f = false ->
          "Unsupported file type: " +:+ main.uf_filename f ∈ main.errors data)
    /\ (forall f e, f ∈ fs -> supported_upload f = true -> main.uf_read f = Raise e ->
          "Error uploading " +:+ main.uf_filename f +:+ ": " +:+ str_exn e
            ∈ main.errors data)
    /\ files (w_db w') = files (w_db w) ++ rows
    /\ map filename rows = map main.uf_filename (stored_uploads a fs w)
    /\ Forall (fun r => file_app_id r = a
                 /\ file_path r = OsPath.join (storage.get_files_dir a) (filename r)) rows
    /\ map id rows = seq (S (files_seq (w_db w))) (length rows)
    /\ files_seq (w_db w') = (files_seq (w_db w) + length rows)%nat
    /\ (forall b, b ≠ a -> apps (w_db w') !! b = apps (w_db w) !! b)
    /\ (attempted_uploads fs = [] -> w' = w)
    /\ (stored_uploads a fs w = [] -> w_db w' = w_db w)
    /\ (stored_uploads a fs w ≠ [] ->
          exists r', apps (w_db w') !! a = Some r'
            /\ status r' = "FILES_UPDATED" /\ app_id r' = app_id r
            /\ name r' = name r /\ last_indexed_at r' = last_indexed_at r).
Proof.
  intros Hr. unfold main.upload_files. rewrite bind_run, get_app_run, Hr, bind_run.
  destruct (upload_loop_run a fs [] [] w)
    as (up & er & w1 & errs & rows & -> & Hup & Hids & Hlen & -> & Hcount & Hunsup & Hunread
        & Happs & Hfiles & Hnames & Hall & Hseqs & Hfs & Hsame).
  cbn [app length map] in *. rewrite bind_run.
  destruct up as [|fd up].
  - assert (Hnil : stored_uploads a fs w = []).
    { destruct (stored_uploads a fs w); [done|discriminate Hlen]. }
    assert (Hrows : rows = []).
    { rewrite Hnil in Hnames. by destruct rows. }
    cbn [mret M_ret ret]. eexists _, w1, rows. split; [reflexivity|].
    cbn [main.uploaded main.errors length]. rewrite Hnil in *. subst rows.
    cbn [length] in *. rewrite app_nil_r in Hfiles. rewrite Nat.add_0_r in Hfs.
    repeat match goal with |- _ /\ _ => split end; try done.
    + by rewrite app_nil_r.
    + lia.
    + intros b _. by rewrite Happs.
    + intros _. destruct (w_db w1), (w_db w). cbn in *. by subst.
  - assert (Hcons : stored_uploads a fs w ≠ []).
    { intros Hnil. rewrite Hnil in Hlen. discriminate Hlen. }
    destruct (update_app_status_run a "FILES_UPDATED" None w1)
      as (w2 & -> & _ & _ & _ & Hf2 & Hs2 & Hne & _ & Hsome).
    cbn [mret M_ret ret]. eexists _, w2, rows. split; [reflexivity|].
    cbn [main.uploaded main.errors]. rewrite Hf2, Hs2.
    repeat match goal with |- _ /\ _ => split end; try done.
    + cbn [length] in *. lia.
    + intros b Hb. rewrite Hne by done. by rewrite Happs.
    + intros Hatt. pose proof (stored_uploads_attempted a fs w) as Hsub.
      rewrite Hatt in Hsub. apply sublist_nil_r in Hsub. done.
    + intros _. rewrite <- Happs in Hr.
      destruct (Hsome r Hr) as (r' & Hr' & Hst & Hnm & Hid & _ & Hli). eauto 10.
Qed.

Lemma upload_files_supported_only a fs w :
  (main.upload_files a fs w).2
  = (main.upload_files a (List.filter supported_upload fs) w).2.
Proof.
  unfold main.upload_files. rewrite !bind_run, get_app_run.
  destruct (apps (w_db w) !! a) as [r|]; [|done].
  rewrite !bind_run.
  destruct (upload_loop_supported_only a fs [] [] [] w)
    as (up & er & er' & w1 & -> & ->).
  rewrite !bind_run. by destruct up.
Qed.

End upload_files_lemmas.

(** ** Source attribution *)

Section sources_lemmas.

Lemma add_source_run (sources : list string) (doc : Document) :
  rag.add_source sources doc =
    if decide (source_filename doc ∈ sources) then sources
    else sources ++ [source_filename doc].
Proof.
  unfold rag.add_source. fold (source_filename doc).
  destruct (Py.elem _ _) eqn:Hel.
  - apply elem_true in Hel. by rewrite decide_True.
  - apply elem_false in Hel. by rewrite decide_False.
Qed.

(** The loop started from [acc] appends, in order, the first occurrences
    that [acc] does not have yet. *)
Lemma extract_sources_from (docs : list Document) : forall acc : list string,
  fold_left rag.add_source docs acc
  = acc ++ filter (fun y => y ∉ acc) (dedup_first (map source_filename docs)).
Proof.
  induction docs as [|d docs IH]; intros acc; cbn [fold_left map dedup_first].
  - by rewrite filter_nil, app_nil_r.
  - rewrite IH, add_source_run. set (f := source_filename d).
    set (D := dedup_first (map source_filename docs)).
    destruct (decide (f ∈ acc)) as [Hin|Hnot].
    + rewrite filter_cons_False by (intros Hn; by apply Hn).
      rewrite list_filter_filter. f_equal. apply list_filter_iff.
      intros y. split; [|by intros [? ?]]. intros Hy. split; [done|]. by intros ->.
    + rewrite filter_cons_True by done.
      rewrite <- app_assoc. cbn. do 2 f_equal.
      rewrite list_filter_filter. apply list_filter_iff.
      intros y. rewrite elem_of_app, list_elem_of_singleton. split.
      * intros Hy. split; intros ?; apply Hy; auto.
      * intros [Hy1 Hy2] [?|?]; auto.
Qed.

Lemma extract_sources_dedup (docs : list Document) :
  rag.extract_sources docs = dedup_first (map source_filename docs).
Proof.
  unfold rag.extract_sources. rewrite extract_sources_from. cbn.
  induction (dedup_first _) as [|x l IH]; [done|].
  rewrite filter_cons_True by apply not_elem_of_nil. by rewrite IH.
Qed.

Lemma dedup_first_elem (l : list string) (x : string) :
  x ∈ dedup_first l <-> x ∈ l.
Proof.
  induction l as [|y l IH]; cbn [dedup_first]; [done|].
  rewrite !elem_of_cons, list_elem_of_filter, IH.
  destruct (decide (x = y)) as [->|Hne].
  - split; auto.
  - split; [intros [?|[? ?]]; auto|intros [?|?]; auto].
Qed.

Lemma dedup_first_NoDup (l : list string) : NoDup (dedup_first l).
Proof.
  induction l as [|y l IH]; cbn [dedup_first]; [constructor|].
  constructor; [|by apply NoDup_filter].
  rewrite list_elem_of_filter. by intros [Hne _].
Qed.

Lemma dedup_first_length (l : list string) : (length (dedup_first l) <= length l)%nat.
Proof.
  induction l as [|y l IH]; cbn [dedup_first length]; [done|].
  pose proof (length_filter (fun z => z ≠ y) (dedup_first l)). lia.
Qed.

End sources_lemmas.

(** ** A chat that succeeds *)

Section chat_success.
Context {E : Externals}.

Lemma load_vector_db_Ok_inv a w dir w' :
  rag.load_vector_db a w = (Ok dir, w') -> dir = index_of w a.
Proof.
  unfold rag.load_vector_db, indexing.index_exists, get_fs. munfold.
  destruct (negb _); [discriminate|].
  destruct (HuggingFaceEmbeddings _); [|discriminate].
  destruct (Chroma_open _); [|discriminate]. by intros [= <- _].
Qed.

(** What a successful chat has retrieved and returned. *)
Lemma chat_steps_Ok_inv a m app w res w' :
  rag.chat_steps a m app w = (Ok res, w') ->
  exists ans docs,
    res = rag.mkChatResult true None (Some ans) (rag.extract_sources docs)
    /\ (retriever_invoke (index_of w a) rag.TOP_K m = Ok docs
        \/ RetrievalQA_invoke (index_of w a) rag.TOP_K
             (rag.template_text a (name app)) m = Ok (ans, docs)).
Proof.
  unfold rag.chat_steps. intros H.
  apply bind_Ok_inv in H as (dir & w1 & Hload & H).
  pose proof (keeps_load_vector_db a w) as Hw1. rewrite Hload in Hw1. cbn in Hw1. subst w1.
  apply load_vector_db_Ok_inv in Hload as ->.
  apply bind_Ok_inv in H as (l & w2 & _ & H).
  apply bind_Ok_inv in H as (prompt & w2' & Hprompt & H).
  assert (prompt = rag.template_text a (name app)) as ->.
  { unfold rag.get_prompt_template in Hprompt.
    apply bind_Ok_inv in Hprompt as (? & ? & _ & Hprompt). by injection Hprompt as <- _. }
  apply bind_Ok_inv in H as ([ans docs] & w3 & Hret & H).
  injection H as <- _. exists ans, docs. split; [done|].
  destruct llm.has_openai_key.
  - right. unfold lift in Hret. by injection Hret.
  - left. unfold rag.manual_retrieval in Hret.
    apply bind_Ok_inv in Hret as (ds & w4 & Hds & Hret).
    unfold lift in Hds. injection Hds as Hds _. rewrite Hds.
    destruct ds as [|d ds]; [by injection Hret as _ <- _|].
    apply bind_Ok_inv in Hret as (? & ? & _ & Hret).
    apply bind_Ok_inv in Hret as (? & ? & _ & Hret).
    by injection Hret as _ <- _.
Qed.

Lemma chat_Ok_success_inv a m w res w' :
  rag.chat a m w = (Ok res, w') -> rag.success res = true ->
  exists app, apps (w_db w) !! a = Some app /\ status app = "READY"
    /\ (rag.chat_steps a m app w).1 = Ok res.
Proof.
  rewrite chat_run. intros [= <- _].
  destruct (apps (w_db w) !! a) as [app|]; [|done].
  destruct (negb _) eqn:Hst; [done|].
  apply negb_false_iff, String.eqb_eq in Hst.
  destruct (rag.chat_steps a m app w) as [[r|e] w1] eqn:Hsteps; cbn [fst]; [|done].
  intros _. exists app. by rewrite Hsteps.
Qed.

End chat_success.

(** ** Searching and stripping strings *)

Section string_lemmas.

Lemma chars_app (x y : string) : Py.chars (x +:+ y) = Py.chars x ++ Py.chars y.
Proof.
  unfold Py.chars. induction x as [|c x IH]; [done|].
  simpl. f_equal. exact IH.
Qed.

Lemma chars_str (l : list ascii) : Py.chars (Py.str l) = l.
Proof. apply String.list_ascii_of_string_of_list_ascii. Qed.

Lemma str_chars (s : string) : Py.str (Py.chars s) = s.
Proof. apply String.string_of_list_ascii_of_string. Qed.

Lemma ascii_eqb_false (a c : ascii) : a ≠ c -> Ascii.eqb a c = false.
Proof. intros Hne. by apply Ascii.eqb_neq. Qed.

(** A pattern cannot reach across a character it does not contain. *)
Lemma starts_with_sep (c : ascii) (v : list ascii) : forall p u : list ascii,
  c ∉ p -> Py.starts_with p (u ++ c :: v) = Py.starts_with p u.
Proof.
  induction p as [|a p IH]; intros u Hc; [by destruct u|].
  apply not_elem_of_cons in Hc as [Hne Hc].
  destruct u as [|b u]; cbn.
  - rewrite ascii_eqb_false by done. done.
  - by rewrite IH.
Qed.

Lemma find_from_sep (p : list ascii) (c : ascii) (v : list ascii) :
  c ∉ p -> forall (u : list ascii) (i : nat),
  Py.find_from p (u ++ c :: v) i
  = match Py.find_from p u i with
    | Some j => Some j
    | None => Py.find_from p v (S (length u + i))
    end.
Proof.
  intros Hc. induction u as [|b u IH]; intros i.
  - cbn [app length Py.find_from Nat.add].
    pose proof (starts_with_sep c v p [] Hc) as Hs. cbn [app] in Hs. rewrite Hs.
    by destruct (Py.starts_with p []).
  - cbn [app length Py.find_from].
    pose proof (starts_with_sep c v p (b :: u) Hc) as Hs. cbn [app] in Hs. rewrite Hs.
    destruct (Py.starts_with p (b :: u)); [done|].
    rewrite IH. by replace (S (S (length u) + i)) with (S (length u + S i)) by lia.
Qed.

Lemma find_from_None (p u : list ascii) (i j : nat) :
  Py.find_from p u i = None -> Py.find_from p u j = None.
Proof.
  revert i j. induction u as [|b u IH]; intros i j; cbn [Py.find_from].
  - by destruct (Py.starts_with p []).
  - destruct (Py.starts_with p (b :: u)); [done|]. apply IH.
Qed.

Lemma contains_false (p s : string) (i : nat) :
  Py.contains p s = false -> Py.find_from (Py.chars p) (Py.chars s) i = None.
Proof.
  unfold Py.contains. intros H. apply (find_from_None _ _ 0).
  by destruct (Py.find_from _ _ 0).
Qed.

(** Stripping ignores a line feed in front and line feeds behind. *)
Lemma lstrip_chars_spaces (ws l : list ascii) :
  Forall (fun c => Py.isspace c = true) ws ->
  Py.lstrip_chars (ws ++ l) = Py.lstrip_chars l.
Proof. induction 1 as [|c ws Hc _ IH]; cbn; [done|]. by rewrite Hc. Qed.

Lemma rstrip_chars_spaces (l ws : list ascii) :
  Forall (fun c => Py.isspace c = true) ws ->
  Py.rstrip_chars (l ++ ws) = Py.rstrip_chars l.
Proof.
  intros Hws. unfold Py.rstrip_chars. rewrite rev_app_distr.
  rewrite lstrip_chars_spaces; [done|].
  apply Forall_forall. intros c Hin. apply list_elem_of_In, in_rev, list_elem_of_In in Hin.
  by eapply Forall_forall in Hws.
Qed.

Lemma lstrip_chars_app_spaces (l ws : list ascii) :
  Forall (fun c => Py.isspace c = true) ws ->
  Py.lstrip_chars (l ++ ws)
  = match Py.lstrip_chars l with [] => [] | _ => Py.lstrip_chars l ++ ws end.
Proof.
  intros Hws. induction l as [|c l IH]; cbn [app Py.lstrip_chars].
  - rewrite <- (app_nil_r ws). rewrite lstrip_chars_spaces by done. done.
  - destruct (Py.isspace c); [done|]. done.
Qed.

Lemma strip_padded (l : list ascii) :
  Py.rstrip_chars (Py.lstrip_chars (Py.LF :: l ++ [Py.LF; Py.LF]))
  = Py.rstrip_chars (Py.lstrip_chars l).
Proof.
  assert (Hws : Forall (fun c => Py.isspace c = true) [Py.LF; Py.LF])
    by (repeat constructor).
  change (Py.LF :: l ++ [Py.LF; Py.LF]) with ([Py.LF] ++ (l ++ [Py.LF; Py.LF])).
  rewrite lstrip_chars_spaces by (repeat constructor).
  rewrite lstrip_chars_app_spaces by done.
  destruct (Py.lstrip_chars l) as [|c l'] eqn:Hl; [done|].
  by rewrite rstrip_chars_spaces.
Qed.

End string_lemmas.

(** ** The fallback generator on a filled prompt *)

Section generate_lemmas.
Context {E : Externals}.

Lemma filled_prompt_chars (a app_name ctx q : string) :
  Py.chars (filled_prompt a app_name ctx q)
  = prompt_opening ++ Py.SPACE :: Py.chars app_name ++ Py.SPACE :: prompt_rules
    ++ Py.SPACE :: Py.chars a ++ Py.SPACE :: prompt_label
    ++ Py.LF :: Py.chars ctx ++ Py.LF :: prompt_question q.
Proof.
  unfold filled_prompt, rag.template_head, prompt_question.
  rewrite !chars_app. rewrite <- !app_assoc. reflexivity.
Qed.

Lemma find_label (tail : list ascii) (i : nat) :
  Py.find_from (Py.chars "Context:") (prompt_label ++ tail) i = Some (13 + i)%nat.
Proof. reflexivity. Qed.

Lemma find_question (q : string) (i : nat) :
  Py.find_from (Py.chars "Question:") (prompt_question q) i = Some (1 + i)%nat.
Proof. reflexivity. Qed.

Lemma space_not_in_markers :
  (Py.SPACE ∉ Py.chars "Context:") /\ (Py.SPACE ∉ Py.chars "Question:")
  /\ (Py.LF ∉ Py.chars "Question:").
Proof.
  repeat split; intros H; apply list_elem_of_In in H; cbn in H;
    repeat (destruct H as [H|H]; [discriminate H|]); done.
Qed.

End generate_lemmas.

Section generate_filled.
Context {E : Externals}.

Lemma find_context_marker (a app_name ctx q : string) :
  Py.contains "Context:" app_name = false ->
  Py.contains "Context:" a = false ->
  Py.find_from (Py.chars "Context:") (Py.chars (filled_prompt a app_name ctx q)) 0
  = Some (13 + label_at a app_name)%nat.
Proof.
  intros Hname Hid. destruct space_not_in_markers as (Hsp & _ & _).
  rewrite filled_prompt_chars.
  rewrite (find_from_sep _ _ _ Hsp). change (Py.find_from _ prompt_opening 0) with (@None nat).
  rewrite (find_from_sep _ _ _ Hsp), (contains_false _ _ _ Hname).
  rewrite (find_from_sep _ _ _ Hsp).
  rewrite (find_from_None _ prompt_rules 0) by reflexivity.
  rewrite (find_from_sep _ _ _ Hsp), (contains_false _ _ _ Hid).
  by rewrite find_label.
Qed.

Lemma find_question_marker (a app_name ctx q : string) :
  Py.contains "Question:" app_name = false ->
  Py.contains "Question:" a = false ->
  Py.contains "Question:" ctx = false ->
  Py.find_from (Py.chars "Question:") (Py.chars (filled_prompt a app_name ctx q)) 0
  = Some (24 + length (Py.chars ctx) + label_at a app_name)%nat.
Proof.
  intros Hname Hid Hctx. destruct space_not_in_markers as (_ & Hsp & Hlf).
  rewrite filled_prompt_chars.
  rewrite (find_from_sep _ _ _ Hsp). change (Py.find_from _ prompt_opening 0) with (@None nat).
  rewrite (find_from_sep _ _ _ Hsp), (contains_false _ _ _ Hname).
  rewrite (find_from_sep _ _ _ Hsp).
  rewrite (find_from_None _ prompt_rules 0) by reflexivity.
  rewrite (find_from_sep _ _ _ Hsp), (contains_false _ _ _ Hid).
  rewrite (find_from_sep _ _ _ Hlf).
  rewrite (find_from_None _ prompt_label 0) by reflexivity.
  rewrite (find_from_sep _ _ _ Hlf), (contains_false _ _ _ Hctx).
  rewrite find_question. f_equal. unfold label_at.
  change (length prompt_label) with 21%nat. lia.
Qed.

Lemma slice_middle (pre mid post : list ascii) :
  take (length mid) (drop (length pre) (pre ++ mid ++ post)) = mid.
Proof. by rewrite drop_app_length, take_app_length. Qed.

(** What the generator cuts out of a filled prompt. *)
Lemma context_of_filled_prompt (a app_name ctx q : string) :
  take (3 + length (Py.chars ctx))
       (drop (21 + label_at a app_name) (Py.chars (filled_prompt a app_name ctx q)))
  = Py.LF :: Py.chars ctx ++ [Py.LF; Py.LF].
Proof.
  rewrite filled_prompt_chars.
  set (pre := prompt_opening ++ Py.SPACE :: Py.chars app_name ++ Py.SPACE :: prompt_rules
              ++ Py.SPACE :: Py.chars a ++ Py.SPACE :: prompt_label).
  set (mid := Py.LF :: Py.chars ctx ++ [Py.LF; Py.LF]).
  set (post := Py.chars "Question: " ++ Py.chars q ++ Py.LF :: Py.LF :: Py.chars "Answer:").
  assert (Hlen : (21 + label_at a app_name)%nat = length pre).
  { unfold pre, label_at. repeat first [rewrite length_app | rewrite length_cons].
    change (length prompt_label) with 21%nat. lia. }
  assert (Hmid : (3 + length (Py.chars ctx))%nat = length mid).
  { unfold mid. repeat first [rewrite length_app | rewrite length_cons].
    cbn [length]. lia. }
  rewrite Hlen, Hmid.
  transitivity (take (length mid) (drop (length pre) (pre ++ mid ++ post)));
    [|apply slice_middle].
  do 2 f_equal. unfold pre, mid, post, prompt_question.
  do 4 (rewrite <- ?app_assoc; cbn [app]). reflexivity.
Qed.

Lemma truthy_len (s : string) : Py.truthy s = negb (Py.len s =? 0)%nat.
Proof. by destruct s. Qed.

(** On a filled prompt whose interpolated values hide no marker, the
    generator answers from the stripped context. *)
Lemma MockLLM_generate_filled (a app_name ctx q : string) :
  Py.contains "Context:" app_name = false ->
  Py.contains "Question:" app_name = false ->
  Py.contains "Context:" a = false ->
  Py.contains "Question:" a = false ->
  Py.contains "Question:" ctx = false ->
  llm.MockLLM_generate (filled_prompt a app_name ctx q) = fallback_answer (Py.strip ctx).
Proof.
  intros Hn1 Hn2 Ha1 Ha2 Hc.
  unfold llm.MockLLM_generate, Py.contains, Py.find, Py.slice.
  rewrite (find_context_marker a app_name ctx q Hn1 Ha1).
  rewrite (find_question_marker a app_name ctx q Hn2 Ha2 Hc).
  cbn [andb]. change (Py.len "Context:") with 8%nat.
  replace (Z.to_nat (Z.of_nat (24 + length (Py.chars ctx) + label_at a app_name))
           - Z.to_nat (Z.of_nat (13 + label_at a app_name) + Z.of_nat 8))%nat
    with (3 + length (Py.chars ctx))%nat by lia.
  replace (Z.to_nat (Z.of_nat (13 + label_at a app_name) + Z.of_nat 8))
    with (21 + label_at a app_name)%nat by lia.
  rewrite context_of_filled_prompt.
  unfold Py.strip at 1 2 3. rewrite !chars_str, !strip_padded.
  fold (Py.strip ctx). unfold fallback_answer.
  rewrite truthy_len.
  destruct (Nat.leb_spec (Py.len (Py.strip ctx)) 50) as [Hle|Hgt].
  - replace (50 <? Py.len (Py.strip ctx))%nat with false; [by rewrite andb_false_r|].
    symmetry. apply Nat.ltb_ge. done.
  - replace (50 <? Py.len (Py.strip ctx))%nat with true
      by (symmetry; by apply Nat.ltb_lt).
    replace (Py.len (Py.strip ctx) =? 0)%nat with false; [done|].
    symmetry. apply Nat.eqb_neq. lia.
Qed.

End generate_filled.

(** ** What an upload writes *)

Section upload_effect.
Context {E : Externals}.

Lemma not_elem_existsb (c : ascii) (l : list ascii) :
  c ∉ l -> existsb (Ascii.eqb c) l = false.
Proof.
  intros Hc. apply not_true_iff_false. intros Hex.
  apply existsb_exists in Hex as (x & Hx & Heq). apply Ascii.eqb_eq in Heq as <-.
  by apply Hc, list_elem_of_In.
Qed.

(** A supported name without separator is an entry name. *)
Lemma supported_entry_name (n : string) :
  storage.is_supported_file n = true -> plain_name n -> storage.is_entry_name n = true.
Proof.
  intros Hsup Hplain. unfold storage.is_entry_name.
  rewrite (not_elem_existsb _ _ Hplain).
  destruct (String.eqb_spec n EmptyString) as [->|_]; [discriminate Hsup|].
  destruct (String.eqb_spec n ".") as [->|_]; [discriminate Hsup|].
  destruct (String.eqb_spec n "..") as [->|_]; [discriminate Hsup|]. done.
Qed.

Lemma plain_id_entry_name (n : string) : plain_id n -> storage.is_entry_name n = true.
Proof.
  intros (Hne & Hsep & Hdot & Hdots). unfold storage.is_entry_name.
  rewrite (not_elem_existsb _ _ Hsep).
  destruct (String.eqb_spec n EmptyString) as [?|_]; [done|].
  destruct (String.eqb_spec n ".") as [?|_]; [done|].
  destruct (String.eqb_spec n "..") as [?|_]; done.
Qed.

Lemma stored_uploads_nil (a : string) (fs : list main.UploadFile) (w : World) :
  attempted_uploads fs = [] -> stored_uploads a fs w = [].
Proof.
  intros Hatt. pose proof (stored_uploads_attempted a fs w) as Hsub.
  rewrite Hatt in Hsub. by apply sublist_nil_r in Hsub.
Qed.

(** The loop on the blob store, when the stored parts carry entry names:
    only the two directories of the tenant are touched, both exist once a
    save was attempted, and the files directory holds what the stored
    parts wrote. *)
Lemma upload_loop_fs (a : string) (fs : list main.UploadFile) :
  forall up0 er0 w,
  Forall (fun f => storage.is_entry_name (main.uf_filename f) = true)
         (stored_uploads a fs w) ->
  let w' := (main.upload_loop a fs up0 er0 w).2 in
  (forall p, p ≠ storage.get_files_dir a ->
     file_dirs (w_fs w') !! p = file_dirs (w_fs w) !! p)
  /\ (forall p, p ≠ storage.get_chroma_dir a ->
        chroma_dirs (w_fs w') !! p = chroma_dirs (w_fs w) !! p)
  /\ file_dirs (w_fs w') !! storage.get_files_dir a
     = match attempted_uploads fs with
       | [] => file_dirs (w_fs w) !! storage.get_files_dir a
       | _ => Some (written (stored_uploads a fs w)
                      (default ∅ (file_dirs (w_fs w) !! storage.get_files_dir a)))
       end
  /\ chroma_dirs (w_fs w') !! storage.get_chroma_dir a
     = match attempted_uploads fs with
       | [] => chroma_dirs (w_fs w) !! storage.get_chroma_dir a
       | _ => Some (default storage.empty_chroma_dir
                      (chroma_dirs (w_fs w) !! storage.get_chroma_dir a))
       end.
Proof.
  induction fs as [|f fs IH]; intros up0 er0 w Hnames; cbn zeta; [done|].
  cbn [main.upload_loop]. rewrite attempted_uploads_cons.
  rewrite stored_uploads_cons in Hnames |- *.
  change (storage.is_supported_file (main.uf_filename f)) with (supported_upload f).
  destruct (supported_upload f) eqn:Hsup; cbn [negb andb] in Hnames |- *;
    [|by apply IH].
  rewrite bind_run, upload_try_run.
  destruct (ensure_app_dirs_run a w) as (w0 & Hens & _ & _ & _ & Hfd & Hcd & Hfo & Hco).
  destruct (main.upload_one a f w) as [[fd|e] w1] eqn:Hone.
  - apply upload_one_Ok in Hone as (content & row & Hread & _ & _ & _ & Hfs & _).
    rewrite Hens in Hfs. cbn [snd] in Hfs.
    apply Forall_cons in Hnames as [Hname Hnames].
    unfold saved in Hfs. rewrite Hname in Hfs.
    unfold readable. rewrite Hread.
    specialize (IH (up0 ++ [fd]) er0 w1 Hnames). cbn zeta in IH.
    destruct IH as (IHfo & IHco & IHfd & IHcd).
    assert (Hfd1 : file_dirs (w_fs w1) !! storage.get_files_dir a
                   = Some (<[main.uf_filename f := content]>
                             (default ∅ (file_dirs (w_fs w) !! storage.get_files_dir a)))).
    { rewrite Hfs. cbn [file_dirs]. by rewrite lookup_insert_eq, Hfd. }
    assert (Hcd1 : chroma_dirs (w_fs w1) !! storage.get_chroma_dir a
                   = Some (default storage.empty_chroma_dir
                             (chroma_dirs (w_fs w) !! storage.get_chroma_dir a))).
    { rewrite Hfs. cbn [chroma_dirs]. exact Hcd. }
    split; [|split; [|split]].
    + intros p Hp. rewrite IHfo by done. rewrite Hfs. cbn [file_dirs].
      rewrite lookup_insert_ne by done. by apply Hfo.
    + intros p Hp. rewrite IHco by done. rewrite Hfs. cbn [chroma_dirs]. by apply Hco.
    + rewrite IHfd, Hfd1. cbn [default]. unfold written at 2. cbn [foldl].
      unfold upload_content at 2. rewrite Hread.
      destruct (attempted_uploads fs) eqn:Hatt; [|done].
      by rewrite (stored_uploads_nil a fs w1 Hatt).
    + rewrite IHcd, Hcd1. cbn [default]. by destruct (attempted_uploads fs).
  - apply upload_one_Raise in Hone as (_ & [[Hread ->]|[Hread ->]]).
    + unfold readable. rewrite Hread. by apply IH.
    + rewrite Hread. rewrite Hens in Hnames |- *. cbn [snd] in Hnames |- *.
      specialize (IH up0 (er0 ++ ["Error uploading " +:+ main.uf_filename f +:+ ": "
                                  +:+ str_exn e]) w0 Hnames). cbn zeta in IH.
      destruct IH as (IHfo & IHco & IHfd & IHcd).
      split; [|split; [|split]].
      * intros p Hp. rewrite IHfo by done. by apply Hfo.
      * intros p Hp. rewrite IHco by done. by apply Hco.
      * rewrite IHfd, Hfd. cbn [default].
        destruct (attempted_uploads fs) eqn:Hatt; [|done].
        by rewrite (stored_uploads_nil a fs w0 Hatt).
      * rewrite IHcd, Hcd. cbn [default]. by destruct (attempted_uploads fs).
Qed.

End upload_effect.

Section written_lemmas.
Context {E : Externals}.

Lemma written_other (l : list main.UploadFile) :
  forall (d : gmap string string) (n : string),
  n ∉ map main.uf_filename l -> written l d !! n = d !! n.
Proof.
  unfold written. induction l as [|g l IH]; intros d n Hn; [done|]. cbn [foldl].
  cbn [map] in Hn. apply not_elem_of_cons in Hn as [Hne Hn].
  rewrite IH by done. by rewrite lookup_insert_ne.
Qed.

Lemma written_last (pre post : list main.UploadFile) (f : main.UploadFile)
    (d : gmap string string) :
  main.uf_filename f ∉ map main.uf_filename post ->
  written (pre ++ f :: post) d !! main.uf_filename f = Some (upload_content f).
Proof.
  intros Hn. unfold written. rewrite foldl_app. cbn [foldl].
  fold (written post (<[main.uf_filename f:=upload_content f]>
                        (foldl (fun d f => <[main.uf_filename f := upload_content f]> d)
                               d pre))).
  rewrite written_other by done. by rewrite lookup_insert_eq.
Qed.

Lemma written_elem (l : list main.UploadFile) :
  forall (d : gmap string string) (f : main.UploadFile),
  f ∈ l -> is_Some (written l d !! main.uf_filename f).
Proof.
  unfold written. induction l as [|g l IH] using rev_ind; intros d f Hf.
  - by apply elem_of_nil in Hf.
  - rewrite foldl_app. cbn [foldl]. apply elem_of_app in Hf as [Hf|Hf].
    + destruct (decide (main.uf_filename g = main.uf_filename f)) as [->|Hne].
      * rewrite lookup_insert_eq. eauto.
      * rewrite lookup_insert_ne by done. by apply IH.
    + apply list_elem_of_singleton in Hf as ->. rewrite lookup_insert_eq. eauto.
Qed.

(** The whole endpoint on the blob store, for a tenant that exists. *)
Lemma upload_files_fs (a : string) (fs : list main.UploadFile) (w : World) (r : AppRow) :
  apps (w_db w) !! a = Some r ->
  Forall (fun f => storage.is_entry_name (main.uf_filename f) = true)
         (stored_uploads a fs w) ->
  let w' := (main.upload_files a fs w).2 in
  (forall p, p ≠ storage.get_files_dir a ->
     file_dirs (w_fs w') !! p = file_dirs (w_fs w) !! p)
  /\ (forall p, p ≠ storage.get_chroma_dir a ->
        chroma_dirs (w_fs w') !! p = chroma_dirs (w_fs w) !! p)
  /\ file_dirs (w_fs w') !! storage.get_files_dir a
     = match attempted_uploads fs with
       | [] => file_dirs (w_fs w) !! storage.get_files_dir a
       | _ => Some (written (stored_uploads a fs w)
                      (default ∅ (file_dirs (w_fs w) !! storage.get_files_dir a)))
       end.
Proof.
  intros Hr Hnames. cbn zeta. unfold main.upload_files.
  rewrite bind_run, get_app_run, Hr. cbn [fst snd]. rewrite bind_run.
  pose proof (upload_loop_fs a fs [] [] w Hnames) as Hloop. cbn zeta in Hloop.
  destruct (upload_loop_run a fs [] [] w) as (up & er & w1 & errs & rows & Hrun & _).
  rewrite Hrun in Hloop |- *. cbn [fst snd] in Hloop |- *.
  destruct Hloop as (Hfo & Hco & Hfd & _). rewrite bind_run.
  destruct up as [|fd up]; [done|].
  destruct (update_app_status_run a "FILES_UPDATED" None w1) as (w2 & -> & Hfs & _).
  cbn [mret M_ret ret fst snd]. by rewrite Hfs.
Qed.

(** The stored parts of a batch have supported names. *)
Lemma stored_uploads_entry_names (a : string) (fs : list main.UploadFile) (w : World) :
  Forall (fun f => plain_name (main.uf_filename f)) (stored_uploads a fs w) ->
  Forall (fun f => storage.is_entry_name (main.uf_filename f) = true)
         (stored_uploads a fs w).
Proof.
  rewrite !Forall_forall. intros Hplain f Hf. apply supported_entry_name; [|by apply Hplain].
  apply (fun H => elem_of_sublist _ _ f H (stored_uploads_attempted a fs w)) in Hf.
  apply list_elem_of_In, filter_In in Hf as [_ Hb]. by apply andb_prop in Hb as [? _].
Qed.

End written_lemmas.

(** * The claims *)

(** C1.  A build that completes without an exception has run, in this
    order: status set to INDEXING, index directory cleared, documents
    loaded, documents chunked, the embedding model made ready and the
    chunks persisted, status set to READY with the time stamp recorded as
    last-indexed; it returns the number of documents loaded and the number
    of chunks produced. *)
Theorem build_index_success_order `{!ExternalsLaws E}
    (a : string) (w w' : World) (n m : nat) (r : AppRow) :
  apps (w_db w) !! a = Some r ->
  indexing.build_index a w = (Ok (n, m), w') ->
  exists docs chunks ts r',
    w_trace w' = w_trace w ++
      [EvStatus a "INDEXING" None; EvClearIndex a; EvLoadDocuments a;
       EvChunk; EvEmbeddingModel; EvPersist a; EvStatus a "READY" (Some ts)]
    /\ docs = fold_left (indexing.load_one (cleared (w_fs w) a)) (stored_paths (w_fs w) a) []
    /\ split_documents indexing.CHUNK_SIZE indexing.CHUNK_OVERLAP docs = Ok chunks
    /\ collection (index_of w' a) = chunks
    /\ (n, m) = (length docs, length chunks)
    /\ apps (w_db w') !! a = Some r'
    /\ status r' = "READY"
    /\ last_indexed_at r' = Some ts
    /\ ts ≠ EmptyString.
Proof.
  intros Hr Hb. apply build_index_Ok_inv in Hb.
  apply build_index_steps_Ok in Hb
    as (docs & chunks & dir' & Hdocs & _ & Hsplit & Hch & -> & -> & Htr & Hfs & _ & Hrow).
  destruct (Hrow r Hr) as (r' & Hr' & Hst & _ & Hli).
  pose proof (isoformat_nonempty (S (w_clock w))) as Hts.
  exists docs, chunks, (isoformat (S (w_clock w))), r'.
  split; [exact Htr|]. split; [done|]. split; [done|]. split.
  { unfold index_of. rewrite Hfs. cbn [chroma_dirs]. rewrite lookup_insert_eq. cbn.
    apply Chroma_from_documents_adds in Hch as [_ ->]. done. }
  split; [done|]. split; [done|]. split; [done|]. split; [|done].
  rewrite Hli. destruct (isoformat (S (w_clock w))); [done|done].
Qed.

(** C2, as amended.  When a step of a build raises (zero loadable
    documents included), the tenant is marked FAILED and the same
    exception reaches the caller; afterwards a chat is refused with that
    status and changes nothing, an upload without a supported readable
    part changes nothing, and an upload that stores no file leaves the
    status FAILED.  (Only a new build or an upload that stores a file
    moves the status on.) *)
Theorem build_index_failure_marks_failed {E : Externals}
    (a : string) (w : World) (r : AppRow) :
  apps (w_db w) !! a = Some r ->
  (forall e w1, indexing.build_index_steps a w = (Raise e, w1) ->
     exists w', indexing.build_index a w = (Raise e, w')
       /\ status_of w' a = Some "FAILED"
       /\ (forall msg, rag.chat a msg w' = (Ok (rag.not_trained a "FAILED"), w'))
       /\ (forall fs, attempted_uploads fs = [] -> (main.upload_files a fs w').2 = w')
       /\ (forall fs, stored_uploads a fs w' = [] ->
             status_of (main.upload_files a fs w').2 a = Some "FAILED"))
  /\ (Forall (fun p => storage.is_supported_file p = false) (stored_paths (w_fs w) a)
      -> exists msg w1, indexing.build_index_steps a w = (Raise (ValueError msg), w1)).
Proof.
  intros Hr. split.
  - intros e w1 Hsteps.
    destruct (build_index_Raise a w e w1 r Hr Hsteps) as (w' & Hb & Hst & _).
    exists w'. split; [done|]. split; [done|].
    unfold status_of in Hst. destruct (apps (w_db w') !! a) as [r'|] eqn:Hr'; [|done].
    injection Hst as Hst. split; [|split].
    + intros msg. by rewrite chat_run, Hr', Hst.
    + intros fs Hnil. destruct (upload_files_run a fs w' r' Hr')
        as (data & w2 & rows & -> & Hrest).
      destruct Hrest as (_ & _ & _ & _ & _ & _ & _ & _ & _ & _ & _ & Hsame & _).
      cbn. by apply Hsame.
    + intros fs Hnil. destruct (upload_files_run a fs w' r' Hr')
        as (data & w2 & rows & -> & Hrest).
      destruct Hrest as (_ & _ & _ & _ & _ & _ & _ & _ & _ & _ & _ & _ & Hdb & _).
      cbn [snd]. unfold status_of. rewrite (Hdb Hnil), Hr'. cbn. by rewrite Hst.
  - unfold indexing.build_index_steps. intros Hunsup. rewrite bind_run.
    destruct (update_app_status_run a "INDEXING" None w) as (w1 & -> & Hfs & _).
    rewrite bind_run, clear_chroma_dir_run, bind_run, load_documents_run.
    cbn [w_fs]. rewrite stored_paths_cleared, Hfs.
    destruct (stored_paths (w_fs w) a) as [|p paths] eqn:Hpaths; [eauto|].
    rewrite load_one_unsupported by done. eauto.
Qed.

(** C3.  A rebuild that completes replaces the index: the directory is
    cleared before the chunks are persisted, the write starts from the
    empty directory, and the index then holds the new chunks and nothing
    else.  So a chunk whose source file is not in the tenant's storage at
    rebuild time is not in the index, and no retrieval on the index
    returns it. *)
Theorem rebuild_replaces_index `{!ExternalsLaws E}
    (a : string) (w w' : World) (n m : nat) :
  indexing.build_index a w = (Ok (n, m), w') ->
  exists chunks ts,
    w_trace w' = w_trace w ++
      [EvStatus a "INDEXING" None; EvClearIndex a; EvLoadDocuments a;
       EvChunk; EvEmbeddingModel; EvPersist a; EvStatus a "READY" (Some ts)]
    /\ Chroma_from_documents chunks storage.empty_chroma_dir = (Ok tt, index_of w' a)
    /\ collection (index_of w' a) = chunks
    /\ forall c p,
         metadata c !! "source" = Some p ->
         p ∉ stored_paths (w_fs w) a ->
         (c ∉ collection (index_of w' a))
         /\ (forall k q docs, retriever_invoke (index_of w' a) k q = Ok docs -> c ∉ docs)
         /\ (forall k t q ans docs,
               RetrievalQA_invoke (index_of w' a) k t q = Ok (ans, docs) -> c ∉ docs).
Proof.
  intros Hb. apply build_index_Ok_inv in Hb.
  apply build_index_steps_Ok in Hb
    as (docs & chunks & dir' & Hdocs & _ & Hsplit & Hch & _ & _ & Htr & Hfs & _ & _).
  assert (Hidx : index_of w' a = dir').
  { unfold index_of. rewrite Hfs. cbn [chroma_dirs]. by rewrite lookup_insert_eq. }
  pose proof (Chroma_from_documents_adds _ _ _ Hch) as [_ Hcoll]. cbn in Hcoll.
  exists chunks, (isoformat (S (w_clock w))). rewrite Hidx.
  split; [exact Htr|]. split; [done|]. split; [done|].
  intros c p Hsrc Hp.
  assert (Hnot : c ∉ collection dir').
  { rewrite Hcoll. intros Hc.
    destruct (split_documents_metadata _ _ _ _ _ Hsplit Hc) as (d & Hd & Hmeta).
    rewrite Hdocs in Hd. apply load_one_sources in Hd as [Hd|(q & Hq & Hs)].
    - by apply elem_of_nil in Hd.
    - rewrite Hmeta, Hs in Hsrc. by injection Hsrc as ->. }
  split; [done|]. split.
  - intros k q ds Hret Hc. apply retriever_invoke_top_k in Hret as [_ Hsub]. by apply Hsub in Hc.
  - intros k t q ans ds Hqa Hc. apply RetrievalQA_sources in Hqa as [_ Hsub]. by apply Hsub in Hc.
Qed.

(** C4.  Chat always returns a result, never an exception: for a tenant
    that does not exist the not-found failure; else, for a status other
    than READY, the failure naming that status; else whatever the steps
    after the checks return, or, when they raise, the failure carrying the
    exception's message. *)
Theorem chat_checks_and_never_raises {E : Externals} (a m : string) (w : World) :
  exists res w',
    rag.chat a m w = (Ok res, w')
    /\ (apps (w_db w) !! a = None -> res = rag.not_found a)
    /\ (forall app, apps (w_db w) !! a = Some app -> status app ≠ "READY" ->
          res = rag.not_trained a (status app))
    /\ (forall app e, apps (w_db w) !! a = Some app -> status app = "READY" ->
          (rag.chat_steps a m app w).1 = Raise e ->
          res = rag.failure e /\ rag.success res = false
          /\ rag.error res = Some (str_exn e))
    /\ (forall app res', apps (w_db w) !! a = Some app -> status app = "READY" ->
          (rag.chat_steps a m app w).1 = Ok res' -> res = res').
Proof.
  eexists _, w. split; [apply chat_run|].
  split; [by intros ->|]. split; [|split].
  - intros app -> Hst. apply String.eqb_neq in Hst. by rewrite Hst.
  - intros app e -> -> ->. done.
  - intros app res' -> -> ->. done.
Qed.

(** C5.  Chat ends in the world it started in, on every path: the tenant
    record, its status included, is what it was. *)
Theorem chat_leaves_world_unchanged {E : Externals} (a m : string) (w : World) :
  (rag.chat a m w).2 = w
  /\ apps (w_db (rag.chat a m w).2) !! a = apps (w_db w) !! a
  /\ status_of (rag.chat a m w).2 a = status_of w a.
Proof.
  assert (Hsame : (rag.chat a m w).2 = w) by (symmetry; apply keeps_chat).
  by rewrite Hsame.
Qed.

(** C8.  Whether an index exists is read off the marker file in the
    tenant's index directory and nothing else.  When the marker is absent,
    be it that the directory is missing or that it holds no marker, the
    check answers false, loading the index raises the no-index error, and
    a chat with a tenant marked READY returns that error as a failure.
    Clearing an index directory leaves it without the marker. *)
Theorem chat_without_index_marker_fails {E : Externals}
    (a m : string) (w : World) (app : AppRow) :
  (forall d, chroma_dirs (w_fs w) !! storage.get_chroma_dir a = Some d ->
             chroma_sqlite3 d = false) ->
  apps (w_db w) !! a = Some app ->
  status app = "READY" ->
  indexing.index_exists a w = (Ok false, w)
  /\ rag.load_vector_db a w
     = (Raise (ValueError ("No index found for app '" +:+ a +:+ "'. Please train first.")), w)
  /\ rag.chat a m w
     = (Ok (rag.mkChatResult false
              (Some ("No index found for app '" +:+ a +:+ "'. Please train first."))
              None []), w)
  /\ (forall w0, (indexing.index_exists a (storage.clear_chroma_dir a w0).2).1 = Ok false)
  /\ (forall w0, (indexing.index_exists a w0).1 = Ok true
                 <-> exists d, chroma_dirs (w_fs w0) !! storage.get_chroma_dir a = Some d
                               /\ chroma_sqlite3 d = true).
Proof.
  intros Hmark Happ Hst.
  assert (Hidx : indexing.index_exists a w = (Ok false, w)).
  { unfold indexing.index_exists, get_fs. rewrite bind_run. cbn [mret M_ret ret].
    destruct (chroma_dirs (w_fs w) !! storage.get_chroma_dir a) as [d|] eqn:Hd; [|done].
    by rewrite (Hmark d eq_refl). }
  assert (Hload : rag.load_vector_db a w
    = (Raise (ValueError ("No index found for app '" +:+ a +:+ "'. Please train first.")), w)).
  { unfold rag.load_vector_db. by rewrite bind_run, Hidx. }
  split; [done|]. split; [done|]. split; [|split].
  - rewrite chat_run, Happ, Hst. cbn [String.eqb negb].
    unfold rag.chat_steps. by rewrite bind_run, Hload.
  - intros w0. rewrite clear_chroma_dir_run. unfold indexing.index_exists, get_fs.
    rewrite bind_run. cbn [w_fs cleared chroma_dirs snd].
    by rewrite lookup_insert_eq.
  - intros w0. unfold indexing.index_exists, get_fs. rewrite bind_run.
    cbn [mret M_ret ret fst].
    destruct (chroma_dirs (w_fs w0) !! storage.get_chroma_dir a) as [d|].
    + split.
      * intros [= Hd]. eauto.
      * intros (d' & [= <-] & Hd). by rewrite Hd.
    + split; [discriminate|]. by intros (d' & Hd' & _).
Qed.

(** C9.  An upload to an existing tenant returns normally whatever the
    parts are, and every part is either uploaded or reported with an error
    string of its own.  A part whose extension, lower-cased, is neither
    [.txt] nor [.md] is reported as unsupported and is not stored; leaving
    such parts out of the batch gives the same final world.  The parts
    stored are those with a supported extension that were read, written
    and recorded without an exception; the file records created are
    theirs, one each and in order.  A batch that stores nothing leaves the
    metadata store, status included, as it was; when at least one part is
    stored, the status becomes FILES_UPDATED; and when the stored parts
    carry plain names, each is then listed among the tenant's files. *)
Theorem upload_files_batch {E : Externals}
    (a : string) (fs : list main.UploadFile) (w : World) (r : AppRow) :
  apps (w_db w) !! a = Some r ->
  exists data w' rows,
    main.upload_files a fs w = (Ok data, w')
    /\ (length (main.uploaded data) + length (main.errors data) = length fs)%nat
    /\ (forall f, f ∈ fs ->
          Py.lower (OsPath.splitext (main.uf_filename f)).2 ∉ [".txt"; ".md"] ->
          "Unsupported file type: " +:+ main.uf_filename f ∈ main.errors data
          /\ f ∉ stored_uploads a fs w)
    /\ (forall f, f ∈ stored_uploads a fs w ->
          f ∈ fs /\ supported_upload f = true /\ readable f = true)
    /\ map db.fd_filename (main.uploaded data)
       = map main.uf_filename (stored_uploads a fs w)
    /\ files (w_db w') = files (w_db w) ++ rows
    /\ map filename rows = map main.uf_filename (stored_uploads a fs w)
    /\ map id rows = map db.fd_id (main.uploaded data)
    /\ Forall (fun row => file_app_id row = a
                          /\ Py.lower (OsPath.splitext (filename row)).2
                             ∈ [".txt"; ".md"]) rows
    /\ (main.upload_files a fs w).2
       = (main.upload_files a (List.filter supported_upload fs) w).2
    /\ (attempted_uploads fs = [] -> w' = w)
    /\ (stored_uploads a fs w = [] -> w_db w' = w_db w)
    /\ (stored_uploads a fs w ≠ [] -> status_of w' a = Some "FILES_UPDATED")
    /\ (Forall (fun f => plain_name (main.uf_filename f)) (stored_uploads a fs w) ->
        forall f, f ∈ stored_uploads a fs w ->
          OsPath.join (storage.get_files_dir a) (main.uf_filename f)
            ∈ stored_paths (w_fs w') a).
Proof.
  intros Hr.
  destruct (upload_files_run a fs w r Hr)
    as (data & w' & rows & Hrun & Hup & Hids & Hcount & Hunsup & _ & Hfiles & Hnames & Hall
        & _ & _ & _ & Hsame & Hdb & Hst).
  assert (Hatt : forall f, f ∈ stored_uploads a fs w ->
            f ∈ fs /\ supported_upload f = true /\ readable f = true).
  { intros f Hf.
    apply (fun H => elem_of_sublist _ _ f H (stored_uploads_attempted a fs w)) in Hf.
    apply list_elem_of_In, filter_In in Hf as [Hf Hb].
    apply andb_prop in Hb as [? ?]. split; [by apply list_elem_of_In|done]. }
  exists data, w', rows. split; [done|]. split; [done|]. split.
  { intros f Hf Hext.
    assert (Hsup : supported_upload f = false).
    { unfold supported_upload, storage.is_supported_file.
      destruct (Py.elem _ _) eqn:Hel; [|done]. by apply elem_true in Hel. }
    split; [by apply Hunsup|]. intros Hin. apply Hatt in Hin as (_ & Hin & _). congruence. }
  split; [done|]. split; [done|]. split; [done|]. split; [done|]. split; [done|].
  split.
  { apply Forall_forall. intros row Hrow. rewrite Forall_forall in Hall.
    split; [by apply Hall|].
    assert (Hin : filename row ∈ map main.uf_filename (stored_uploads a fs w)).
    { rewrite <- Hnames. by apply list_elem_of_fmap_2. }
    apply list_elem_of_fmap in Hin as (f & Hname & Hf).
    apply Hatt in Hf as (_ & Hsup & _). rewrite Hname. by apply elem_true. }
  split; [apply upload_files_supported_only|]. split; [done|]. split; [done|].
  split.
  { intros Hne. destruct (Hst Hne) as (r' & Hr' & Hst' & _).
    unfold status_of. rewrite Hr'. cbn. by rewrite Hst'. }
  intros Hplain f Hf.
  destruct (upload_files_fs a fs w r Hr (stored_uploads_entry_names a fs w Hplain))
    as (_ & _ & Hd).
  rewrite Hrun in Hd. cbn [snd] in Hd.
  destruct (attempted_uploads fs) as [|f0 fs0] eqn:Hnone.
  { rewrite (stored_uploads_nil a fs w Hnone) in Hf. by apply elem_of_nil in Hf. }
  unfold stored_paths. rewrite Hd.
  destruct (written_elem (stored_uploads a fs w)
              (default ∅ (file_dirs (w_fs w) !! storage.get_files_dir a)) f Hf)
    as [c Hc].
  apply list_elem_of_fmap. exists (main.uf_filename f, c). split; [done|].
  by apply elem_of_map_to_list.
Qed.

(** C6.  The sources of a successful chat are the base names of the
    source file names of the retrieved chunks, each kept at its first
    occurrence and dropped afterwards; chunks from [a.txt], [b.txt],
    [a.txt] give [a.txt], [b.txt]. *)
Theorem chat_sources_first_occurrences {E : Externals}
    (a m : string) (w w' : World) (res : rag.ChatResult) :
  rag.chat a m w = (Ok res, w') ->
  rag.success res = true ->
  (exists app ans docs,
     apps (w_db w) !! a = Some app
     /\ (retriever_invoke (index_of w a) rag.TOP_K m = Ok docs
         \/ RetrievalQA_invoke (index_of w a) rag.TOP_K
              (rag.template_text a (name app)) m = Ok (ans, docs))
     /\ rag.sources res
        = dedup_first (map (fun doc => OsPath.basename
                                         (default "unknown" (metadata doc !! "source")))
                           docs))
  /\ rag.extract_sources [mkDocument "one" {[ "source" := "/data/files/a.txt" ]};
                          mkDocument "two" {[ "source" := "/data/files/b.txt" ]};
                          mkDocument "three" {[ "source" := "/data/files/a.txt" ]}]
     = ["a.txt"; "b.txt"].
Proof.
  intros Hchat Hok. split; [|by vm_compute].
  destruct (chat_Ok_success_inv a m w res w' Hchat Hok) as (app & Happ & _ & Hsteps).
  destruct (rag.chat_steps a m app w) as [r w1] eqn:Hrun. cbn in Hsteps. subst r.
  apply chat_steps_Ok_inv in Hrun as (ans & docs & -> & Hret).
  exists app, ans, docs. split; [done|]. split; [done|].
  cbn [rag.sources]. apply extract_sources_dedup.
Qed.

(** C10.  The sources of a successful chat have no duplicates and are at
    most [TOP_K] = 3, the retriever and the chain returning at most
    [TOP_K] chunks. *)
Theorem chat_sources_bounded `{!ExternalsLaws E}
    (a m : string) (w w' : World) (res : rag.ChatResult) :
  rag.chat a m w = (Ok res, w') ->
  rag.success res = true ->
  NoDup (rag.sources res)
  /\ (length (rag.sources res) <= rag.TOP_K)%nat
  /\ rag.TOP_K = 3%nat.
Proof.
  intros Hchat Hok.
  destruct (chat_Ok_success_inv a m w res w' Hchat Hok) as (app & Happ & _ & Hsteps).
  destruct (rag.chat_steps a m app w) as [r w1] eqn:Hrun. cbn in Hsteps. subst r.
  apply chat_steps_Ok_inv in Hrun as (ans & docs & -> & Hret).
  cbn [rag.sources]. rewrite extract_sources_dedup.
  split; [apply dedup_first_NoDup|]. split; [|done].
  etrans; [apply dedup_first_length|]. rewrite length_map.
  destruct Hret as [Hret|Hret].
  - by apply retriever_invoke_top_k in Hret as [Hlen _].
  - by apply RetrievalQA_sources in Hret as [Hlen _].
Qed.

(** C7, as amended.  Without an OpenAI key, a READY tenant whose index
    opens and whose prompt template is accepted is answered by the
    fallback, and the answer is a function of what was retrieved.  When
    no chunk is retrieved it is the fixed refusal naming the tenant.
    Otherwise, when the template is filled by plain substitution and
    neither the tenant name, the tenant identifier nor the joined context
    contains the words [Context:] or [Question:] where the generator
    looks for them, it is the no-LLM notice if the stripped context has
    at most fifty characters, and else the label, the first five hundred
    characters of the stripped context and an ellipsis. *)
Theorem fallback_answer_without_llm {E : Externals}
    (a m : string) (w : World) (app : AppRow) (dir : ChromaDir) (docs : list Document) :
  llm.has_openai_key = false ->
  apps (w_db w) !! a = Some app ->
  status app = "READY" ->
  rag.load_vector_db a w = (Ok dir, w) ->
  PromptTemplate (rag.template_text a (name app)) = Ok tt ->
  retriever_invoke dir rag.TOP_K m = Ok docs ->
  (docs = [] ->
     rag.chat a m w = (Ok (rag.mkChatResult true None (Some (rag.REFUSAL a)) []), w))
  /\ (forall context,
        docs ≠ [] ->
        context = Py.join (Py.nl +:+ Py.nl) (map page_content docs) ->
        PromptTemplate_format (rag.template_text a (name app)) context m
          = Ok (filled_prompt a (name app) context m) ->
        Py.contains "Context:" (name app) = false ->
        Py.contains "Question:" (name app) = false ->
        Py.contains "Context:" a = false ->
        Py.contains "Question:" a = false ->
        Py.contains "Question:" context = false ->
        rag.chat a m w
        = (Ok (rag.mkChatResult true None
                 (Some (if (Py.len (Py.strip context) <=? 50)%nat then llm.NO_LLM_NOTICE
                        else "Based on the documents: "
                             +:+ Py.slice_to (Py.strip context) 500 +:+ "..."))
                 (rag.extract_sources docs)), w)).
Proof.
  intros Hkey Happ Hst Hload Htpl Hret.
  assert (Hprompt : rag.get_prompt_template a (name app) w
                    = (Ok (rag.template_text a (name app)), w)).
  { unfold rag.get_prompt_template. rewrite bind_run. unfold lift. by rewrite Htpl. }
  assert (Hllm : llm.get_llm w = (Ok llm.MockLLM, w)).
  { unfold llm.get_llm, llm.has_openai_key in *.
    destruct OPENAI_API_KEY as [key|]; [|done]. by rewrite Hkey. }
  assert (Hchat : forall ans src,
    rag.manual_retrieval a llm.MockLLM dir (rag.template_text a (name app)) m w
      = (Ok (ans, src), w) ->
    rag.chat a m w = (Ok (rag.mkChatResult true None (Some ans) (rag.extract_sources src)), w)).
  { intros ans src Hman. rewrite chat_run, Happ, Hst. cbn [String.eqb negb].
    unfold rag.chat_steps. rewrite (bind_Ok_run _ _ _ _ _ Hload).
    rewrite (bind_Ok_run _ _ _ _ _ Hllm), (bind_Ok_run _ _ _ _ _ Hprompt), Hkey.
    by rewrite (bind_Ok_run _ _ _ _ _ Hman). }
  split.
  - intros ->. apply (Hchat _ []). unfold rag.manual_retrieval.
    rewrite bind_run. unfold lift. by rewrite Hret.
  - intros context Hne -> Hfmt Hn1 Hn2 Ha1 Ha2 Hc. apply Hchat.
    unfold rag.manual_retrieval. rewrite bind_run. unfold lift at 1. rewrite Hret.
    destruct docs as [|d docs]; [done|].
    rewrite bind_run. unfold lift at 1. rewrite Hfmt.
    rewrite bind_run. cbn [llm.generate mret M_ret ret].
    by rewrite MockLLM_generate_filled.
Qed.

(** * Further properties of the code *)

(** ** Request validation *)

Section validator_lemmas.

Lemma lower_char_id_char (c : ascii) :
  main.is_app_id_char c = true -> is_lower_id_char (Py.lower_char c) = true.
Proof. destruct c as [[] [] [] [] [] [] [] []]; vm_compute; done. Qed.

Lemma lower_char_keeps_id_char (c : ascii) :
  main.is_app_id_char c = true -> main.is_app_id_char (Py.lower_char c) = true.
Proof. destruct c as [[] [] [] [] [] [] [] []]; vm_compute; done. Qed.

Lemma lower_char_idem (c : ascii) : Py.lower_char (Py.lower_char c) = Py.lower_char c.
Proof. destruct c as [[] [] [] [] [] [] [] []]; vm_compute; done. Qed.

Lemma lower_char_LF (c : ascii) : Ascii.eqb (Py.lower_char c) Py.LF = Ascii.eqb c Py.LF.
Proof. destruct c as [[] [] [] [] [] [] [] []]; vm_compute; done. Qed.

Lemma chars_lower (v : string) : Py.chars (Py.lower v) = map Py.lower_char (Py.chars v).
Proof. unfold Py.lower. apply chars_str. Qed.

Lemma lower_idem (v : string) : Py.lower (Py.lower v) = Py.lower v.
Proof.
  unfold Py.lower at 1. rewrite chars_lower. unfold Py.lower. f_equal.
  rewrite map_map. apply map_ext. intros c. apply lower_char_idem.
Qed.

Lemma len_lower (v : string) : Py.len (Py.lower v) = Py.len v.
Proof. unfold Py.len. by rewrite chars_lower, length_map. Qed.

Lemma before_final_newline_lower (cs : list ascii) :
  main.before_final_newline (map Py.lower_char cs)
  = map Py.lower_char (main.before_final_newline cs).
Proof.
  induction cs as [|c [|c' cs] IH]; [done| |].
  - cbn. rewrite lower_char_LF. by destruct (Ascii.eqb c Py.LF).
  - change (main.before_final_newline (c :: c' :: cs))
      with (c :: main.before_final_newline (c' :: cs)).
    cbn [map]. cbn [map] in IH.
    change (main.before_final_newline (Py.lower_char c :: Py.lower_char c' :: map Py.lower_char cs))
      with (Py.lower_char c
            :: main.before_final_newline (Py.lower_char c' :: map Py.lower_char cs)).
    by rewrite IH.
Qed.

(** A string is what precedes its final line feed, or that and the line
    feed. *)
Lemma before_final_newline_split (cs : list ascii) :
  cs = main.before_final_newline cs \/ cs = main.before_final_newline cs ++ [Py.LF].
Proof.
  induction cs as [|c [|c' cs] IH]; [by left| |].
  - cbn. destruct (Ascii.eqb_spec c Py.LF) as [->|]; [by right|by left].
  - change (main.before_final_newline (c :: c' :: cs))
      with (c :: main.before_final_newline (c' :: cs)).
    destruct IH as [IH|IH]; [left|right]; cbn [app]; by rewrite <- IH.
Qed.

Lemma match_app_id_lower (v : string) :
  main.match_app_id v = true -> main.match_app_id (Py.lower v) = true.
Proof.
  unfold main.match_app_id. rewrite chars_lower, before_final_newline_lower.
  destruct (main.before_final_newline (Py.chars v)) as [|c body]; [done|].
  intros Hall. change (forallb main.is_app_id_char (map Py.lower_char (c :: body)) = true).
  rewrite forallb_forall in *. intros x Hx.
  apply in_map_iff in Hx as (y & <- & Hy). apply lower_char_keeps_id_char. by apply Hall.
Qed.

End validator_lemmas.

(** X1.  An accepted application identifier is the lower-cased input; it
    has between two and fifty characters, and they are lower-case letters,
    digits and dashes, at least one, except that a line feed may end it
    (the pattern's [$] also matches before a final line feed). *)
Theorem validate_app_id_accepted (v r : string) :
  main.validate_app_id v = Ok r ->
  r = Py.lower v
  /\ (2 <= Py.len r <= 50)%nat
  /\ exists body,
       (Py.chars r = body \/ Py.chars r = body ++ [Py.LF])
       /\ body ≠ []
       /\ Forall (fun c => is_lower_id_char c = true) body.
Proof.
  unfold main.validate_app_id.
  destruct (main.match_app_id v) eqn:Hm; [|discriminate]. cbn [negb].
  destruct ((Py.len v <? 2)%nat || (50 <? Py.len v)%nat)%bool eqn:Hlen; [discriminate|].
  intros [= <-]. split; [done|]. apply orb_false_elim in Hlen as [H2 H50].
  apply Nat.ltb_ge in H2, H50. rewrite len_lower. split; [lia|].
  exists (map Py.lower_char (main.before_final_newline (Py.chars v))).
  rewrite chars_lower. unfold main.match_app_id in Hm.
  split; [|split].
  - destruct (before_final_newline_split (Py.chars v)) as [Hs|Hs]; [left|right].
    + by rewrite <- Hs.
    + rewrite Hs at 1. by rewrite map_app.
  - destruct (main.before_final_newline (Py.chars v)); [discriminate|done].
  - destruct (main.before_final_newline (Py.chars v)) as [|c body]; [discriminate|].
    rewrite forallb_forall in Hm. apply Forall_forall. intros x Hx.
    apply list_elem_of_In, in_map_iff in Hx as (y & <- & Hy).
    apply lower_char_id_char. by apply Hm.
Qed.

(** X2.  Validating an accepted identifier again accepts it and leaves it
    as it is. *)
Theorem validate_app_id_idempotent (v r : string) :
  main.validate_app_id v = Ok r -> main.validate_app_id r = Ok r.
Proof.
  unfold main.validate_app_id.
  destruct (main.match_app_id v) eqn:Hm; [|discriminate]. cbn [negb].
  destruct ((Py.len v <? 2)%nat || (50 <? Py.len v)%nat)%bool eqn:Hlen; [discriminate|].
  intros [= <-]. rewrite (match_app_id_lower v Hm), len_lower, Hlen. cbn [negb].
  by rewrite lower_idem.
Qed.

Section strip_lemmas.

Lemma lstrip_chars_head (l : list ascii) :
  Py.lstrip_chars l = []
  \/ exists c l', Py.lstrip_chars l = c :: l' /\ Py.isspace c = false.
Proof.
  induction l as [|c l IH]; cbn [Py.lstrip_chars]; [by left|].
  destruct (Py.isspace c) eqn:Hc; [done|]. right. eauto.
Qed.

Lemma lstrip_chars_nonspace (c : ascii) (l : list ascii) :
  Py.isspace c = false -> Py.lstrip_chars (c :: l) = c :: l.
Proof. intros Hc. cbn. by rewrite Hc. Qed.

Lemma lstrip_chars_idem (l : list ascii) :
  Py.lstrip_chars (Py.lstrip_chars l) = Py.lstrip_chars l.
Proof.
  destruct (lstrip_chars_head l) as [->|(c & l' & -> & Hc)]; [done|].
  by apply lstrip_chars_nonspace.
Qed.

Lemma lstrip_chars_snoc (l : list ascii) (c : ascii) :
  Py.isspace c = false -> Py.lstrip_chars (l ++ [c]) = Py.lstrip_chars l ++ [c].
Proof.
  intros Hc. induction l as [|x l IH]; cbn; [by rewrite Hc|].
  by destruct (Py.isspace x).
Qed.

Lemma rstrip_chars_idem (l : list ascii) :
  Py.rstrip_chars (Py.rstrip_chars l) = Py.rstrip_chars l.
Proof. unfold Py.rstrip_chars. by rewrite rev_involutive, lstrip_chars_idem. Qed.

Lemma rstrip_chars_cons (c : ascii) (l : list ascii) :
  Py.isspace c = false ->
  Py.rstrip_chars (c :: l) = c :: Py.rstrip_chars l.
Proof.
  intros Hc. unfold Py.rstrip_chars. cbn [rev].
  by rewrite lstrip_chars_snoc, rev_app_distr.
Qed.

(** The last character that stripping leaves is no white space. *)
Lemma rstrip_chars_last (l init : list ascii) (c : ascii) :
  Py.rstrip_chars l = init ++ [c] -> Py.isspace c = false.
Proof.
  unfold Py.rstrip_chars. intros H. apply (f_equal (@rev ascii)) in H.
  rewrite rev_involutive, rev_app_distr in H. cbn in H.
  destruct (lstrip_chars_head (rev l)) as [Hn|(x & l' & Hx & Hsp)]; [congruence|].
  rewrite Hx in H. by injection H as -> _.
Qed.

Lemma strip_chars_idem (l : list ascii) :
  Py.rstrip_chars (Py.lstrip_chars (Py.rstrip_chars (Py.lstrip_chars l)))
  = Py.rstrip_chars (Py.lstrip_chars l).
Proof.
  destruct (lstrip_chars_head l) as [->|(c & l' & -> & Hc)]; [done|].
  rewrite rstrip_chars_cons by done. rewrite lstrip_chars_nonspace by done.
  rewrite <- rstrip_chars_cons by done. apply rstrip_chars_idem.
Qed.

Lemma strip_idem (s : string) : Py.strip (Py.strip s) = Py.strip s.
Proof. unfold Py.strip. by rewrite chars_str, strip_chars_idem. Qed.

End strip_lemmas.

(** X3.  An accepted chat message is the input without the white space
    around it.  It is not empty, it neither starts nor ends with white
    space, and validating it again returns it as it is. *)
Theorem validate_message_accepted (v r : string) :
  main.validate_message v = Ok r ->
  r = Py.strip v
  /\ r ≠ EmptyString
  /\ (forall c rest, Py.chars r = c :: rest -> Py.isspace c = false)
  /\ (forall c init, Py.chars r = init ++ [c] -> Py.isspace c = false)
  /\ main.validate_message r = Ok r.
Proof.
  unfold main.validate_message.
  destruct (negb (Py.truthy v) || (Py.len (Py.strip v) =? 0)%nat)%bool eqn:Hv; [discriminate|].
  intros [= <-]. apply orb_false_elim in Hv as [_ Hlen]. apply Nat.eqb_neq in Hlen.
  assert (Hne : Py.strip v ≠ EmptyString) by (intros Heq; by rewrite Heq in Hlen).
  split; [done|]. split; [done|]. split; [|split].
  - intros c rest Hr. unfold Py.strip in Hr. rewrite chars_str in Hr.
    destruct (lstrip_chars_head (Py.chars v)) as [Hn|(x & l' & Hx & Hsp)].
    + rewrite Hn in Hr. discriminate Hr.
    + rewrite Hx, rstrip_chars_cons in Hr by done. by injection Hr as <- _.
  - intros c init Hr. unfold Py.strip in Hr. rewrite chars_str in Hr.
    by eapply rstrip_chars_last.
  - rewrite strip_idem. destruct (Py.strip v) eqn:Hs; [done|].
    rewrite <- Hs in *. replace (Py.truthy (Py.strip v)) with true by (by rewrite Hs).
    cbn [negb orb]. by destruct (Nat.eqb_spec (Py.len (Py.strip v)) 0).
Qed.

(** ** Paths *)

Section path_lemmas.

(** Where the last occurrence is: nowhere, or at [j] with none after. *)
Lemma rfind_from_spec (c : ascii) (l : list ascii) : forall (i : nat) (acc : Z),
  (Py.rfind_from c l i acc = acc /\ c ∉ l)
  \/ exists j, Py.rfind_from c l i acc = Z.of_nat (i + j)
               /\ l !! j = Some c /\ c ∉ drop (S j) l.
Proof.
  induction l as [|x l IH]; intros i acc; cbn [Py.rfind_from].
  - left. split; [done|apply not_elem_of_nil].
  - destruct (IH (S i) (if Ascii.eqb x c then Z.of_nat i else acc))
      as [[Hr Hnot]|(j & Hr & Hj & Hnot)].
    + destruct (Ascii.eqb_spec x c) as [->|Hne].
      * right. exists 0%nat. rewrite Hr, Nat.add_0_r. done.
      * left. split; [done|]. by apply not_elem_of_cons.
    + right. exists (S j). rewrite Hr. split; [f_equal; lia|done].
Qed.

Lemma rfind_from_app (c : ascii) (u v : list ascii) (i : nat) (acc : Z) :
  Py.rfind_from c (u ++ v) i acc
  = Py.rfind_from c v (length u + i) (Py.rfind_from c u i acc).
Proof.
  revert i acc. induction u as [|x u IH]; intros i acc; [done|].
  cbn [app Py.rfind_from length]. rewrite IH. f_equal. lia.
Qed.

Lemma rfind_from_absent (c : ascii) (l : list ascii) (i : nat) (acc : Z) :
  c ∉ l -> Py.rfind_from c l i acc = acc.
Proof.
  revert i acc. induction l as [|x l IH]; intros i acc Hc; [done|].
  apply not_elem_of_cons in Hc as [Hne Hc]. cbn [Py.rfind_from].
  rewrite IH by done. by rewrite ascii_eqb_false.
Qed.

(** The last occurrence in [u ++ c :: f] when [f] has none. *)
Lemma rfind_from_last (c : ascii) (u f : list ascii) :
  c ∉ f -> Py.rfind_from c (u ++ c :: f) 0 (-1) = Z.of_nat (length u).
Proof.
  intros Hc. rewrite rfind_from_app. cbn [Py.rfind_from].
  rewrite Ascii.eqb_refl, rfind_from_absent by done. f_equal. lia.
Qed.

Lemma chars_String (c : ascii) (s : string) : Py.chars (String c s) = c :: Py.chars s.
Proof. reflexivity. Qed.

Lemma str_inj (l1 l2 : list ascii) : Py.str l1 = Py.str l2 -> l1 = l2.
Proof. intros H. apply (f_equal Py.chars) in H. by rewrite !chars_str in H. Qed.

Lemma basename_chars (p : string) :
  Py.chars (OsPath.basename p)
  = drop (Z.to_nat (Py.rfind p OsPath.SEP + 1)) (Py.chars p).
Proof. unfold OsPath.basename, Py.slice_from. apply chars_str. Qed.

(** The base name of [u ++ f], where [u] is empty or ends in a separator
    and [f] has none, is [f]. *)
Lemma basename_after_sep (u f : list ascii) :
  OsPath.SEP ∉ f ->
  u = [] \/ (exists u', u = u' ++ [OsPath.SEP]) ->
  OsPath.basename (Py.str (u ++ f)) = Py.str f.
Proof.
  intros Hf Hu. unfold OsPath.basename, Py.slice_from, Py.rfind. rewrite chars_str. f_equal.
  destruct Hu as [->|(u' & ->)].
  - cbn [app]. by rewrite rfind_from_absent.
  - rewrite <- app_assoc. cbn [app]. rewrite rfind_from_last by done.
    replace (Z.to_nat (Z.of_nat (length u') + 1)) with (length (u' ++ [OsPath.SEP]))
      by (rewrite length_app; cbn; lia).
    change (u' ++ OsPath.SEP :: f) with (u' ++ [OsPath.SEP] ++ f).
    rewrite (app_assoc u' [OsPath.SEP] f). apply drop_app_length.
Qed.

(** Joining puts the file name after nothing or after a separator. *)
Lemma join_chars (d f : string) :
  Py.starts_with [OsPath.SEP] (Py.chars f) = false ->
  exists u, OsPath.join d f = Py.str (u ++ Py.chars f)
            /\ (u = [] \/ exists u', u = u' ++ [OsPath.SEP]).
Proof.
  intros Hf. unfold OsPath.join. rewrite Hf.
  destruct (Py.truthy d) eqn:Hd; cbn [negb orb].
  - destruct (Py.starts_with [OsPath.SEP] (rev (Py.chars d))) eqn:Hend.
    + exists (Py.chars d). split; [by rewrite <- chars_app, str_chars|].
      right. destruct (rev (Py.chars d)) as [|x r] eqn:Hr; [done|].
      cbn [Py.starts_with] in Hend. apply andb_prop in Hend as [Hx _].
      apply Ascii.eqb_eq in Hx as <-.
      apply (f_equal (@rev ascii)) in Hr. rewrite rev_involutive in Hr. cbn in Hr. eauto.
    + exists (Py.chars d ++ [OsPath.SEP]). split; [|eauto].
      rewrite <- (str_chars (d +:+ _)), !chars_app. by rewrite <- app_assoc.
  - exists []. split; [|by left]. destruct d; [|done]. cbn [app]. by rewrite str_chars.
Qed.

End path_lemmas.

(** X4.  A base name holds no separator, and neither does any source a
    chat returns: the sources are bare file names, whatever the paths in
    the index are. *)
Theorem chat_sources_are_bare_names {E : Externals}
    (a m : string) (w w' : World) (res : rag.ChatResult) :
  rag.chat a m w = (Ok res, w') ->
  (forall s, s ∈ rag.sources res -> OsPath.SEP ∉ Py.chars s)
  /\ (forall p, OsPath.SEP ∉ Py.chars (OsPath.basename p)).
Proof.
  assert (Hbase : forall p, OsPath.SEP ∉ Py.chars (OsPath.basename p)).
  { intros p. rewrite basename_chars. unfold Py.rfind.
    destruct (rfind_from_spec OsPath.SEP (Py.chars p) 0 (-1))
      as [[-> Hnot]|(j & -> & _ & Hnot)]; [done|].
    by replace (Z.to_nat (Z.of_nat (0 + j) + 1)) with (S j) by lia. }
  intros Hchat. split; [|done]. intros s Hs.
  rewrite chat_run in Hchat. injection Hchat as <- _.
  destruct (apps (w_db w) !! a) as [app|]; [|by apply elem_of_nil in Hs].
  destruct (negb _); [by apply elem_of_nil in Hs|].
  destruct (rag.chat_steps a m app w) as [[r|e] w1] eqn:Hsteps; cbn [fst] in Hs;
    [|by apply elem_of_nil in Hs].
  apply chat_steps_Ok_inv in Hsteps as (ans & docs & -> & _). cbn [rag.sources] in Hs.
  rewrite extract_sources_dedup in Hs. apply (proj1 (dedup_first_elem _ _)) in Hs.
  apply list_elem_of_fmap in Hs as (d & -> & _). apply Hbase.
Qed.

(** X5.  Joining a directory and a file name that holds no separator,
    then taking the base name, gives the file name back: the path a file
    is saved under is attributed to the name it was uploaded with. *)
Theorem basename_join (d f : string) :
  OsPath.SEP ∉ Py.chars f ->
  OsPath.basename (OsPath.join d f) = f.
Proof.
  intros Hf.
  destruct (join_chars d f) as (u & -> & Hu).
  - destruct (Py.chars f) as [|c cs]; [done|].
    apply not_elem_of_cons in Hf as [Hne _]. cbn [Py.starts_with].
    by rewrite ascii_eqb_false.
  - rewrite basename_after_sep by done. apply str_chars.
Qed.

(** ** Supported file names *)

Section supported_lemmas.

Lemma lower_char_SEP (x : ascii) :
  Ascii.eqb (Py.lower_char x) OsPath.SEP = Ascii.eqb x OsPath.SEP.
Proof. destruct x as [[] [] [] [] [] [] [] []]; vm_compute; done. Qed.

Lemma lower_char_EXTSEP (x : ascii) :
  Ascii.eqb (Py.lower_char x) OsPath.EXTSEP = Ascii.eqb x OsPath.EXTSEP.
Proof. destruct x as [[] [] [] [] [] [] [] []]; vm_compute; done. Qed.

Lemma rfind_from_lower (c : ascii) (l : list ascii) :
  (forall x, Ascii.eqb (Py.lower_char x) c = Ascii.eqb x c) ->
  forall (i : nat) (acc : Z),
  Py.rfind_from c (map Py.lower_char l) i acc = Py.rfind_from c l i acc.
Proof.
  intros Hc. induction l as [|x l IH]; intros i acc; [done|].
  cbn [map Py.rfind_from]. by rewrite Hc, IH.
Qed.

Lemma rfind_lower (p : string) (c : ascii) :
  (forall x, Ascii.eqb (Py.lower_char x) c = Ascii.eqb x c) ->
  Py.rfind (Py.lower p) c = Py.rfind p c.
Proof. intros Hc. unfold Py.rfind. rewrite chars_lower. by apply rfind_from_lower. Qed.

Lemma slice_from_lower (p : string) (a : Z) :
  Py.slice_from (Py.lower p) a = Py.lower (Py.slice_from p a).
Proof.
  unfold Py.slice_from, Py.lower. by rewrite !chars_str, skipn_map.
Qed.

Lemma slice_lower (p : string) (a b : Z) :
  Py.chars (Py.slice (Py.lower p) a b) = map Py.lower_char (Py.chars (Py.slice p a b)).
Proof.
  unfold Py.slice. rewrite !chars_str, chars_lower. by rewrite skipn_map, firstn_map.
Qed.

Lemma existsb_nondot_lower (l : list ascii) :
  existsb (fun c => negb (Ascii.eqb c OsPath.EXTSEP)) (map Py.lower_char l)
  = existsb (fun c => negb (Ascii.eqb c OsPath.EXTSEP)) l.
Proof. induction l as [|x l IH]; [done|]. cbn [map existsb]. by rewrite lower_char_EXTSEP, IH. Qed.

(** The extension of the lower-cased name is the lower-cased extension. *)
Lemma splitext_lower (p : string) :
  (OsPath.splitext (Py.lower p)).2 = Py.lower (OsPath.splitext p).2.
Proof.
  unfold OsPath.splitext.
  rewrite (rfind_lower p _ lower_char_SEP), (rfind_lower p _ lower_char_EXTSEP).
  destruct (Py.rfind p OsPath.SEP <? Py.rfind p OsPath.EXTSEP); [|done].
  rewrite slice_lower, existsb_nondot_lower.
  destruct (existsb _ _); [|done]. cbn [snd]. apply slice_from_lower.
Qed.

End supported_lemmas.

(** X6.  Whether a file name is supported does not depend on the case of
    its letters: the name and its lower-cased form are classified alike. *)
Theorem is_supported_file_ignores_case (name : string) :
  storage.is_supported_file (Py.lower name) = storage.is_supported_file name.
Proof.
  unfold storage.is_supported_file. by rewrite splitext_lower, lower_idem.
Qed.

Section plain_name_lemmas.

(** The extension of a plain name [stem ++ . ++ e]. *)
Lemma splitext_plain (stem e : list ascii) :
  OsPath.SEP ∉ stem -> OsPath.SEP ∉ e -> OsPath.EXTSEP ∉ e ->
  (OsPath.splitext (Py.str (stem ++ OsPath.EXTSEP :: e))).2
  = if existsb (fun c => negb (Ascii.eqb c OsPath.EXTSEP)) stem
    then Py.str (OsPath.EXTSEP :: e) else EmptyString.
Proof.
  intros Hs He Hd. unfold OsPath.splitext, Py.rfind, Py.slice, Py.slice_to, Py.slice_from.
  rewrite !chars_str.
  rewrite (rfind_from_absent OsPath.SEP).
  2:{ rewrite elem_of_app, elem_of_cons. intros [?|[?|?]]; done. }
  rewrite rfind_from_last by done.
  replace (-1 <? Z.of_nat (length stem)) with true by (symmetry; apply Z.ltb_lt; lia).
  change (Z.to_nat (-1 + 1)) with 0%nat.
  rewrite Nat2Z.id, Nat.sub_0_r. change (drop 0 (stem ++ OsPath.EXTSEP :: e))
    with (stem ++ OsPath.EXTSEP :: e).
  rewrite take_app_length, drop_app_length.
  by destruct (existsb _ stem).
Qed.

Lemma existsb_nondot (stem : list ascii) :
  existsb (fun c => negb (Ascii.eqb c OsPath.EXTSEP)) stem = true
  <-> exists c, c ∈ stem /\ c ≠ OsPath.EXTSEP.
Proof.
  rewrite existsb_exists. split; intros (c & Hc & Hne); exists c.
  - split; [by apply list_elem_of_In|]. intros ->. by rewrite Ascii.eqb_refl in Hne.
  - split; [by apply list_elem_of_In|]. by rewrite ascii_eqb_false.
Qed.

End plain_name_lemmas.

(** X7.  For file names without a directory part: a name made of a stem
    with at least one character that is not a dot and the ending [.txt] or
    [.md] is supported; a name without any dot is not; and a name whose
    stem is empty or all dots, such as [.txt] itself, is not. *)
Theorem is_supported_file_plain_names (stem : string) :
  OsPath.SEP ∉ Py.chars stem ->
  ((exists c, c ∈ Py.chars stem /\ c ≠ OsPath.EXTSEP) ->
     storage.is_supported_file (stem +:+ ".txt") = true
     /\ storage.is_supported_file (stem +:+ ".md") = true)
  /\ (OsPath.EXTSEP ∉ Py.chars stem -> storage.is_supported_file stem = false)
  /\ (Forall (fun c => c = OsPath.EXTSEP) (Py.chars stem) ->
        storage.is_supported_file (stem +:+ ".txt") = false
        /\ storage.is_supported_file (stem +:+ ".md") = false).
Proof.
  intros Hsep.
  assert (Hext : forall e : list ascii,
    OsPath.SEP ∉ e -> OsPath.EXTSEP ∉ e ->
    (OsPath.splitext (stem +:+ Py.str (OsPath.EXTSEP :: e))).2
    = if existsb (fun c => negb (Ascii.eqb c OsPath.EXTSEP)) (Py.chars stem)
      then Py.str (OsPath.EXTSEP :: e) else EmptyString).
  { intros e He Hd. rewrite <- (splitext_plain (Py.chars stem) e) by done.
    do 2 f_equal. by rewrite <- (str_chars (stem +:+ _)), chars_app, chars_str. }
  assert (Htxt := Hext (Py.chars "txt")). assert (Hmd := Hext (Py.chars "md")).
  change (Py.str (OsPath.EXTSEP :: Py.chars "txt")) with ".txt" in Htxt.
  change (Py.str (OsPath.EXTSEP :: Py.chars "md")) with ".md" in Hmd.
  assert (Ht1 : (OsPath.SEP ∉ Py.chars "txt") /\ (OsPath.EXTSEP ∉ Py.chars "txt")).
  { split; intros H; apply list_elem_of_In in H; cbn in H;
      repeat (destruct H as [H|H]; [discriminate H|]); done. }
  assert (Hm1 : (OsPath.SEP ∉ Py.chars "md") /\ (OsPath.EXTSEP ∉ Py.chars "md")).
  { split; intros H; apply list_elem_of_In in H; cbn in H;
      repeat (destruct H as [H|H]; [discriminate H|]); done. }
  specialize (Htxt (proj1 Ht1) (proj2 Ht1)). specialize (Hmd (proj1 Hm1) (proj2 Hm1)).
  unfold storage.is_supported_file. split; [|split].
  - intros Hc. apply existsb_nondot in Hc. rewrite Htxt, Hmd, Hc. by split.
  - intros Hdot. unfold OsPath.splitext, Py.rfind.
    rewrite (rfind_from_absent OsPath.EXTSEP) by done.
    destruct (rfind_from_spec OsPath.SEP (Py.chars stem) 0 (-1)) as [[-> _]|(j & -> & _)];
      [done|].
    by replace (Z.of_nat (0 + j) <? -1) with false by (symmetry; apply Z.ltb_ge; lia).
  - intros Hall.
    assert (Hex : existsb (fun c => negb (Ascii.eqb c OsPath.EXTSEP)) (Py.chars stem) = false).
    { destruct (existsb _ _) eqn:Hex; [|done]. apply existsb_nondot in Hex as (c & Hc & Hne).
      rewrite Forall_forall in Hall. by apply Hall in Hc. }
    rewrite Htxt, Hmd, Hex. by split.
Qed.

(** ** The fallback generator on any prompt *)

Section mock_lemmas.

Lemma lstrip_chars_suffix (l : list ascii) : exists ws, l = ws ++ Py.lstrip_chars l.
Proof.
  induction l as [|c l [ws IH]]; [by exists []|]. cbn [Py.lstrip_chars].
  destruct (Py.isspace c); [|by exists []]. exists (c :: ws). cbn. by rewrite <- IH.
Qed.

Lemma rstrip_chars_prefix (l : list ascii) : exists ws, l = Py.rstrip_chars l ++ ws.
Proof.
  unfold Py.rstrip_chars. destruct (lstrip_chars_suffix (rev l)) as [ws Hws].
  exists (rev ws). rewrite <- rev_app_distr, <- Hws. by rewrite rev_involutive.
Qed.

Lemma len_app (x y : string) : Py.len (x +:+ y) = (Py.len x + Py.len y)%nat.
Proof. unfold Py.len. by rewrite chars_app, length_app. Qed.

End mock_lemmas.

(** X8.  Whatever the prompt, the fallback generator returns either the
    fixed notice or the label, an excerpt and an ellipsis, where the
    excerpt has more than 50 and at most 500 characters and stands
    verbatim in the prompt; so the answer never exceeds 527 characters.  A
    prompt that lacks [Context:] or [Question:] gets the notice. *)
Theorem MockLLM_generate_bounded (prompt : string) :
  (Py.len (llm.MockLLM_generate prompt) <= 527)%nat
  /\ (llm.MockLLM_generate prompt = llm.NO_LLM_NOTICE
      \/ exists excerpt pre post,
           llm.MockLLM_generate prompt = "Based on the documents: " +:+ excerpt +:+ "..."
           /\ (50 < Py.len excerpt <= 500)%nat
           /\ Py.chars prompt = pre ++ Py.chars excerpt ++ post)
  /\ (Py.contains "Context:" prompt = false \/ Py.contains "Question:" prompt = false ->
      llm.MockLLM_generate prompt = llm.NO_LLM_NOTICE).
Proof.
  assert (Hnotice : (Py.len llm.NO_LLM_NOTICE <= 527)%nat) by (vm_compute; lia).
  unfold llm.MockLLM_generate.
  destruct (Py.contains "Context:" prompt) eqn:Hc; cbn [andb];
    [|split; [done|]; split; [by left|done]].
  destruct (Py.contains "Question:" prompt) eqn:Hq;
    [|split; [done|]; split; [by left|done]].
  set (context := Py.strip (Py.slice prompt _ _)).
  destruct (Py.truthy context && (50 <? Py.len context)%nat)%bool eqn:Hlong;
    [|split; [done|]; split; [by left|]; by intros [?|?]].
  apply andb_prop in Hlong as [_ Hlong]. apply Nat.ltb_lt in Hlong.
  assert (Hlen : (50 < Py.len (Py.slice_to context 500) <= 500)%nat).
  { unfold Py.slice_to, Py.len in *. rewrite chars_str, length_take.
    change (Z.to_nat 500) with 500%nat. lia. }
  split; [|split; [|by intros [?|?]]].
  - rewrite !len_app. change (Py.len "Based on the documents: ") with 24%nat.
    change (Py.len "...") with 3%nat. lia.
  - right. unfold context, Py.strip, Py.slice, Py.slice_to. rewrite !chars_str.
    set (k := Z.to_nat (Py.find prompt "Context:" + Z.of_nat (Py.len "Context:"))).
    set (n := (Z.to_nat (Py.find prompt "Question:") - k)%nat).
    set (cut := take n (drop k (Py.chars prompt))).
    destruct (lstrip_chars_suffix cut) as [ws1 Hws1].
    destruct (rstrip_chars_prefix (Py.lstrip_chars cut)) as [ws2 Hws2].
    set (core := Py.rstrip_chars (Py.lstrip_chars cut)) in *.
    eexists (Py.str (take (Z.to_nat 500) core)),
            (take k (Py.chars prompt) ++ ws1),
            (drop (Z.to_nat 500) core ++ ws2 ++ drop n (drop k (Py.chars prompt))).
    split; [done|]. split.
    { unfold context, Py.strip, Py.slice, Py.slice_to in Hlen.
      rewrite !chars_str in Hlen. exact Hlen. }
    rewrite chars_str.
    rewrite <- (take_drop k (Py.chars prompt)) at 1.
    rewrite <- (take_drop n (drop k (Py.chars prompt))) at 1.
    fold cut. rewrite Hws1 at 1. rewrite Hws2 at 1.
    rewrite <- (take_drop (Z.to_nat 500) core) at 1.
    by rewrite <- !app_assoc.
Qed.

(** ** Creating a tenant *)

(** X9.  Creating a tenant under an identifier that is taken fails with
    status 400 and the already-exists message; the metadata store and the
    blob store are left as they were, the existing record included. *)
Theorem create_app_twice_rejected {E : Externals}
    (a n : string) (w : World) (r : AppRow) :
  apps (w_db w) !! a = Some r ->
  exists w',
    main.create_app a n w
      = (Raise (HTTPException 400 ("App '" +:+ a +:+ "' already exists")), w')
    /\ w_db w' = w_db w
    /\ w_fs w' = w_fs w
    /\ w_trace w' = w_trace w.
Proof.
  intros Hr. unfold main.create_app, db.create_app, db.utcnow, get_db.
  rewrite try_except_run. munfold. rewrite Hr. eexists. split; [reflexivity|]. done.
Qed.

(** X10.  Creating a tenant under a free identifier succeeds: the new
    record has the given name, status CREATED and no last-indexed time;
    the other records and all file records are untouched; both of the
    tenant's directories exist afterwards; and a chat with the new tenant
    is refused as not trained, naming CREATED. *)
Theorem create_app_fresh {E : Externals} (a n : string) (w : World) :
  apps (w_db w) !! a = None ->
  exists data w' ts,
    main.create_app a n w = (Ok data, w')
    /\ data = db.mkAppData a n "CREATED" ts
    /\ apps (w_db w') !! a = Some (mkAppRow a n "CREATED" None ts ts)
    /\ (forall b, b ≠ a -> apps (w_db w') !! b = apps (w_db w) !! b)
    /\ files (w_db w') = files (w_db w)
    /\ is_Some (file_dirs (w_fs w') !! storage.get_files_dir a)
    /\ is_Some (chroma_dirs (w_fs w') !! storage.get_chroma_dir a)
    /\ (forall m, rag.chat a m w' = (Ok (rag.not_trained a "CREATED"), w')).
Proof.
  intros Hr. unfold main.create_app, db.create_app, db.utcnow, get_db, put_db.
  rewrite try_except_run. munfold. rewrite Hr. munfold.
  match goal with |- context [storage.ensure_app_dirs a ?w0] =>
    destruct (ensure_app_dirs_run a w0) as (w' & -> & Hdb & _ & _ & Hfd & Hcd & _) end.
  cbn [w_db] in Hdb. eexists _, w', (isoformat (w_clock w)). split; [reflexivity|].
  split; [done|]. rewrite Hdb. cbn [apps files].
  assert (Hrow : apps (w_db w') !! a
                 = Some (mkAppRow a n "CREATED" None (isoformat (w_clock w))
                                  (isoformat (w_clock w)))).
  { rewrite Hdb. cbn [apps]. apply lookup_insert_eq. }
  split; [apply lookup_insert_eq|]. split; [intros b Hb; by apply lookup_insert_ne|].
  split; [done|]. split; [by rewrite Hfd|]. split; [by rewrite Hcd|].
  intros m. by rewrite chat_run, Hrow.
Qed.

(** ** Training through the API *)

#[export] Instance uploaded_not_before_total : Total db.uploaded_not_before.
Proof. intros r1 r2. unfold db.uploaded_not_before. apply (total String.le). Qed.

#[export] Instance uploaded_not_before_trans : Transitive db.uploaded_not_before.
Proof.
  intros r1 r2 r3 H12 H23. unfold db.uploaded_not_before in *.
  by etrans.
Qed.

Section train_lemmas.
Context {E : Externals}.

Lemma get_files_for_app_run (a : string) (w : World) :
  db.get_files_for_app a w
  = (Ok (merge_sort db.uploaded_not_before
           (List.filter (fun r => String.eqb (file_app_id r) a) (files (w_db w)))), w).
Proof. reflexivity. Qed.

Lemma merge_sort_nil_iff {A} (R : relation A) `{!RelDecision R} (l : list A) :
  merge_sort R l = [] <-> l = [].
Proof.
  split; [|by intros ->]. intros Hnil.
  pose proof (merge_sort_Permutation R l) as Hp. rewrite Hnil in Hp.
  by apply Permutation_nil_l in Hp.
Qed.

(** A build that raises has raised in its steps. *)
Lemma build_index_Raise_inv (a : string) (w w' : World) (e : exn) :
  indexing.build_index a w = (Raise e, w') ->
  exists w1, indexing.build_index_steps a w = (Raise e, w1).
Proof.
  unfold indexing.build_index. rewrite try_except_run.
  destruct (indexing.build_index_steps a w) as [[x|e1] w1]; [discriminate|].
  rewrite bind_run.
  destruct (update_app_status_run a "FAILED" None w1) as (w2 & -> & _).
  intros [= <- _]. eauto.
Qed.

End train_lemmas.

(** X11.  Training a tenant that has no file record is refused with
    status 400 before the index builder is called: the world, the
    tenant's status included, is left as it was. *)
Theorem train_app_without_files {E : Externals} (a : string) (w : World) (r : AppRow) :
  apps (w_db w) !! a = Some r ->
  (forall row, row ∈ files (w_db w) -> file_app_id row ≠ a) ->
  main.train_app a w
  = (Raise (HTTPException 400 ("No files uploaded for app '" +:+ a
                               +:+ "'. Please upload files first.")), w).
Proof.
  intros Hr Hnone. unfold main.train_app.
  rewrite bind_run, get_app_run, Hr, bind_run, get_files_for_app_run.
  replace (List.filter _ (files (w_db w))) with (@nil FileRow); [done|].
  symmetry. induction (files (w_db w)) as [|row rows IH]; [done|].
  cbn [List.filter]. rewrite (proj2 (String.eqb_neq _ _)) by (apply Hnone; left).
  apply IH. intros row' Hrow'. apply Hnone. by right.
Qed.

(** X12.  Training ends in one of four ways.  It returns, and then the
    tenant is READY, the response says READY and at least one document was
    loaded; or it is refused with status 404 (no such tenant) or 400 (no
    file record), the world unchanged; or it fails with status 500 and the
    message of the build's exception, and then the tenant is FAILED.  A
    tenant is never left INDEXING. *)
Theorem train_app_outcomes {E : Externals} (a : string) (w : World) :
  exists res w',
    main.train_app a w = (res, w')
    /\ match res with
       | Ok data =>
           main.td_status data = "READY"
           /\ status_of w' a = Some "READY"
           /\ (1 <= main.td_documents data)%nat
       | Raise e =>
           (e = HTTPException 404 ("App '" +:+ a +:+ "' not found")
            /\ apps (w_db w) !! a = None /\ w' = w)
           \/ (e = HTTPException 400 ("No files uploaded for app '" +:+ a
                                      +:+ "'. Please upload files first.")
               /\ w' = w)
           \/ (exists e0 w1, e = HTTPException 500 (str_exn e0)
                 /\ indexing.build_index_steps a w = (Raise e0, w1)
                 /\ status_of w' a = Some "FAILED")
       end.
Proof.
  unfold main.train_app. rewrite bind_run, get_app_run.
  destruct (apps (w_db w) !! a) as [r|] eqn:Hr.
  2:{ eexists _, _. split; [reflexivity|]. left. done. }
  rewrite bind_run, get_files_for_app_run.
  destruct (merge_sort _ _) as [|f fs].
  { eexists _, _. split; [reflexivity|]. right. left. done. }
  rewrite try_except_run, bind_run.
  destruct (indexing.build_index a w) as [[[n m]|e] w1] eqn:Hb.
  - eexists _, _. split; [reflexivity|]. cbn [main.td_status main.td_documents].
    apply build_index_Ok_inv in Hb.
    apply build_index_steps_Ok in Hb
      as (docs & chunks & dir' & _ & Hne & _ & _ & -> & _ & _ & _ & _ & Hrow).
    destruct (Hrow r Hr) as (r' & Hr' & Hst & _).
    split; [done|]. split.
    + unfold status_of. rewrite Hr'. cbn. by rewrite Hst.
    + destruct docs; [done|]. cbn. lia.
  - eexists _, _. split; [reflexivity|]. right. right.
    destruct (build_index_Raise_inv a w w1 e Hb) as (w2 & Hsteps).
    destruct (build_index_Raise a w e w2 r Hr Hsteps) as (w3 & Hb' & Hst & _).
    rewrite Hb in Hb'. injection Hb' as <-. eauto.
Qed.

(** X13.  After a training that returns, the index of the tenant has its
    marker file and holds exactly the chunks of the build, and the
    embedding model is known to load; so loading the index for a chat
    fails only if Chroma fails to open it. *)
Theorem train_app_then_index_loads `{!ExternalsLaws E}
    (a : string) (w w' : World) (data : main.TrainData) :
  main.train_app a w = (Ok data, w') ->
  indexing.index_exists a w' = (Ok true, w')
  /\ length (collection (index_of w' a)) = main.td_chunks data
  /\ rag.load_vector_db a w'
     = (match Chroma_open (index_of w' a) with
        | Ok _ => Ok (index_of w' a)
        | Raise e => Raise e
        end, w').
Proof.
  unfold main.train_app. rewrite bind_run, get_app_run.
  destruct (apps (w_db w) !! a) as [r|] eqn:Hr; [|discriminate].
  rewrite bind_run, get_files_for_app_run.
  destruct (merge_sort _ _) as [|f fs]; [discriminate|].
  rewrite try_except_run, bind_run.
  destruct (indexing.build_index a w) as [[[n m]|e] w1] eqn:Hb; [|discriminate].
  intros [= <- <-]. cbn [main.td_chunks].
  apply build_index_Ok_inv in Hb. unfold indexing.build_index_steps in Hb.
  pose proof Hb as Hb0. fold (indexing.build_index_steps a w) in Hb0.
  apply build_index_steps_Ok in Hb0
    as (docs & chunks & dir' & _ & _ & _ & Hch & _ & -> & _ & Hfs & _ & _).
  apply Chroma_from_documents_adds in Hch as [Hmark Hcoll]. cbn in Hcoll.
  assert (Hidx : index_of w1 a = dir').
  { unfold index_of. rewrite Hfs. cbn [chroma_dirs]. by rewrite lookup_insert_eq. }
  assert (Hex : indexing.index_exists a w1 = (Ok true, w1)).
  { unfold indexing.index_exists, get_fs. munfold. rewrite Hfs. cbn [chroma_dirs].
    by rewrite lookup_insert_eq, Hmark. }
  assert (Hemb : HuggingFaceEmbeddings indexing.EMBED_MODEL = Ok tt).
  { apply bind_Ok_inv in Hb as (? & ? & _ & Hb).
    apply bind_Ok_inv in Hb as (? & ? & _ & Hb).
    apply bind_Ok_inv in Hb as (ds & ? & _ & Hb).
    destruct ds; [discriminate|].
    apply bind_Ok_inv in Hb as (? & ? & _ & Hb).
    apply bind_Ok_inv in Hb as (? & ? & _ & Hb).
    apply bind_Ok_inv in Hb as ([] & ? & Hemb & Hb).
    unfold lift in Hemb. by injection Hemb as -> _. }
  split; [done|]. split; [by rewrite Hidx, Hcoll|].
  unfold rag.load_vector_db. rewrite bind_run, Hex. cbn [negb].
  rewrite bind_run. unfold lift at 1. rewrite Hemb.
  unfold get_fs. munfold. fold (index_of w1 a).
  by destruct (Chroma_open (index_of w1 a)).
Qed.

(** ** Deleting a tenant *)

Section delete_lemmas.
Context {E : Externals}.

Lemma is_below_self (root : string) : storage.is_below root root = true.
Proof. unfold storage.is_below. by rewrite String.eqb_refl. Qed.

Lemma starts_with_app (p s : list ascii) : Py.starts_with p (p ++ s) = true.
Proof. induction p as [|c p IH]; [done|]. cbn. by rewrite Ascii.eqb_refl. Qed.

(** What [os.path.join] puts before a relative second part. *)
Lemma join_relative (d f : string) :
  Py.starts_with [OsPath.SEP] (Py.chars f) = false ->
  Py.truthy d = true ->
  Py.chars (OsPath.join d f) = storage.dir_prefix d ++ Py.chars f.
Proof.
  intros Hf Hd. unfold OsPath.join, storage.dir_prefix. rewrite Hf, Hd. cbn [negb orb].
  destruct (Py.starts_with [OsPath.SEP] (rev (Py.chars d))).
  - apply chars_app.
  - rewrite !chars_app. by rewrite <- app_assoc.
Qed.

(** A directory made by joining a non-empty root and a relative name lies
    below the root. *)
Lemma is_below_join (root f : string) :
  Py.starts_with [OsPath.SEP] (Py.chars f) = false ->
  Py.truthy root = true ->
  storage.is_below root (OsPath.join root f) = true.
Proof.
  intros Hf Hroot. unfold storage.is_below.
  rewrite (join_relative root f Hf Hroot), starts_with_app. apply orb_true_r.
Qed.

Lemma delete_app_storage_run (a : string) (w : World) :
  storage.delete_app_storage a w
  = (Ok tt,
     mkWorld (w_db w)
       (mkFs (filter (fun entry => storage.is_below (storage.get_app_root a) entry.1 = false)
                     (file_dirs (w_fs w)))
             (filter (fun entry => storage.is_below (storage.get_app_root a) entry.1 = false)
                     (chroma_dirs (w_fs w))))
       (w_clock w) (w_trace w)).
Proof. reflexivity. Qed.

Lemma filter_files_other (a : string) (rows : list FileRow) (row : FileRow) :
  row ∈ List.filter (fun r => negb (String.eqb (file_app_id r) a)) rows
  <-> row ∈ rows /\ file_app_id row ≠ a.
Proof.
  rewrite !list_elem_of_In, filter_In, negb_true_iff, String.eqb_neq. done.
Qed.

End delete_lemmas.

(** X14.  Deleting a tenant that exists returns normally.  Afterwards the
    tenant has no record and no file record, every directory at or below
    its root is gone, and a chat with it answers not found.  The records
    and file records of the other tenants are kept, and the counter of
    file identifiers does not go back.  Deleting a tenant that does not
    exist fails with status 404 and changes nothing. *)
Theorem delete_app_removes_tenant {E : Externals} (a : string) (w : World) :
  (apps (w_db w) !! a = None ->
     main.delete_app a w
     = (Raise (HTTPException 404 ("App '" +:+ a +:+ "' not found")), w))
  /\ (is_Some (apps (w_db w) !! a) ->
      exists w',
        main.delete_app a w = (Ok ("App '" +:+ a +:+ "' deleted"), w')
        /\ apps (w_db w') !! a = None
        /\ (forall b, b ≠ a -> apps (w_db w') !! b = apps (w_db w) !! b)
        /\ (forall row, row ∈ files (w_db w')
                        <-> row ∈ files (w_db w) /\ file_app_id row ≠ a)
        /\ files_seq (w_db w') = files_seq (w_db w)
        /\ (forall p, storage.is_below (storage.get_app_root a) p = true ->
              file_dirs (w_fs w') !! p = None /\ chroma_dirs (w_fs w') !! p = None)
        /\ (Py.truthy (storage.get_app_root a) = true ->
              file_dirs (w_fs w') !! storage.get_files_dir a = None
              /\ chroma_dirs (w_fs w') !! storage.get_chroma_dir a = None)
        /\ (forall m, rag.chat a m w' = (Ok (rag.not_found a), w'))).
Proof.
  unfold main.delete_app. rewrite bind_run, get_app_run. split.
  - by intros ->.
  - intros [r ->]. rewrite bind_run, delete_app_storage_run.
    unfold db.delete_app, get_db, put_db. munfold.
    eexists. split; [reflexivity|]. cbn [w_db w_fs apps files files_seq file_dirs chroma_dirs].
    split; [apply lookup_delete_eq|]. split; [intros b Hb; by apply lookup_delete_ne|].
    split; [intros row; apply filter_files_other|]. split; [done|].
    assert (Hgone : forall p, storage.is_below (storage.get_app_root a) p = true ->
      filter (fun entry => storage.is_below (storage.get_app_root a) entry.1 = false)
             (file_dirs (w_fs w)) !! p = None
      /\ filter (fun entry => storage.is_below (storage.get_app_root a) entry.1 = false)
                (chroma_dirs (w_fs w)) !! p = None).
    { intros p Hp. split; apply map_lookup_filter_None; right; intros x _ Hx;
        cbn in Hx; congruence. }
    split; [exact Hgone|]. split.
    + intros Hroot. split.
      * apply (Hgone (storage.get_files_dir a)). by apply is_below_join.
      * apply (Hgone (storage.get_chroma_dir a)). by apply is_below_join.
    + intros m. rewrite chat_run. cbn [w_db apps]. by rewrite lookup_delete_eq.
Qed.

(** ** Tenants do not touch each other *)

Section isolation_lemmas.
Context {E : Externals}.

Lemma starts_with_spec (p s : list ascii) :
  Py.starts_with p s = true <-> exists t, s = p ++ t.
Proof.
  revert s. induction p as [|c p IH]; intros s; cbn [Py.starts_with].
  - split; [eauto|done].
  - destruct s as [|x s]; [split; [done|by intros [t Ht]]|].
    rewrite andb_true_iff, Ascii.eqb_eq, IH. split.
    + intros [-> [t ->]]. eauto.
    + intros [t [= -> ->]]. eauto.
Qed.

(** Two names without separator that agree up to their first separator
    are the same. *)
Lemma plain_prefix_eq (a b t1 t2 : list ascii) :
  OsPath.SEP ∉ a -> OsPath.SEP ∉ b ->
  a ++ OsPath.SEP :: t1 = b ++ OsPath.SEP :: t2 -> a = b.
Proof.
  revert b. induction a as [|c a IH]; intros [|x b] Ha Hb Heq; cbn in Heq.
  - done.
  - injection Heq as <- _. by apply not_elem_of_cons in Hb as [? _].
  - injection Heq as -> _. by apply not_elem_of_cons in Ha as [? _].
  - injection Heq as -> Heq. apply not_elem_of_cons in Ha as [_ Ha].
    apply not_elem_of_cons in Hb as [_ Hb]. f_equal. by apply IH.
Qed.

Lemma plain_id_chars (a : string) :
  plain_id a ->
  Py.starts_with [OsPath.SEP] (Py.chars a) = false
  /\ Py.starts_with [OsPath.SEP] (rev (Py.chars a)) = false
  /\ Py.truthy a = true.
Proof.
  intros (Hne & Hsep & _). split; [|split].
  - destruct (Py.chars a) as [|c cs]; [done|]. apply not_elem_of_cons in Hsep as [? _].
    cbn [Py.starts_with]. by rewrite ascii_eqb_false.
  - destruct (rev (Py.chars a)) as [|c cs] eqn:Hrev; [done|].
    cbn [Py.starts_with]. rewrite ascii_eqb_false; [done|]. intros <-. apply Hsep.
    apply list_elem_of_In, in_rev. rewrite Hrev. by left.
  - by destruct a.
Qed.

Lemma get_app_root_chars (a : string) :
  plain_id a -> Py.chars (storage.get_app_root a) = root_prefix ++ Py.chars a.
Proof.
  intros Ha. destruct (plain_id_chars a Ha) as (Hst & _ & _).
  unfold storage.get_app_root, root_prefix.
  destruct (Py.truthy STORAGE_ROOT) eqn:Hroot; [by apply join_relative|].
  unfold OsPath.join. rewrite Hst, Hroot. cbn [negb orb]. destruct STORAGE_ROOT; done.
Qed.

Lemma dir_prefix_app_root (a : string) :
  plain_id a ->
  storage.dir_prefix (storage.get_app_root a) = root_prefix ++ Py.chars a ++ [OsPath.SEP].
Proof.
  intros Ha. destruct (plain_id_chars a Ha) as (_ & Hend & Htr).
  unfold storage.dir_prefix. rewrite get_app_root_chars by done.
  rewrite rev_app_distr.
  destruct (rev (Py.chars a)) as [|c cs] eqn:Hrev.
  { apply (f_equal (@rev ascii)) in Hrev. rewrite rev_involutive in Hrev.
    destruct a; done. }
  cbn [app Py.starts_with] in *. rewrite andb_true_r in Hend. rewrite Hend.
  by rewrite <- app_assoc.
Qed.

(** A directory of a tenant: the prefix, the identifier, a separator and
    the directory's name. *)
Lemma tenant_dir_chars (a sub : string) :
  plain_id a ->
  Py.starts_with [OsPath.SEP] (Py.chars sub) = false ->
  Py.chars (OsPath.join (storage.get_app_root a) sub)
  = root_prefix ++ Py.chars a ++ OsPath.SEP :: Py.chars sub.
Proof.
  intros Ha Hsub. rewrite join_relative; [|done|].
  - rewrite dir_prefix_app_root by done. by rewrite <- !app_assoc.
  - destruct (plain_id_chars a Ha) as (_ & _ & Htr).
    assert (Hc := get_app_root_chars a Ha).
    destruct (storage.get_app_root a); [|done].
    destruct a; [done|]. by destruct root_prefix.
Qed.

Lemma chars_inj (s1 s2 : string) : Py.chars s1 = Py.chars s2 -> s1 = s2.
Proof. intros H. apply (f_equal Py.str) in H. by rewrite !str_chars in H. Qed.

(** A directory of one tenant is not at or below the root of another. *)
Lemma tenant_dir_not_below (a b sub : string) :
  plain_id a -> plain_id b -> a ≠ b ->
  Py.starts_with [OsPath.SEP] (Py.chars sub) = false ->
  storage.is_below (storage.get_app_root a) (OsPath.join (storage.get_app_root b) sub)
  = false.
Proof.
  intros Ha Hb Hab Hsub. unfold storage.is_below. apply orb_false_intro.
  - apply String.eqb_neq. intros Heq. apply (f_equal Py.chars) in Heq.
    rewrite tenant_dir_chars, get_app_root_chars in Heq by done.
    apply app_inv_head in Heq. destruct Ha as (_ & Ha & _). apply Ha. rewrite <- Heq.
    rewrite elem_of_app, elem_of_cons. auto.
  - apply not_true_iff_false. intros Hst.
    apply starts_with_spec in Hst as [t Ht].
    rewrite tenant_dir_chars, dir_prefix_app_root in Ht by done.
    rewrite <- !app_assoc in Ht. apply app_inv_head in Ht. cbn [app] in Ht.
    symmetry in Ht. apply plain_prefix_eq in Ht; [|apply (proj1 (proj2 Ha))|apply (proj1 (proj2 Hb))].
    apply Hab. by apply chars_inj.
Qed.

(** Different tenants have different directories. *)
Lemma tenant_dir_inj (a b sub : string) :
  plain_id a -> plain_id b ->
  Py.starts_with [OsPath.SEP] (Py.chars sub) = false ->
  OsPath.join (storage.get_app_root a) sub = OsPath.join (storage.get_app_root b) sub ->
  a = b.
Proof.
  intros Ha Hb Hsub Heq. apply (f_equal Py.chars) in Heq.
  rewrite !tenant_dir_chars in Heq by done. apply app_inv_head in Heq.
  apply plain_prefix_eq in Heq; [|apply (proj1 (proj2 Ha))|apply (proj1 (proj2 Hb))]. by apply chars_inj.
Qed.

End isolation_lemmas.

(** X15.  Deleting tenant [a] leaves the directories of every other
    tenant [b], files and index, exactly as they were (both identifiers
    not empty, without separator, and neither [.] nor [..]). *)
Theorem delete_app_keeps_other_storage {E : Externals} (a b : string) (w : World) :
  plain_id a -> plain_id b -> a ≠ b ->
  let w' := (main.delete_app a w).2 in
  file_dirs (w_fs w') !! storage.get_files_dir b
  = file_dirs (w_fs w) !! storage.get_files_dir b
  /\ chroma_dirs (w_fs w') !! storage.get_chroma_dir b
     = chroma_dirs (w_fs w) !! storage.get_chroma_dir b
  /\ apps (w_db w') !! b = apps (w_db w) !! b.
Proof.
  intros Ha Hb Hab. cbn zeta. unfold main.delete_app. rewrite bind_run, get_app_run.
  destruct (apps (w_db w) !! a) as [r|]; [|done].
  rewrite bind_run, delete_app_storage_run.
  unfold db.delete_app, get_db, put_db. munfold.
  assert (Hkeep : forall {V} (m : gmap string V) (sub : string),
    Py.starts_with [OsPath.SEP] (Py.chars sub) = false ->
    filter (fun entry : string * V =>
              storage.is_below (storage.get_app_root a) entry.1 = false) m
      !! OsPath.join (storage.get_app_root b) sub
    = m !! OsPath.join (storage.get_app_root b) sub).
  { intros V m sub Hsub.
    destruct (m !! OsPath.join (storage.get_app_root b) sub) as [v|] eqn:Hm.
    - apply map_lookup_filter_Some. split; [done|]. cbn. by apply tenant_dir_not_below.
    - apply map_lookup_filter_None. by left. }
  split; [by apply Hkeep|]. split; [by apply Hkeep|].
  apply lookup_delete_ne. done.
Qed.

Section untouched_lemmas.
Context {E : Externals}.

#[export] Instance untouched_preorder (b : string) : PreOrder (untouched b).
Proof.
  split.
  - intros w. by repeat split.
  - intros w1 w2 w3 (H1 & H2 & H3 & H4) (H1' & H2' & H3' & H4'). unfold untouched.
    by rewrite H1', H2', H3', H4'.
Qed.

Lemma chroma_dir_other (a b : string) :
  plain_id a -> plain_id b -> a ≠ b ->
  storage.get_chroma_dir a ≠ storage.get_chroma_dir b.
Proof.
  intros Ha Hb Hab Heq. apply Hab. exact (tenant_dir_inj a b "chroma_db" Ha Hb eq_refl Heq).
Qed.

Lemma files_dir_other (a b : string) :
  plain_id a -> plain_id b -> a ≠ b ->
  storage.get_files_dir a ≠ storage.get_files_dir b.
Proof.
  intros Ha Hb Hab Heq. apply Hab. exact (tenant_dir_inj a b "files" Ha Hb eq_refl Heq).
Qed.

Lemma untouched_same {A} (b : string) (c : M A) :
  (forall w, w_db (c w).2 = w_db w /\ w_fs (c w).2 = w_fs w) -> keeps (untouched b) c.
Proof. intros Hc w. destruct (Hc w) as [Hdb Hfs]. unfold untouched. by rewrite Hdb, Hfs. Qed.

Lemma untouched_update_app_status (a b s : string) (l : option string) :
  a ≠ b -> keeps (untouched b) (db.update_app_status a s l).
Proof.
  intros Hab w.
  destruct (update_app_status_run a s l w) as (w' & -> & Hfs & _ & _ & Hf & _ & Hne & _).
  cbn [snd]. unfold untouched. rewrite Hfs, Hf. split; [by apply Hne|done].
Qed.

Lemma untouched_build_index (a b : string) :
  plain_id a -> plain_id b -> a ≠ b -> keeps (untouched b) (indexing.build_index a).
Proof.
  intros Ha Hb Hab.
  pose proof (chroma_dir_other a b Ha Hb Hab) as Hdir.
  unfold indexing.build_index, indexing.build_index_steps.
  apply (keeps_try_except (untouched b)).
  2:{ intros e. apply (keeps_bind (untouched b)); [by apply untouched_update_app_status|].
      intros _. apply (keeps_raise (untouched b)). }
  apply (keeps_bind (untouched b)); [by apply untouched_update_app_status|]. intros _.
  apply (keeps_bind (untouched b)).
  { intros w. rewrite clear_chroma_dir_run. cbn [snd]. unfold untouched, cleared.
    cbn [w_db w_fs file_dirs chroma_dirs]. rewrite lookup_insert_ne by done. done. }
  intros _. apply (keeps_bind (untouched b)).
  { apply untouched_same. intros w. by rewrite load_documents_run. }
  intros docs. destruct docs; [apply (keeps_raise (untouched b))|].
  apply (keeps_bind (untouched b)).
  { apply untouched_same. intros w. by rewrite chunk_documents_run. }
  intros chunks. apply (keeps_bind (untouched b)); [by apply untouched_same|].
  intros _. apply (keeps_bind (untouched b)); [apply (keeps_lift (untouched b))|].
  intros _. apply (keeps_bind (untouched b)).
  { intros w. rewrite persist_chroma_run. cbn [snd]. unfold untouched.
    cbn [w_db w_fs file_dirs chroma_dirs]. rewrite lookup_insert_ne by done. done. }
  intros _. apply (keeps_bind (untouched b)); [by apply untouched_same|].
  intros now. apply (keeps_bind (untouched b)); [by apply untouched_update_app_status|].
  intros _. apply (keeps_ret (untouched b)).
Qed.

End untouched_lemmas.

(** X16.  Building the index of tenant [a], whether it returns or raises,
    leaves every other tenant [b] alone: its record (status included), its
    index directory, and all file records and uploaded files are what they
    were (both identifiers not empty, without separator, and neither [.]
    nor [..]). *)
Theorem build_index_keeps_other_tenants {E : Externals} (a b : string) (w : World) :
  plain_id a -> plain_id b -> a ≠ b ->
  let w' := (indexing.build_index a w).2 in
  apps (w_db w') !! b = apps (w_db w) !! b
  /\ index_of w' b = index_of w b
  /\ files (w_db w') = files (w_db w)
  /\ file_dirs (w_fs w') = file_dirs (w_fs w).
Proof.
  intros Ha Hb Hab. cbn zeta.
  destruct (untouched_build_index a b Ha Hb Hab w) as (H1 & H2 & H3 & H4).
  unfold index_of. by rewrite H4.
Qed.

(** X17.  Uploading to tenant [a] a batch whose stored parts carry plain
    file names, whether or not [a] exists, leaves every other tenant [b]
    alone: its record, its files directory, its index directory and its
    file records are as before. *)
Theorem upload_files_keeps_other_tenants {E : Externals}
    (a b : string) (fs : list main.UploadFile) (w : World) :
  plain_id a -> plain_id b -> a ≠ b ->
  Forall (fun f => plain_name (main.uf_filename f)) (stored_uploads a fs w) ->
  let w' := (main.upload_files a fs w).2 in
  apps (w_db w') !! b = apps (w_db w) !! b
  /\ file_dirs (w_fs w') !! storage.get_files_dir b
     = file_dirs (w_fs w) !! storage.get_files_dir b
  /\ chroma_dirs (w_fs w') !! storage.get_chroma_dir b
     = chroma_dirs (w_fs w) !! storage.get_chroma_dir b
  /\ List.filter (fun r => String.eqb (file_app_id r) b) (files (w_db w'))
     = List.filter (fun r => String.eqb (file_app_id r) b) (files (w_db w)).
Proof.
  intros Ha Hb Hab Hplain. cbn zeta.
  destruct (apps (w_db w) !! a) as [r|] eqn:Hr.
  2:{ unfold main.upload_files. rewrite bind_run, get_app_run, Hr. done. }
  destruct (upload_files_fs a fs w r Hr (stored_uploads_entry_names a fs w Hplain))
    as (Hfo & Hco & _).
  destruct (upload_files_run a fs w r Hr) as (data & w' & rows & Hrun & Hrest).
  destruct Hrest as (_ & _ & _ & _ & _ & Hfiles & _ & Hall & _ & _ & Hne & _).
  rewrite Hrun in Hfo, Hco |- *. cbn [snd] in Hfo, Hco |- *.
  split; [apply Hne; congruence|].
  split; [apply Hfo, not_eq_sym; by apply files_dir_other|].
  split; [apply Hco, not_eq_sym; by apply chroma_dir_other|].
  rewrite Hfiles, List.filter_app.
  replace (List.filter _ rows) with (@nil FileRow); [by rewrite app_nil_r|].
  symmetry. clear Hfiles. induction Hall as [|row rows Hrow _ IH]; [done|].
  cbn [List.filter]. destruct Hrow as [-> _].
  destruct (String.eqb_spec a b) as [->|_]; [done|exact IH].
Qed.

(** X18.  What an upload leaves in the tenant's files directory when at
    least one part is stored and the stored parts carry plain file names.
    The stored parts are those that were read, written and recorded
    without an exception; a part the file system refuses is not among
    them.  The directory exists; a name that no stored part carries keeps
    the content it had; a name carried by several stored parts holds the
    content of the last of them, so a repeated name overwrites the earlier
    file while each stored part still gets a record of its own; and every
    stored part's name is listed under the tenant's files directory. *)
Theorem upload_files_last_write_wins {E : Externals}
    (a : string) (fs : list main.UploadFile) (w : World) (r : AppRow) :
  apps (w_db w) !! a = Some r ->
  stored_uploads a fs w ≠ [] ->
  Forall (fun f => plain_name (main.uf_filename f)) (stored_uploads a fs w) ->
  let w' := (main.upload_files a fs w).2 in
  let old := default ∅ (file_dirs (w_fs w) !! storage.get_files_dir a) in
  exists dir,
    file_dirs (w_fs w') !! storage.get_files_dir a = Some dir
    /\ (forall n, n ∉ map main.uf_filename (stored_uploads a fs w) -> dir !! n = old !! n)
    /\ (forall pre f post c,
          stored_uploads a fs w = pre ++ f :: post ->
          main.uf_read f = Ok c ->
          main.uf_filename f ∉ map main.uf_filename post ->
          dir !! main.uf_filename f = Some c)
    /\ (forall f, f ∈ stored_uploads a fs w ->
          OsPath.join (storage.get_files_dir a) (main.uf_filename f)
            ∈ stored_paths (w_fs w') a)
    /\ (exists rows, files (w_db w') = files (w_db w) ++ rows
          /\ length rows = length (stored_uploads a fs w)).
Proof.
  intros Hr Hst Hplain. cbn zeta.
  destruct (upload_files_fs a fs w r Hr (stored_uploads_entry_names a fs w Hplain))
    as (_ & _ & Hd).
  destruct (attempted_uploads fs) as [|f0 fs0] eqn:Hatt.
  { by rewrite (stored_uploads_nil a fs w Hatt) in Hst. }
  exists (written (stored_uploads a fs w)
            (default ∅ (file_dirs (w_fs w) !! storage.get_files_dir a))).
  split; [exact Hd|]. split; [|split; [|split]].
  - intros n Hn. by apply written_other.
  - intros pre f post c Heq Hread Hn. rewrite Heq.
    rewrite written_last by done. unfold upload_content. by rewrite Hread.
  - intros f Hf. unfold stored_paths. rewrite Hd.
    destruct (written_elem (stored_uploads a fs w)
                (default ∅ (file_dirs (w_fs w) !! storage.get_files_dir a)) f Hf)
      as [c Hc].
    apply list_elem_of_fmap. exists (main.uf_filename f, c). split; [done|].
    by apply elem_of_map_to_list.
  - destruct (upload_files_run a fs w r Hr) as (data & w' & rows & -> & Hrest).
    destruct Hrest as (_ & _ & _ & _ & _ & Hf & Hn & _).
    cbn [snd]. exists rows. split; [done|].
    by rewrite <- (length_map filename), Hn, length_map.
Qed.

(** ** What every reachable world satisfies *)

Section invariant_lemmas.
Context {E : Externals}.

Lemma id_char_plain (c : ascii) :
  main.is_app_id_char c = true \/ c = Py.LF ->
  Py.lower_char c ≠ OsPath.SEP.
Proof.
  intros [Hc| ->]; [|by vm_compute].
  destruct c as [[] [] [] [] [] [] [] []]; vm_compute in Hc |- *; congruence.
Qed.

Lemma id_char_not_dot (c : ascii) :
  main.is_app_id_char c = true -> Py.lower_char c ≠ OsPath.EXTSEP.
Proof.
  intros Hc. destruct c as [[] [] [] [] [] [] [] []]; vm_compute in Hc |- *; congruence.
Qed.

(** An accepted identifier names a directory of its own. *)
Lemma validated_plain (v a : string) : main.validate_app_id v = Ok a -> plain_id a.
Proof.
  unfold main.validate_app_id.
  destruct (main.match_app_id v) eqn:Hm; [|discriminate]. cbn [negb].
  destruct (_ || _)%bool; [discriminate|]. intros [= <-].
  unfold main.match_app_id in Hm.
  destruct (main.before_final_newline (Py.chars v)) as [|c body] eqn:Hbody; [discriminate|].
  rewrite forallb_forall in Hm.
  assert (Hchars : exists rest, Py.chars v = c :: rest
            /\ forall x, x ∈ rest -> main.is_app_id_char x = true \/ x = Py.LF).
  { destruct (before_final_newline_split (Py.chars v)) as [Hs|Hs]; rewrite Hbody in Hs.
    - exists body. split; [done|]. intros x Hx. left. apply Hm. right.
      by apply list_elem_of_In.
    - exists (body ++ [Py.LF]). split; [done|]. intros x Hx.
      apply elem_of_app in Hx as [Hx|Hx].
      + left. apply Hm. right. by apply list_elem_of_In.
      + right. by apply list_elem_of_singleton in Hx. }
  destruct Hchars as (rest & Hv & Hrest).
  assert (Hc : main.is_app_id_char c = true) by (apply Hm; by left).
  assert (Hl : Py.chars (Py.lower v) = Py.lower_char c :: map Py.lower_char rest).
  { by rewrite chars_lower, Hv. }
  split; [|split; [|split]].
  - intros Heq. by rewrite Heq in Hl.
  - rewrite Hl. intros Hin. apply elem_of_cons in Hin as [Hin|Hin].
    + symmetry in Hin. revert Hin. apply id_char_plain. by left.
    + apply list_elem_of_fmap in Hin as (x & Hx & Hin). symmetry in Hx. revert Hx.
      by apply id_char_plain, Hrest.
  - intros Heq. rewrite Heq in Hl. injection Hl as Hl _. symmetry in Hl. revert Hl.
    by apply id_char_not_dot.
  - intros Heq. rewrite Heq in Hl. injection Hl as Hl _. symmetry in Hl. revert Hl.
    by apply id_char_not_dot.
Qed.

(** The invariant speaks of the metadata store only. *)
Lemma api_inv_same (w w' : World) : w_db w' = w_db w -> api_inv w -> api_inv w'.
Proof.
  intros Hdb [Hk Hs Hc Hr Hi Hrows].
  split; unfold rows_of in *; rewrite ?Hdb; done.
Qed.

Lemma api_inv_empty (w : World) : empty_store w -> api_inv w.
Proof.
  intros [Ha Hf]. split; unfold rows_of; rewrite ?Ha, ?Hf.
  - intros a r Hr. by rewrite lookup_empty in Hr.
  - intros a r Hr. by rewrite lookup_empty in Hr.
  - intros a r Hr. by rewrite lookup_empty in Hr.
  - intros a r Hr. by rewrite lookup_empty in Hr.
  - split; constructor.
  - intros row Hrow. by apply elem_of_nil in Hrow.
Qed.

(** *** The endpoints that only read *)

Lemma list_apps_world (w : World) : (main.list_apps w).2 = w.
Proof. reflexivity. Qed.

Lemma get_app_world (a : string) (w : World) : (main.get_app a w).2 = w.
Proof.
  unfold main.get_app. rewrite bind_run, get_app_run.
  by destruct (apps (w_db w) !! a).
Qed.

Lemma list_files_world (a : string) (w : World) : (main.list_files a w).2 = w.
Proof.
  unfold main.list_files. rewrite bind_run, get_app_run.
  by destruct (apps (w_db w) !! a).
Qed.

Lemma main_chat_world (a m : string) (w : World) : (main.chat a m w).2 = w.
Proof.
  unfold main.chat. rewrite bind_run, chat_run. by destruct (negb _).
Qed.

(** *** Creating *)

Lemma create_app_effect (a n : string) (w : World) :
  let w' := (main.create_app a n w).2 in
  (is_Some (apps (w_db w) !! a) -> w_db w' = w_db w)
  /\ (apps (w_db w) !! a = None ->
      exists ts, w_db w' = mkDb (<[a := mkAppRow a n "CREATED" None ts ts]> (apps (w_db w)))
                                (files (w_db w)) (files_seq (w_db w))).
Proof.
  cbn zeta. unfold main.create_app, db.create_app, db.utcnow, get_db, put_db.
  rewrite try_except_run. munfold. split.
  - intros [r ->]. done.
  - intros ->. munfold.
    match goal with |- context [storage.ensure_app_dirs a ?w0] =>
      pose proof (ensure_app_dirs_db a w0) as Hdb;
      destruct (ensure_app_dirs_run a w0) as (w' & Hrun & _) end.
    rewrite Hrun in Hdb |- *. cbn [fst snd] in Hdb |- *. rewrite Hdb. cbn [w_db]. eauto.
Qed.

Lemma filter_tenant_nil (a : string) (rows : list FileRow) :
  (forall row, row ∈ rows -> file_app_id row ≠ a) ->
  List.filter (fun r => String.eqb (file_app_id r) a) rows = [].
Proof.
  intros Hall. induction rows as [|row rows IH]; [done|]. cbn [List.filter].
  rewrite (proj2 (String.eqb_neq _ _)) by (apply Hall; left).
  apply IH. intros row' Hrow'. apply Hall. by right.
Qed.

Lemma rows_of_absent (w : World) (a : string) :
  api_inv w -> apps (w_db w) !! a = None -> rows_of w a = [].
Proof.
  intros Hinv Ha. unfold rows_of. apply filter_tenant_nil.
  intros row Hrow Heq. destruct (inv_rows w Hinv row Hrow) as ([r Hr] & _). congruence.
Qed.

Lemma api_inv_create_app (v a n : string) (w : World) :
  main.validate_app_id v = Ok a -> api_inv w -> api_inv (main.create_app a n w).2.
Proof.
  intros Hv Hinv. destruct (create_app_effect a n w) as [Hold Hnew].
  destruct (apps (w_db w) !! a) as [r|] eqn:Hr.
  { apply (api_inv_same w); [|done]. apply Hold. eauto. }
  destruct Hnew as (ts & Hdb); [done|].
  pose proof (rows_of_absent w a Hinv Hr) as Hrows.
  destruct Hinv as [Hk Hs Hc Hrd Hi Hrw].
  assert (Hrows' : forall c, rows_of (main.create_app a n w).2 c = rows_of w c).
  { intros c. unfold rows_of. by rewrite Hdb. }
  split.
  - intros b rb. rewrite Hdb. cbn [apps]. intros Hb.
    destruct (decide (b = a)) as [->|Hne].
    + rewrite lookup_insert_eq in Hb. injection Hb as <-. eauto.
    + rewrite lookup_insert_ne in Hb by done. eauto.
  - intros b rb. rewrite Hdb. cbn [apps]. intros Hb.
    destruct (decide (b = a)) as [->|Hne].
    + rewrite lookup_insert_eq in Hb. injection Hb as <-. cbn. repeat constructor.
    + rewrite lookup_insert_ne in Hb by done. eauto.
  - intros b rb. rewrite Hrows', Hdb. cbn [apps]. intros Hb.
    destruct (decide (b = a)) as [->|Hne].
    + rewrite lookup_insert_eq in Hb. injection Hb as <-. by rewrite Hrows.
    + rewrite lookup_insert_ne in Hb by done. eauto.
  - intros b rb. rewrite Hdb. cbn [apps]. intros Hb.
    destruct (decide (b = a)) as [->|Hne].
    + rewrite lookup_insert_eq in Hb. injection Hb as <-. discriminate.
    + rewrite lookup_insert_ne in Hb by done. eauto.
  - by rewrite Hdb.
  - intros row. rewrite Hdb. cbn [files apps]. intros Hrow.
    destruct (Hrw row Hrow) as ([rb Hb] & Hpath).
    split; [|done].
    destruct (decide (file_app_id row = a)) as [->|Hne].
    + rewrite lookup_insert_eq. eauto.
    + rewrite lookup_insert_ne by done. eauto.
Qed.

(** *** Deleting *)

Lemma delete_app_effect (a : string) (w : World) (r : AppRow) :
  apps (w_db w) !! a = Some r ->
  w_db (main.delete_app a w).2
  = mkDb (delete a (apps (w_db w)))
         (List.filter (fun r => negb (String.eqb (file_app_id r) a)) (files (w_db w)))
         (files_seq (w_db w)).
Proof.
  intros Hr. unfold main.delete_app.
  rewrite bind_run, get_app_run, Hr, bind_run, delete_app_storage_run.
  unfold db.delete_app, get_db, put_db. munfold. done.
Qed.

Lemma filter_tenant_other (a b : string) (rows : list FileRow) :
  b ≠ a ->
  List.filter (fun r => String.eqb (file_app_id r) b)
    (List.filter (fun r => negb (String.eqb (file_app_id r) a)) rows)
  = List.filter (fun r => String.eqb (file_app_id r) b) rows.
Proof.
  intros Hne. induction rows as [|row rows IH]; [done|]. cbn [List.filter].
  destruct (String.eqb_spec (file_app_id row) a) as [Ha|Ha]; cbn [negb List.filter].
  - rewrite IH. rewrite (proj2 (String.eqb_neq _ _)); [done|congruence].
  - by rewrite IH.
Qed.

Lemma NoDup_map_filter {A B} (g : A -> B) (f : A -> bool) (l : list A) :
  NoDup (map g l) -> NoDup (map g (List.filter f l)).
Proof.
  induction l as [|x l IH]; [done|]. cbn [map List.filter].
  intros [Hx Hl]%NoDup_cons. destruct (f x); [|by apply IH].
  cbn [map]. apply NoDup_cons. split; [|by apply IH].
  intros Hin. apply Hx. apply list_elem_of_fmap in Hin as (y & -> & Hy).
  apply list_elem_of_fmap. exists y. split; [done|].
  apply list_elem_of_In, filter_In in Hy as [Hy _]. by apply list_elem_of_In.
Qed.

Lemma api_inv_delete_app (a : string) (w : World) :
  api_inv w -> api_inv (main.delete_app a w).2.
Proof.
  intros Hinv.
  destruct (apps (w_db w) !! a) as [r|] eqn:Hr.
  2:{ unfold main.delete_app. rewrite bind_run, get_app_run, Hr. exact Hinv. }
  pose proof (delete_app_effect a w r Hr) as Hdb.
  destruct Hinv as [Hk Hs Hc Hrd Hi Hrw].
  assert (Hother : forall b, b ≠ a -> rows_of (main.delete_app a w).2 b = rows_of w b).
  { intros b Hne. unfold rows_of. rewrite Hdb. cbn [files]. by apply filter_tenant_other. }
  split.
  - intros b rb. rewrite Hdb. cbn [apps]. intros Hb.
    apply lookup_delete_Some in Hb as [Hne Hb]. eauto.
  - intros b rb. rewrite Hdb. cbn [apps]. intros Hb.
    apply lookup_delete_Some in Hb as [Hne Hb]. eauto.
  - intros b rb Hb. assert (Hb' := Hb). rewrite Hdb in Hb'. cbn [apps] in Hb'.
    apply lookup_delete_Some in Hb' as [Hne Hb'].
    rewrite Hother by done. eauto.
  - intros b rb Hb. rewrite Hdb in Hb. cbn [apps] in Hb.
    apply lookup_delete_Some in Hb as [Hne Hb]. eauto.
  - rewrite Hdb. cbn [files files_seq]. destruct Hi as [Hnd Hle]. split.
    + by apply NoDup_map_filter.
    + apply Forall_forall. intros row Hrow.
      apply list_elem_of_In, filter_In in Hrow as [Hrow _].
      rewrite Forall_forall in Hle. by apply Hle, list_elem_of_In.
  - intros row Hrow. assert (Hrow' := Hrow). rewrite Hdb in Hrow'. cbn [files] in Hrow'.
    apply filter_files_other in Hrow' as [Hrow' Hne].
    destruct (Hrw row Hrow') as ([rb Hb] & Hpath).
    split; [|done]. rewrite Hdb. cbn [apps]. rewrite lookup_delete_ne by done. eauto.
Qed.

(** *** Uploading *)

Lemma api_inv_upload_files (a : string) (fs : list main.UploadFile) (w : World) :
  api_inv w -> api_inv (main.upload_files a fs w).2.
Proof.
  intros Hinv.
  destruct (apps (w_db w) !! a) as [r|] eqn:Hr.
  2:{ unfold main.upload_files. rewrite bind_run, get_app_run, Hr. exact Hinv. }
  destruct (upload_files_run a fs w r Hr) as (data & w' & rows & Hrun & Hrest).
  destruct Hrest as (_ & _ & _ & _ & _ & Hfiles & Hnames & Hall & Hids & Hseq & Hne & _
                     & Hsame & Hrow).
  rewrite Hrun. cbn [snd].
  destruct (stored_uploads a fs w) as [|s0 ss] eqn:Hst.
  { apply (api_inv_same w); [by apply Hsame|done]. }
  clear Hsame. destruct Hrow as (r' & Hr' & Hst' & Hid' & _ & Hli'); [done|].
  destruct Hinv as [Hk Hs Hc Hrd Hi Hrw].
  assert (Hrows_other : forall b, b ≠ a -> rows_of w' b = rows_of w b).
  { intros b Hb. unfold rows_of. rewrite Hfiles, List.filter_app.
    rewrite (filter_tenant_nil b rows); [by rewrite app_nil_r|].
    intros row Hrow. rewrite Forall_forall in Hall.
    destruct (Hall row Hrow) as [-> _]. done. }
  assert (Hrows_a : rows_of w' a ≠ []).
  { unfold rows_of. rewrite Hfiles, List.filter_app. destruct rows as [|row rows].
    - discriminate Hnames.
    - apply Forall_cons in Hall as [[Hra _] _]. cbn [List.filter].
      rewrite Hra, String.eqb_refl. intros Heq. by apply app_eq_nil in Heq as [_ ?]. }
  split.
  - intros b rb Hb. destruct (decide (b = a)) as [->|Hb'].
    + rewrite Hr' in Hb. injection Hb as <-. rewrite Hid'. by apply (Hk a r).
    + rewrite Hne in Hb by done. eauto.
  - intros b rb Hb. destruct (decide (b = a)) as [->|Hb'].
    + rewrite Hr' in Hb. injection Hb as <-. rewrite Hst'. repeat constructor.
    + rewrite Hne in Hb by done. eauto.
  - intros b rb Hb. destruct (decide (b = a)) as [->|Hb'].
    + rewrite Hr' in Hb. injection Hb as <-. rewrite Hst'. split; [discriminate|done].
    + rewrite Hne in Hb by done. rewrite Hrows_other by done. eauto.
  - intros b rb Hb. destruct (decide (b = a)) as [->|Hb'].
    + rewrite Hr' in Hb. injection Hb as <-. rewrite Hst'. discriminate.
    + rewrite Hne in Hb by done. eauto.
  - destruct Hi as [Hnd Hle]. rewrite Hfiles, Hseq, map_app, Hids. split.
    + apply NoDup_app. split; [done|]. split; [|apply NoDup_seq].
      intros x Hx Hx'. apply list_elem_of_fmap in Hx as (row & -> & Hrow).
      rewrite Forall_forall in Hle. specialize (Hle row Hrow).
      apply list_elem_of_In, in_seq in Hx'. lia.
    + apply Forall_app. split.
      * eapply Forall_impl; [exact Hle|]. cbn. intros; lia.
      * apply Forall_forall. intros row Hrow.
        assert (id row ∈ seq (S (files_seq (w_db w))) (length rows)) as Hin.
        { rewrite <- Hids. apply list_elem_of_fmap. eauto. }
        apply list_elem_of_In, in_seq in Hin. lia.
  - intros row Hrow. rewrite Hfiles in Hrow. apply elem_of_app in Hrow as [Hrow|Hrow].
    + destruct (Hrw row Hrow) as ([rb Hb] & Hpath).
      split; [|done].
      destruct (decide (file_app_id row = a)) as [->|Hb']; [eauto|].
      rewrite Hne by done. eauto.
    + rewrite Forall_forall in Hall. destruct (Hall row Hrow) as [-> Hpath].
      split; [eauto|done].
Qed.

(** *** Training *)

#[export] Instance build_frame_preorder (a : string) : PreOrder (build_frame a).
Proof.
  split.
  - intros w. unfold build_frame. repeat split; eauto.
  - intros w1 w2 w3 (H1 & H2 & H3 & H4 & H5 & H6) (H1' & H2' & H3' & H4' & H5' & H6').
    unfold build_frame. rewrite H1', H2', H3'. repeat split; try done.
    + intros b Hb. rewrite H4' by done. by apply H4.
    + intros p Hp. rewrite H5' by done. by apply H5.
    + intros r Hr. destruct (H6 r Hr) as (r' & Hr' & Hid).
      destruct (H6' r' Hr') as (r'' & Hr'' & Hid'). exists r''. split; [done|congruence].
Qed.

Lemma build_frame_same {A} (a : string) (c : M A) :
  (forall w, w_db (c w).2 = w_db w /\ w_fs (c w).2 = w_fs w) -> keeps (build_frame a) c.
Proof.
  intros Hc w. destruct (Hc w) as [Hdb Hfs]. unfold build_frame. rewrite Hdb, Hfs.
  repeat split; eauto.
Qed.

Lemma build_frame_update_app_status (a s : string) (l : option string) :
  keeps (build_frame a) (db.update_app_status a s l).
Proof.
  intros w.
  destruct (update_app_status_run a s l w) as (w' & -> & Hfs & _ & _ & Hf & Hsq & Hne & _ & Hr).
  cbn [snd]. unfold build_frame. rewrite Hfs, Hf, Hsq. repeat split; try done.
  intros r Hrow. destruct (Hr r Hrow) as (r' & Hr' & _ & _ & Hid & _). eauto.
Qed.

Lemma build_frame_build_index (a : string) : keeps (build_frame a) (indexing.build_index a).
Proof.
  unfold indexing.build_index, indexing.build_index_steps.
  apply (keeps_try_except (build_frame a)).
  2:{ intros e. apply (keeps_bind (build_frame a)); [apply build_frame_update_app_status|].
      intros _. apply (keeps_raise (build_frame a)). }
  apply (keeps_bind (build_frame a)); [apply build_frame_update_app_status|]. intros _.
  apply (keeps_bind (build_frame a)).
  { intros w. rewrite clear_chroma_dir_run. cbn [snd]. unfold build_frame, cleared.
    cbn [w_db w_fs file_dirs chroma_dirs]. repeat split; eauto.
    intros p Hp. by rewrite lookup_insert_ne. }
  intros _. apply (keeps_bind (build_frame a)).
  { apply build_frame_same. intros w. by rewrite load_documents_run. }
  intros docs. destruct docs; [apply (keeps_raise (build_frame a))|].
  apply (keeps_bind (build_frame a)).
  { apply build_frame_same. intros w. by rewrite chunk_documents_run. }
  intros chunks. apply (keeps_bind (build_frame a)); [by apply build_frame_same|].
  intros _. apply (keeps_bind (build_frame a)); [apply (keeps_lift (build_frame a))|].
  intros _. apply (keeps_bind (build_frame a)).
  { intros w. rewrite persist_chroma_run. cbn [snd]. unfold build_frame.
    cbn [w_db w_fs file_dirs chroma_dirs]. repeat split; eauto.
    intros p Hp. by rewrite lookup_insert_ne. }
  intros _. apply (keeps_bind (build_frame a)); [by apply build_frame_same|].
  intros now. apply (keeps_bind (build_frame a)); [apply build_frame_update_app_status|].
  intros _. apply (keeps_ret (build_frame a)).
Qed.

(** How a build leaves its tenant. *)
Lemma build_index_outcome (a : string) (w : World) (r : AppRow) :
  apps (w_db w) !! a = Some r ->
  let w' := (indexing.build_index a w).2 in
  exists r', apps (w_db w') !! a = Some r'
    /\ ((status r' = "READY"
         /\ ((forall t, isoformat t ≠ EmptyString) -> is_Some (last_indexed_at r')))
        \/ status r' = "FAILED").
Proof.
  intros Hr. cbn zeta.
  destruct (indexing.build_index a w) as [[[n m]|e] w1] eqn:Hb; cbn [snd].
  - apply build_index_Ok_inv, build_index_steps_Ok in Hb
      as (docs & chunks & dir' & _ & _ & _ & Hch & _ & _ & _ & Hfs & _ & Hrow).
    destruct (Hrow r Hr) as (r' & Hr' & Hst & _ & Hli).
    exists r'. split; [done|]. left. split; [done|]. intros Hiso.
    rewrite Hli. specialize (Hiso (S (w_clock w))).
    destruct (isoformat (S (w_clock w))); [done|]. cbn. eauto.
  - destruct (build_index_Raise_inv a w w1 e Hb) as (w2 & Hsteps).
    destruct (build_index_Raise a w e w2 r Hr Hsteps) as (w3 & Hb' & Hst & _).
    rewrite Hb in Hb'. injection Hb' as <-. unfold status_of in Hst.
    destruct (apps (w_db w1) !! a) as [r'|]; [|discriminate].
    exists r'. split; [done|]. right. by injection Hst.
Qed.

Lemma train_app_world (a : string) (w : World) :
  (main.train_app a w).2 = w
  \/ (exists r, apps (w_db w) !! a = Some r)
     /\ rows_of w a ≠ []
     /\ (main.train_app a w).2 = (indexing.build_index a w).2.
Proof.
  unfold main.train_app. rewrite bind_run, get_app_run.
  destruct (apps (w_db w) !! a) as [r|] eqn:Hr; [|by left].
  rewrite bind_run, get_files_for_app_run. fold (rows_of w a).
  destruct (merge_sort _ (rows_of w a)) as [|f fs] eqn:Hsort; [by left|].
  right. split; [eauto|]. split.
  - intros Hnil. rewrite Hnil in Hsort. discriminate Hsort.
  - rewrite try_except_run, bind_run.
    by destruct (indexing.build_index a w) as [[[n m]|e] w1].
Qed.

Lemma api_inv_train_app (a : string) (w : World) :
  api_inv w -> api_inv (main.train_app a w).2.
Proof.
  intros Hinv. destruct (train_app_world a w) as [->|((r & Hr) & Hrows & ->)]; [done|].
  pose proof (build_frame_build_index a w) as (Hf & Hsq & Hfd & Hne & Hco & Hkey).
  destruct (build_index_outcome a w r Hr) as (r' & Hr' & Hout).
  destruct (Hkey r Hr) as (r'' & Hr'' & Hid). rewrite Hr' in Hr''. injection Hr'' as <-.
  set (w' := (indexing.build_index a w).2) in *.
  destruct Hinv as [Hk Hs Hc Hrd Hi Hrw].
  assert (Hrows' : forall c, rows_of w' c = rows_of w c).
  { intros c. unfold rows_of. by rewrite Hf. }
  split.
  - intros b rb Hb. destruct (decide (b = a)) as [->|Hb'].
    + rewrite Hr' in Hb. injection Hb as <-. rewrite Hid. by apply (Hk a r).
    + rewrite Hne in Hb by done. eauto.
  - intros b rb Hb. destruct (decide (b = a)) as [->|Hb'].
    + rewrite Hr' in Hb. injection Hb as <-.
      destruct Hout as [(-> & _)| ->]; repeat constructor.
    + rewrite Hne in Hb by done. eauto.
  - intros b rb Hb. rewrite Hrows'. destruct (decide (b = a)) as [->|Hb'].
    + rewrite Hr' in Hb. injection Hb as <-.
      destruct Hout as [(-> & _)| ->]; (split; [discriminate|done]).
    + rewrite Hne in Hb by done. eauto.
  - intros b rb Hb Hready. destruct (decide (b = a)) as [->|Hb'].
    + rewrite Hr' in Hb. injection Hb as <-.
      destruct Hout as [(_ & Hli)|Hfail]; [done|]. congruence.
    + rewrite Hne in Hb by done. eauto.
  - by rewrite Hf, Hsq.
  - intros row Hrow. rewrite Hf in Hrow.
    destruct (Hrw row Hrow) as ([rb Hb] & Hpath).
    split; [|done]. destruct (decide (file_app_id row = a)) as [->|Hb']; [eauto|].
    rewrite Hne by done. eauto.
Qed.

(** *** Every step, every reachable world *)

Lemma api_inv_step (w w' : World) :
  api_step w w' -> api_inv w -> api_inv w'.
Proof.
  intros Hstep Hinv. destruct Hstep as [v a n w Hv|w|a w|a w|a fs w|a w|a w|a v m w _].
  - by apply (api_inv_create_app v).
  - by rewrite list_apps_world.
  - by rewrite get_app_world.
  - by apply api_inv_delete_app.
  - by apply api_inv_upload_files.
  - by rewrite list_files_world.
  - by apply api_inv_train_app.
  - by rewrite main_chat_world.
Qed.

Lemma reachable_inv (w : World) : reachable w -> api_inv w.
Proof.
  intros (w0 & Hinit & Hsteps). apply api_inv_empty in Hinit.
  induction Hsteps as [|w1 w2 w3 Hstep _ IH]; [done|].
  apply IH. by apply (api_inv_step w1).
Qed.

End invariant_lemmas.

(** X19.  In every world the API reaches from an empty metadata store,
    whatever the requests (uploads of parts under any names included), a
    tenant's record is stored under its own identifier, and that
    identifier has passed the validator, so it names a directory of its
    own.  The status is one of CREATED, FILES_UPDATED, READY and FAILED:
    no request leaves a tenant INDEXING.  The status is CREATED exactly
    when the tenant has no file record.  A READY tenant has a last-indexed
    time (the time stamps being non-empty strings). *)
Theorem reachable_tenant_records `{!ExternalsLaws E} (w : World) (a : string) (r : AppRow) :
  reachable w ->
  apps (w_db w) !! a = Some r ->
  app_id r = a
  /\ (exists v, main.validate_app_id v = Ok a)
  /\ plain_id a
  /\ status r ∈ ["CREATED"; "FILES_UPDATED"; "READY"; "FAILED"]
  /\ (status r = "CREATED" <-> rows_of w a = [])
  /\ (status r = "READY" -> is_Some (last_indexed_at r)).
Proof.
  intros Hreach Hr. apply reachable_inv in Hreach as [Hk Hs Hc Hrd _ _].
  destruct (Hk a r Hr) as (Hid & v & Hv).
  split; [done|]. split; [eauto|]. split; [by apply (validated_plain v)|].
  split; [by apply (Hs a)|]. split; [by apply Hc|].
  intros Hready. apply (Hrd a r Hr Hready). apply isoformat_nonempty.
Qed.

(** X20.  In every world the API reaches from an empty metadata store,
    whatever the requests, the file records have distinct identifiers,
    none above the counter; each belongs to a tenant that exists and
    carries the path [os.path.join] gives for its name and that tenant's
    files directory. *)
Theorem reachable_file_records {E : Externals} (w : World) :
  reachable w ->
  NoDup (map id (files (w_db w)))
  /\ forall row, row ∈ files (w_db w) ->
       (id row <= files_seq (w_db w))%nat
       /\ is_Some (apps (w_db w) !! file_app_id row)
       /\ file_path row
          = OsPath.join (storage.get_files_dir (file_app_id row)) (filename row).
Proof.
  intros Hreach. apply reachable_inv in Hreach as [_ _ _ _ [Hnd Hle] Hrw].
  split; [done|]. intros row Hrow. rewrite Forall_forall in Hle.
  destruct (Hrw row Hrow) as (Happ & Hpath).
  split; [by apply Hle|]. done.
Qed.

(** ** The listing endpoints *)

#[export] Instance created_not_before_total : Total db.created_not_before.
Proof. intros r1 r2. unfold db.created_not_before. apply (total String.le). Qed.

#[export] Instance created_not_before_trans : Transitive db.created_not_before.
Proof.
  intros r1 r2 r3 H12 H23. unfold db.created_not_before in *.
  by etrans.
Qed.

(** X21.  Listing the files of a tenant that exists returns every file
    record of the tenant once, and no other, in descending order of the
    [uploaded_at] text, as [ORDER BY uploaded_at DESC] compares it; the
    world is unchanged.  The file count of the tenant's details is the
    number of these records.  (The order is by time of upload only as far
    as the text of the time stamps orders as the times do.) *)
Theorem list_files_by_uploaded_at {E : Externals} (a : string) (w : World) (r : AppRow) :
  apps (w_db w) !! a = Some r ->
  exists l,
    main.list_files a w = (Ok l, w)
    /\ l ≡ₚ rows_of w a
    /\ StronglySorted (fun r1 r2 => String.le (uploaded_at r2) (uploaded_at r1)) l
    /\ main.get_app a w = (Ok (r, length (rows_of w a)), w).
Proof.
  intros Hr. unfold main.list_files, main.get_app.
  rewrite !bind_run, get_app_run, Hr, bind_run, get_files_for_app_run.
  fold (rows_of w a). eexists. split; [reflexivity|].
  split; [apply merge_sort_Permutation|]. split.
  - apply (StronglySorted_merge_sort db.uploaded_not_before).
  - cbn [mret M_ret ret]. by rewrite (merge_sort_Permutation _ (rows_of w a)).
Qed.

(** X22.  Listing the tenants returns every record of the metadata store
    once, and no other, in descending order of the [created_at] text, as
    [ORDER BY created_at DESC] compares it; the world is unchanged.  (The
    order is by time of creation only as far as the text of the time
    stamps orders as the times do.) *)
Theorem list_apps_by_created_at {E : Externals} (w : World) :
  exists l,
    main.list_apps w = (Ok l, w)
    /\ (forall r, r ∈ l <-> exists a, apps (w_db w) !! a = Some r)
    /\ length l = size (apps (w_db w))
    /\ StronglySorted (fun r1 r2 => String.le (created_at r2) (created_at r1)) l.
Proof.
  eexists. split; [reflexivity|].
  pose proof (merge_sort_Permutation db.created_not_before
                (map snd (map_to_list (apps (w_db w))))) as Hp.
  split; [|split].
  - intros r. rewrite Hp, list_elem_of_fmap. split.
    + intros ([a r'] & -> & Hin). exists a. by apply elem_of_map_to_list.
    + intros (a & Ha). exists (a, r). split; [done|]. by apply elem_of_map_to_list.
  - by rewrite Hp, length_map, length_map_to_list.
  - apply (StronglySorted_merge_sort db.created_not_before).
Qed.

(** ** The chat endpoint *)

(** X23.  The chat endpoint either returns the successful result of
    [rag.chat], and then the tenant is READY and an answer is present, or
    it fails with status 400: for a tenant that does not exist (status 400
    too, not 404) with the not-found message, for a tenant that is not
    READY with the not-trained message naming its status, and for a READY
    tenant with the text of the exception the retrieval raised.  In every
    case the world is left as it was. *)
Theorem chat_endpoint_outcomes {E : Externals} (a m : string) (w : World) :
  exists res,
    main.chat a m w = (res, w)
    /\ match res with
       | Ok r =>
           exists app ans,
             apps (w_db w) !! a = Some app /\ status app = "READY"
             /\ rag.chat a m w = (Ok r, w)
             /\ rag.success r = true /\ rag.error r = None /\ rag.answer r = Some ans
       | Raise e =>
           exists msg,
             e = HTTPException 400 msg
             /\ (apps (w_db w) !! a = None -> msg = "App '" +:+ a +:+ "' not found")
             /\ (forall app, apps (w_db w) !! a = Some app -> status app ≠ "READY" ->
                   msg = "App '" +:+ a +:+ "' is not trained yet. Status: " +:+ status app)
             /\ (forall app, apps (w_db w) !! a = Some app -> status app = "READY" ->
                   exists e0, (rag.chat_steps a m app w).1 = Raise e0 /\ msg = str_exn e0)
       end.
Proof.
  unfold main.chat. rewrite bind_run, chat_run.
  destruct (apps (w_db w) !! a) as [app|] eqn:Happ.
  2:{ eexists. split; [reflexivity|]. cbn. eexists. split; [reflexivity|].
      split; [done|]. split; intros ? [=]. }
  destruct (String.eqb_spec (status app) "READY") as [Hst|Hst]; cbn [negb].
  2:{ eexists. split; [reflexivity|]. cbn. eexists. split; [reflexivity|].
      split; [done|]. split.
      - by intros ? [= <-] _.
      - intros ? [= <-] ?. done. }
  destruct (rag.chat_steps a m app w) as [[r|e0] w1] eqn:Hsteps; cbn [fst].
  - destruct (chat_steps_Ok_inv a m app w r w1 Hsteps) as (ans & docs & -> & _).
    eexists. split; [reflexivity|]. cbn. exists app, ans. done.
  - eexists. split; [reflexivity|]. cbn. eexists. split; [reflexivity|].
    split; [done|]. split.
    + intros ? [= <-] ?. done.
    + intros ? [= <-] _. exists e0. by rewrite Hsteps.
Qed.

(** ** Adding and removing *)

Section round_trip_lemmas.

Lemma filter_id_fresh (rows : list FileRow) (i : nat) :
  Forall (fun r => (id r < i)%nat) rows ->
  List.filter (fun r => negb (id r =? i)%nat) rows = rows.
Proof.
  induction 1 as [|row rows Hrow _ IH]; [done|]. cbn [List.filter].
  rewrite (proj2 (Nat.eqb_neq _ _)) by lia. cbn [negb]. by rewrite IH.
Qed.

Lemma filter_tenant_gone (a : string) (rows : list FileRow) :
  List.filter (fun r => String.eqb (file_app_id r) a)
    (List.filter (fun r => negb (String.eqb (file_app_id r) a)) rows) = [].
Proof.
  apply filter_tenant_nil. intros row Hrow.
  apply list_elem_of_In, filter_In in Hrow as [_ Hrow].
  by apply negb_true_iff, String.eqb_neq in Hrow.
Qed.

End round_trip_lemmas.

(** X24.  A file record that is added and then deleted by the identifier
    [add_file] returned leaves the file records as they were, provided no
    record has an identifier above the counter; the counter has moved on,
    so the identifier is not given out again.  Tenants and stored files
    are not touched. *)
Theorem add_file_then_delete_file {E : Externals}
    (a n p h : string) (sz : nat) (w : World) :
  Forall (fun r => (id r <= files_seq (w_db w))%nat) (files (w_db w)) ->
  exists fd w1 w2,
    db.add_file a n p sz h w = (Ok fd, w1)
    /\ db.fd_id fd = S (files_seq (w_db w))
    /\ db.delete_file (db.fd_id fd) w1 = (Ok tt, w2)
    /\ files (w_db w2) = files (w_db w)
    /\ files_seq (w_db w2) = S (files_seq (w_db w))
    /\ apps (w_db w2) = apps (w_db w)
    /\ w_fs w2 = w_fs w.
Proof.
  intros Hle. unfold db.add_file, db.delete_file, db.utcnow, get_db, put_db. munfold.
  eexists _, _, _. split; [reflexivity|]. cbn [db.fd_id]. split; [done|].
  split; [reflexivity|]. cbn [w_db w_fs files files_seq apps].
  split; [|done]. rewrite List.filter_app. cbn [List.filter id].
  rewrite Nat.eqb_refl. cbn [negb]. rewrite app_nil_r. apply filter_id_fresh.
  eapply Forall_impl; [exact Hle|]. cbn. intros; lia.
Qed.

(** X25.  Deleting the file records of a tenant leaves the tenant without
    file records and changes nothing else: the records of the other
    tenants, the tenant's own record with its status, and the stored files
    stay.  A training request for the tenant is then refused with status
    400 if the tenant exists. *)
Theorem delete_files_for_app_clears {E : Externals} (a : string) (w : World) :
  exists w',
    db.delete_files_for_app a w = (Ok tt, w')
    /\ rows_of w' a = []
    /\ (forall b, b ≠ a -> rows_of w' b = rows_of w b)
    /\ apps (w_db w') = apps (w_db w)
    /\ files_seq (w_db w') = files_seq (w_db w)
    /\ w_fs w' = w_fs w
    /\ (is_Some (apps (w_db w) !! a) ->
          main.train_app a w'
          = (Raise (HTTPException 400 ("No files uploaded for app '" +:+ a
                                       +:+ "'. Please upload files first.")), w')).
Proof.
  unfold db.delete_files_for_app, get_db, put_db. munfold.
  eexists. split; [reflexivity|]. unfold rows_of. cbn [w_db w_fs files files_seq apps].
  split; [apply filter_tenant_gone|]. split; [intros b Hb; by apply filter_tenant_other|].
  split; [done|]. split; [done|]. split; [done|].
  intros [r Hr]. unfold main.train_app.
  rewrite bind_run, get_app_run. cbn [w_db apps]. rewrite Hr.
  rewrite bind_run, get_files_for_app_run. cbn [w_db files].
  by rewrite filter_tenant_gone.
Qed.

(** X26.  Saving a file under an entry name (not empty, without
    separator, neither [.] nor [..]) either raises what [open] raises, and
    then nothing was written: the tenant's directories exist and the
    metadata store and every entry are as before; or it returns the path
    of the name under the tenant's files directory.  In that case deleting
    the name answers true, a second delete answers false and changes
    nothing, the other entries of the directory are as before the save,
    and so is the whole directory if it existed and did not hold the
    name. *)
Theorem save_file_then_delete_file {E : Externals} (a n c : string) (w : World) :
  plain_id n ->
  let old := file_dirs (w_fs w) !! storage.get_files_dir a in
  match storage.save_file a n c w with
  | (Raise e, w1) =>
      open_wb (w_fs (storage.ensure_app_dirs a w).2)
              (OsPath.join (storage.get_files_dir a) n) = Raise e
      /\ w1 = (storage.ensure_app_dirs a w).2
      /\ w_db w1 = w_db w
      /\ file_dirs (w_fs w1) !! storage.get_files_dir a = Some (default ∅ old)
  | (Ok path, w1) =>
      path = OsPath.join (storage.get_files_dir a) n
      /\ exists w2 dir,
           storage.delete_file a n w1 = (Ok true, w2)
           /\ storage.delete_file a n w2 = (Ok false, w2)
           /\ file_dirs (w_fs w2) !! storage.get_files_dir a = Some dir
           /\ dir !! n = None
           /\ (forall n', n' ≠ n -> dir !! n' = default ∅ old !! n')
           /\ (forall d, old = Some d -> d !! n = None -> dir = d)
           /\ w_db w2 = w_db w
  end.
Proof.
  intros Hn. cbn zeta. rewrite save_file_run. cbn zeta.
  destruct (ensure_app_dirs_run a w) as (w0 & Hens & Hdb & _ & _ & Hf & _).
  rewrite Hens. cbn [snd].
  destruct (open_wb (w_fs w0) _) as [[]|e]; [|done].
  split; [done|]. unfold saved. rewrite (plain_id_entry_name n Hn), Hf. cbn [default].
  unfold storage.delete_file, get_fs, put_fs. munfold.
  eexists _,
    (delete n (<[n:=c]> (default ∅ (file_dirs (w_fs w) !! storage.get_files_dir a)))).
  rewrite !lookup_insert_eq. split; [reflexivity|]. cbn [w_fs w_db file_dirs].
  rewrite !lookup_insert_eq. cbn [w_fs]. rewrite lookup_delete_eq.
  split; [reflexivity|]. split; [reflexivity|].
  split; [apply lookup_delete_eq|].
  split; [|split; [|done]].
  - intros n' Hn'. rewrite lookup_delete_ne by done. by rewrite lookup_insert_ne.
  - intros d Hold Hd. rewrite Hold. cbn [default]. rewrite delete_insert_eq.
    by apply delete_id.
Qed.

(** * The claims on the concrete deployment *)

Import Demo.

Lemma build_index_success_order_witness :
  exists docs chunks ts r',
    w_trace (indexing.build_index "demo" w_uploaded).2 = w_trace w_uploaded ++
      [EvStatus "demo" "INDEXING" None; EvClearIndex "demo"; EvLoadDocuments "demo";
       EvChunk; EvEmbeddingModel; EvPersist "demo"; EvStatus "demo" "READY" (Some ts)]
    /\ docs = fold_left (indexing.load_one (cleared (w_fs w_uploaded) "demo"))
                        (stored_paths (w_fs w_uploaded) "demo") []
    /\ split_documents indexing.CHUNK_SIZE indexing.CHUNK_OVERLAP docs = Ok chunks
    /\ collection (index_of (indexing.build_index "demo" w_uploaded).2 "demo") = chunks
    /\ (1%nat, 1%nat) = (length docs, length chunks)
    /\ apps (w_db (indexing.build_index "demo" w_uploaded).2) !! "demo" = Some r'
    /\ status r' = "READY"
    /\ last_indexed_at r' = Some ts
    /\ ts ≠ EmptyString.
Proof.
  apply (build_index_success_order (E := externals) "demo" w_uploaded _ 1 1
           (row "demo" "FILES_UPDATED")).
  - vm_compute. reflexivity.
  - vm_compute. reflexivity.
Defined.

Lemma build_index_failure_marks_failed_witness :
  exists w',
    indexing.build_index "demo" w_unloadable
      = (Raise (ValueError "No documents could be loaded"), w')
    /\ status_of w' "demo" = Some "FAILED"
    /\ (forall msg, rag.chat "demo" msg w' = (Ok (rag.not_trained "demo" "FAILED"), w')).
Proof.
  destruct (build_index_failure_marks_failed (E := externals) "demo" w_unloadable
              (row "demo" "FILES_UPDATED") eq_refl) as [Hfail _].
  destruct (Hfail (ValueError "No documents could be loaded")
                  (indexing.build_index_steps "demo" w_unloadable).2)
    as (w' & Hb & Hst & Hchat & _).
  - vm_compute. reflexivity.
  - exists w'. split; [exact Hb|]. split; [exact Hst|exact Hchat].
Defined.

(** After a failed build and without any new build, an upload of one
    supported file moves the status from FAILED to FILES_UPDATED. *)
Lemma failed_status_overwritten_by_upload :
  (indexing.build_index "demo" w_unloadable).1
    = Raise (ValueError "No documents could be loaded")
  /\ status_of (indexing.build_index "demo" w_unloadable).2 "demo" = Some "FAILED"
  /\ status_of (main.upload_files "demo" [main.mkUploadFile "notes.txt" (Ok "The sky is blue.")]
                  (indexing.build_index "demo" w_unloadable).2).2 "demo"
     = Some "FILES_UPDATED".
Proof. vm_compute. repeat split. Qed.

Lemma rebuild_replaces_index_witness :
  let stale := chunk "old text" "/srv/storage/apps/demo/files/gone.txt" in
  let w' := (indexing.build_index "demo" w_uploaded).2 in
  stale ∈ collection (index_of w_uploaded "demo")
  /\ (stale ∉ collection (index_of w' "demo"))
  /\ forall k q docs, retriever_invoke (index_of w' "demo") k q = Ok docs -> stale ∉ docs.
Proof.
  intros stale w'.
  destruct (rebuild_replaces_index (E := externals) "demo" w_uploaded w' 1 1)
    as (chunks & ts & _ & _ & _ & Hstale).
  - vm_compute. reflexivity.
  - destruct (Hstale stale "/srv/storage/apps/demo/files/gone.txt") as (Hnot & Hret & _).
    + vm_compute. reflexivity.
    + vm_compute. intros Hin. apply list_elem_of_singleton in Hin. discriminate Hin.
    + split; [vm_compute; left|]. split; [exact Hnot|exact Hret].
Defined.

Lemma chat_checks_and_never_raises_witness :
  (rag.chat "ghost" "hello" w_trained).1 = Ok (rag.not_found "ghost")
  /\ (rag.chat "demo" "hello" w_uploaded).1 = Ok (rag.not_trained "demo" "FILES_UPDATED")
  /\ (rag.chat "demo" "hello" w_ready_no_index).1
     = Ok (rag.failure (ValueError "No index found for app 'demo'. Please train first.")).
Proof.
  split; [|split].
  - destruct (chat_checks_and_never_raises (E := externals) "ghost" "hello" w_trained)
      as (res & w' & -> & Hnone & _). cbn [fst]. f_equal. apply Hnone. vm_compute. reflexivity.
  - destruct (chat_checks_and_never_raises (E := externals) "demo" "hello" w_uploaded)
      as (res & w' & -> & _ & Hst & _). cbn [fst]. f_equal.
    apply (Hst (row "demo" "FILES_UPDATED")); [vm_compute; reflexivity|discriminate].
  - destruct (chat_checks_and_never_raises (E := externals) "demo" "hello" w_ready_no_index)
      as (res & w' & -> & _ & _ & Hexn & _). cbn [fst]. f_equal.
    apply (Hexn (row "demo" "READY")); vm_compute; reflexivity.
Defined.

Lemma chat_sources_first_occurrences_witness :
  rag.sources
    (rag.mkChatResult true None
       (Some ("Based on the documents: "
              +:+ "The sky is blue on a clear day, and it turns red at dusk and at dawn."
              +:+ Py.nl +:+ Py.nl +:+ "Grass is green."
              +:+ Py.nl +:+ Py.nl +:+ "Water is wet." +:+ "..."))
       ["a.txt"; "b.txt"])
  = ["a.txt"; "b.txt"]
  /\ exists app ans docs,
       apps (w_db w_trained) !! "demo" = Some app
       /\ (retriever_invoke (index_of w_trained "demo") rag.TOP_K "What color is the sky?"
             = Ok docs
           \/ RetrievalQA_invoke (index_of w_trained "demo") rag.TOP_K
                (rag.template_text "demo" (name app)) "What color is the sky?"
                = Ok (ans, docs))
       /\ ["a.txt"; "b.txt"]
          = dedup_first (map (fun doc => OsPath.basename
                                           (default "unknown" (metadata doc !! "source")))
                             docs).
Proof.
  split; [reflexivity|].
  refine (proj1 (chat_sources_first_occurrences (E := externals) "demo"
                   "What color is the sky?" w_trained w_trained
                   (rag.mkChatResult true None _ ["a.txt"; "b.txt"]) _ _)).
  - vm_compute. reflexivity.
  - reflexivity.
Defined.

Lemma chat_sources_bounded_witness :
  NoDup ["a.txt"; "b.txt"] /\ (length ["a.txt"; "b.txt"] <= rag.TOP_K)%nat
  /\ rag.TOP_K = 3%nat.
Proof.
  refine (chat_sources_bounded (E := externals) "demo" "What color is the sky?"
            w_trained w_trained
            (rag.mkChatResult true None
               (Some ("Based on the documents: "
                      +:+ "The sky is blue on a clear day, and it turns red at dusk and at dawn."
                      +:+ Py.nl +:+ Py.nl +:+ "Grass is green."
                      +:+ Py.nl +:+ Py.nl +:+ "Water is wet." +:+ "..."))
               ["a.txt"; "b.txt"]) _ _).
  - vm_compute. reflexivity.
  - reflexivity.
Defined.

Lemma chat_without_index_marker_fails_witness :
  indexing.index_exists "demo" w_ready_no_index = (Ok false, w_ready_no_index)
  /\ rag.load_vector_db "demo" w_ready_no_index
     = (Raise (ValueError "No index found for app 'demo'. Please train first."),
        w_ready_no_index)
  /\ rag.chat "demo" "hello" w_ready_no_index
     = (Ok (rag.mkChatResult false
              (Some "No index found for app 'demo'. Please train first.") None []),
        w_ready_no_index)
  /\ (indexing.index_exists "demo" w_trained).1 = Ok true.
Proof.
  destruct (chat_without_index_marker_fails (E := externals) "demo" "hello" w_ready_no_index
              (row "demo" "READY")) as (Hidx & Hload & Hchat & _ & Hiff).
  - intros d. vm_compute. intros [= <-]. reflexivity.
  - vm_compute. reflexivity.
  - reflexivity.
  - split; [exact Hidx|]. split; [exact Hload|]. split; [exact Hchat|].
    apply Hiff. eexists. split; [vm_compute; reflexivity|reflexivity].
Defined.

Lemma fallback_answer_without_llm_witness :
  rag.chat "demo" "What color is the sky?" w_trained_empty
    = (Ok (rag.mkChatResult true None
             (Some "I don't have that information in the uploaded demo documents.") []),
       w_trained_empty)
  /\ (rag.chat "demo" "What color is the sky?" w_trained).1
     = Ok (rag.mkChatResult true None
             (Some ("Based on the documents: "
                    +:+ "The sky is blue on a clear day, and it turns red at dusk and at dawn."
                    +:+ Py.nl +:+ Py.nl +:+ "Grass is green."
                    +:+ Py.nl +:+ Py.nl +:+ "Water is wet." +:+ "..."))
             ["a.txt"; "b.txt"]).
Proof.
  split.
  - refine (proj1 (fallback_answer_without_llm (E := externals) "demo"
                     "What color is the sky?" w_trained_empty (row "demo" "READY")
                     (mkChromaDir true []) [] _ _ _ _ _ _) eq_refl);
      vm_compute; reflexivity.
  - pose proof (proj2 (fallback_answer_without_llm (E := externals) "demo"
                     "What color is the sky?" w_trained (row "demo" "READY")
                     (index_of w_trained "demo")
                     (collection (index_of w_trained "demo"))
                     eq_refl eq_refl eq_refl eq_refl eq_refl eq_refl)) as Hans.
    rewrite (Hans _ ltac:(discriminate) eq_refl eq_refl eq_refl eq_refl eq_refl eq_refl
                  eq_refl).
    vm_compute. reflexivity.
Defined.

(** Without a key, a retrieval that returns no chunk is answered by the
    refusal, not by the no-LLM notice the empty context would call for;
    and a long context that contains [Question:] is answered by the
    notice, not by its excerpt. *)
Lemma fallback_departs_from_stated_rule :
  llm.has_openai_key = false
  /\ (retriever_invoke (index_of w_trained_empty "demo") rag.TOP_K "What color is the sky?"
      = Ok []
      /\ fallback_answer (Py.join (Py.nl +:+ Py.nl) (map page_content []))
         = llm.NO_LLM_NOTICE
      /\ rag.answer (match (rag.chat "demo" "What color is the sky?" w_trained_empty).1 with
                     | Ok res => res
                     | Raise e => rag.failure e
                     end)
         = Some "I don't have that information in the uploaded demo documents."
      /\ "I don't have that information in the uploaded demo documents."
         ≠ llm.NO_LLM_NOTICE)
  /\ (exists docs context,
        retriever_invoke (index_of w_trained_quiz "demo") rag.TOP_K "What color is the sky?"
          = Ok docs
        /\ context = Py.join (Py.nl +:+ Py.nl) (map page_content docs)
        /\ Py.len (Py.strip context) = 84%nat
        /\ rag.answer (match (rag.chat "demo" "What color is the sky?" w_trained_quiz).1 with
                       | Ok res => res
                       | Raise e => rag.failure e
                       end)
           = Some llm.NO_LLM_NOTICE
        /\ fallback_answer (Py.strip context) ≠ llm.NO_LLM_NOTICE).
Proof.
  split; [reflexivity|]. split.
  - split; [vm_compute; reflexivity|]. split; [vm_compute; reflexivity|].
    split; [vm_compute; reflexivity|]. intros Heq. discriminate Heq.
  - eexists _, _. split; [vm_compute; reflexivity|]. split; [reflexivity|].
    split; [vm_compute; reflexivity|]. split; [vm_compute; reflexivity|].
    intros Heq. vm_compute in Heq. discriminate Heq.
Qed.

Lemma upload_files_batch_witness :
  (exists data w',
     main.upload_files "demo" batch w_trained = (Ok data, w')
     /\ "Unsupported file type: b.pdf" ∈ main.errors data
     /\ map filename (files (w_db w')) = ["a.TXT"]
     /\ status_of w' "demo" = Some "FILES_UPDATED")
  /\ (exists data w',
        main.upload_files "demo" [main.mkUploadFile "sub/notes.txt" (Ok "hello")] w_trained
          = (Ok data, w')
        /\ main.uploaded data = []
        /\ main.errors data
           = ["Error uploading sub/notes.txt: [Errno 2] No such file or directory: "
              +:+ "'/srv/storage/apps/demo/files/sub/notes.txt'"]
        /\ files (w_db w') = []
        /\ status_of w' "demo" = Some "READY").
Proof.
  split.
  - destruct (upload_files_batch (E := externals) "demo" batch w_trained (row "demo" "READY")
                eq_refl)
      as (data & w' & rows & Hrun & _ & Herr & _ & _ & Hrows & Hnames & _ & _ & _ & _ & _
          & Hst & _).
    exists data, w'. split; [exact Hrun|]. split; [|split].
    + apply (Herr (main.mkUploadFile "b.pdf" (Ok "%PDF"))).
      * right. left.
      * vm_compute. intros Hin. apply elem_of_cons in Hin as [Hin|Hin]; [discriminate Hin|].
        apply list_elem_of_singleton in Hin. discriminate Hin.
    + rewrite Hrows, map_app, Hnames. reflexivity.
    + apply Hst. discriminate.
  - destruct (upload_files_batch (E := externals) "demo"
                [main.mkUploadFile "sub/notes.txt" (Ok "hello")] w_trained
                (row "demo" "READY") eq_refl)
      as (data & w' & rows & Hrun & _).
    exists data, w'. split; [exact Hrun|].
    revert Hrun. vm_compute. intros [= <- <-]. repeat split.
Defined.

(** * The further properties on the concrete deployment *)

Ltac not_in_list :=
  let H := fresh in
  intros H;
  repeat (apply elem_of_cons in H as [H|H]; [discriminate H|]);
  by apply elem_of_nil in H.

Lemma plain_id_demo : plain_id "demo".
Proof. split; [discriminate|]. split; [cbn; not_in_list|]. split; discriminate. Qed.

Lemma plain_id_other : plain_id "other".
Proof. split; [discriminate|]. split; [cbn; not_in_list|]. split; discriminate. Qed.

Lemma plain_names_notes : Forall (fun f => plain_name (main.uf_filename f)) notes.
Proof. unfold notes, plain_name. repeat constructor; cbn; not_in_list. Qed.

Lemma stored_notes_created : stored_uploads "demo" notes w_created = notes.
Proof. vm_compute. reflexivity. Qed.

Lemma stored_notes_two : stored_uploads "demo" notes w_two = notes.
Proof. vm_compute. reflexivity. Qed.

Lemma w_reached_reachable : reachable w_reached.
Proof.
  exists w_empty. split; [by split|]. unfold w_reached, w_filled, w_created.
  eapply rtc_l; [exact (step_create_app "Demo" "demo" "Demo" w_empty eq_refl)|].
  eapply rtc_l; [apply (step_upload_files "demo" notes)|].
  eapply rtc_l; [apply (step_train_app "demo")|]. apply rtc_refl.
Qed.

Lemma validate_app_id_accepted_witness :
  "my-app" = Py.lower "My-App"
  /\ (2 <= Py.len "my-app" <= 50)%nat
  /\ exists body,
       (Py.chars "my-app" = body \/ Py.chars "my-app" = body ++ [Py.LF])
       /\ body ≠ []
       /\ Forall (fun c => is_lower_id_char c = true) body.
Proof. apply (validate_app_id_accepted "My-App" "my-app"). vm_compute. reflexivity. Defined.

Lemma validate_app_id_idempotent_witness : main.validate_app_id "my-app" = Ok "my-app".
Proof. apply (validate_app_id_idempotent "My-App" "my-app"). vm_compute. reflexivity. Defined.

Lemma validate_message_accepted_witness :
  "What is blue?" = Py.strip "  What is blue? "
  /\ main.validate_message "What is blue?" = Ok "What is blue?".
Proof.
  destruct (validate_message_accepted "  What is blue? " "What is blue?")
    as (Hs & _ & _ & _ & Hv).
  - vm_compute. reflexivity.
  - split; [exact Hs|exact Hv].
Defined.

Lemma chat_sources_are_bare_names_witness :
  (OsPath.SEP ∉ Py.chars "a.txt") /\ (OsPath.SEP ∉ Py.chars "b.txt").
Proof.
  destruct (chat_sources_are_bare_names (E := externals) "demo"
              "What color is the sky?" w_trained w_trained
              (rag.mkChatResult true None
                 (Some ("Based on the documents: "
                        +:+ "The sky is blue on a clear day, and it turns red at dusk and at dawn."
                        +:+ Py.nl +:+ Py.nl +:+ "Grass is green."
                        +:+ Py.nl +:+ Py.nl +:+ "Water is wet." +:+ "..."))
                 ["a.txt"; "b.txt"])) as [Hsrc _].
  - vm_compute. reflexivity.
  - split; apply Hsrc; cbn [rag.sources]; repeat constructor.
Defined.

Lemma basename_join_witness :
  OsPath.basename (OsPath.join "/srv/storage/apps/demo/files" "a.txt") = "a.txt".
Proof. apply basename_join. cbn. not_in_list. Defined.

Lemma is_supported_file_plain_names_witness :
  storage.is_supported_file ("notes" +:+ ".txt") = true
  /\ storage.is_supported_file ("notes" +:+ ".md") = true
  /\ storage.is_supported_file "notes" = false.
Proof.
  destruct (is_supported_file_plain_names "notes") as (Hext & Hnone & _).
  - cbn. not_in_list.
  - destruct Hext as [Htxt Hmd].
    + exists "n"%char. split; [cbn; left|discriminate].
    + split; [exact Htxt|]. split; [exact Hmd|]. apply Hnone. cbn. not_in_list.
Defined.

Lemma create_app_twice_rejected_witness :
  exists w',
    main.create_app "demo" "Again" w_trained
      = (Raise (HTTPException 400 ("App '" +:+ "demo" +:+ "' already exists")), w')
    /\ w_db w' = w_db w_trained
    /\ w_fs w' = w_fs w_trained
    /\ w_trace w' = w_trace w_trained.
Proof.
  apply (create_app_twice_rejected (E := externals) "demo" "Again" w_trained
           (row "demo" "READY")).
  vm_compute. reflexivity.
Defined.

Lemma create_app_fresh_witness :
  exists w', (main.create_app "other" "Other" w_trained).2 = w'
    /\ status_of w' "other" = Some "CREATED"
    /\ forall m, rag.chat "other" m w' = (Ok (rag.not_trained "other" "CREATED"), w').
Proof.
  destruct (create_app_fresh (E := externals) "other" "Other" w_trained)
    as (data & w' & ts & Hrun & _ & Hrow & _ & _ & _ & _ & Hchat).
  - vm_compute. reflexivity.
  - exists w'. split; [by rewrite Hrun|]. split; [|exact Hchat].
    unfold status_of. by rewrite Hrow.
Defined.

Lemma train_app_without_files_witness :
  main.train_app "demo" w_trained
  = (Raise (HTTPException 400 ("No files uploaded for app '" +:+ "demo"
                               +:+ "'. Please upload files first.")), w_trained).
Proof.
  apply (train_app_without_files (E := externals) "demo" w_trained (row "demo" "READY")).
  - vm_compute. reflexivity.
  - intros r Hr. by apply elem_of_nil in Hr.
Defined.

Lemma train_app_then_index_loads_witness :
  indexing.index_exists "demo" w_reached = (Ok true, w_reached)
  /\ length (collection (index_of w_reached "demo")) = 2%nat.
Proof.
  destruct (train_app_then_index_loads (E := externals) "demo" w_filled w_reached
              (main.mkTrainData "Training complete for app 'demo'" 2 2 "READY"))
    as (Hex & Hlen & _).
  - vm_compute. reflexivity.
  - split; [exact Hex|exact Hlen].
Defined.

Lemma delete_app_keeps_other_storage_witness :
  file_dirs (w_fs (main.delete_app "demo" w_two).2) !! storage.get_files_dir "other"
  = file_dirs (w_fs w_two) !! storage.get_files_dir "other"
  /\ chroma_dirs (w_fs (main.delete_app "demo" w_two).2) !! storage.get_chroma_dir "other"
     = chroma_dirs (w_fs w_two) !! storage.get_chroma_dir "other"
  /\ apps (w_db (main.delete_app "demo" w_two).2) !! "other" = apps (w_db w_two) !! "other".
Proof.
  apply (delete_app_keeps_other_storage (E := externals) "demo" "other" w_two
           plain_id_demo plain_id_other).
  discriminate.
Defined.

Lemma build_index_keeps_other_tenants_witness :
  apps (w_db (indexing.build_index "demo" w_two).2) !! "other" = apps (w_db w_two) !! "other"
  /\ index_of (indexing.build_index "demo" w_two).2 "other" = index_of w_two "other"
  /\ files (w_db (indexing.build_index "demo" w_two).2) = files (w_db w_two)
  /\ file_dirs (w_fs (indexing.build_index "demo" w_two).2) = file_dirs (w_fs w_two).
Proof.
  apply (build_index_keeps_other_tenants (E := externals) "demo" "other" w_two
           plain_id_demo plain_id_other).
  discriminate.
Defined.

Lemma upload_files_keeps_other_tenants_witness :
  apps (w_db (main.upload_files "demo" notes w_two).2) !! "other" = apps (w_db w_two) !! "other"
  /\ file_dirs (w_fs (main.upload_files "demo" notes w_two).2) !! storage.get_files_dir "other"
     = file_dirs (w_fs w_two) !! storage.get_files_dir "other"
  /\ chroma_dirs (w_fs (main.upload_files "demo" notes w_two).2) !! storage.get_chroma_dir "other"
     = chroma_dirs (w_fs w_two) !! storage.get_chroma_dir "other"
  /\ List.filter (fun r => String.eqb (file_app_id r) "other") (files (w_db (main.upload_files "demo" notes w_two).2))
     = List.filter (fun r => String.eqb (file_app_id r) "other") (files (w_db w_two)).
Proof.
  apply (upload_files_keeps_other_tenants (E := externals) "demo" "other" notes w_two
           plain_id_demo plain_id_other).
  - discriminate.
  - rewrite stored_notes_two. exact plain_names_notes.
Defined.

Lemma upload_files_last_write_wins_witness :
  exists dir,
    file_dirs (w_fs w_filled) !! storage.get_files_dir "demo" = Some dir
    /\ dir !! "notes.txt" = Some "The sky is blue today."
    /\ length (files (w_db w_filled)) = 3%nat.
Proof.
  destruct (upload_files_last_write_wins (E := externals) "demo" notes w_created
              (mkAppRow "demo" "Demo" "CREATED" None (isoformat 0) (isoformat 0)))
    as (dir & Hdir & _ & Hlast & _ & rows & Hrows & Hlen).
  - vm_compute. reflexivity.
  - rewrite stored_notes_created. discriminate.
  - rewrite stored_notes_created. exact plain_names_notes.
  - exists dir. split; [exact Hdir|]. split.
    + apply (Hlast [main.mkUploadFile "notes.txt" (Ok "The sky is blue.")]
               (main.mkUploadFile "notes.txt" (Ok "The sky is blue today."))
               [main.mkUploadFile "b.md" (Ok "Grass is green.")]).
      * exact stored_notes_created.
      * reflexivity.
      * cbn. not_in_list.
    + unfold w_filled. rewrite Hrows, length_app, Hlen, stored_notes_created. reflexivity.
Defined.

Lemma reachable_tenant_records_witness :
  plain_id "demo"
  /\ rows_of w_reached "demo" ≠ []
  /\ is_Some (last_indexed_at
               (mkAppRow "demo" "Demo" "READY" (Some (isoformat 6)) (isoformat 0)
                         (isoformat 7))).
Proof.
  destruct (reachable_tenant_records (E := externals) w_reached "demo"
              (mkAppRow "demo" "Demo" "READY" (Some (isoformat 6)) (isoformat 0) (isoformat 7))
              w_reached_reachable)
    as (_ & _ & Hplain & _ & Hcreated & Hready).
  - vm_compute. reflexivity.
  - split; [exact Hplain|]. split.
    + intros Hnil. apply Hcreated in Hnil. discriminate Hnil.
    + apply Hready. reflexivity.
Defined.

Lemma reachable_file_records_witness :
  NoDup (map id (files (w_db w_reached)))
  /\ Forall (fun row => is_Some (apps (w_db w_reached) !! file_app_id row))
            (files (w_db w_reached)).
Proof.
  destruct (reachable_file_records (E := externals) w_reached w_reached_reachable)
    as [Hnd Hrows].
  split; [exact Hnd|]. apply Forall_forall. intros row Hrow.
  by destruct (Hrows row Hrow) as (_ & ? & _).
Defined.

Lemma list_files_by_uploaded_at_witness :
  exists l,
    main.list_files "demo" w_reached = (Ok l, w_reached)
    /\ l ≡ₚ rows_of w_reached "demo"
    /\ StronglySorted (fun r1 r2 => String.le (uploaded_at r2) (uploaded_at r1)) l.
Proof.
  destruct (list_files_by_uploaded_at (E := externals) "demo" w_reached
              (mkAppRow "demo" "Demo" "READY" (Some (isoformat 6)) (isoformat 0) (isoformat 7)))
    as (l & Hl & Hp & Hs & _).
  - vm_compute. reflexivity.
  - exists l. split; [exact Hl|]. split; [exact Hp|exact Hs].
Defined.

Lemma add_file_then_delete_file_witness :
  exists fd w1 w2,
    db.add_file "demo" "c.txt" "/srv/storage/apps/demo/files/c.txt" 5 "gamma" w_filled
      = (Ok fd, w1)
    /\ db.delete_file (db.fd_id fd) w1 = (Ok tt, w2)
    /\ files (w_db w2) = files (w_db w_filled).
Proof.
  destruct (add_file_then_delete_file (E := externals) "demo" "c.txt"
              "/srv/storage/apps/demo/files/c.txt" "gamma" 5 w_filled)
    as (fd & w1 & w2 & Hadd & _ & Hdel & Hfiles & _).
  - vm_compute. repeat constructor.
  - exists fd, w1, w2. split; [exact Hadd|]. split; [exact Hdel|exact Hfiles].
Defined.

Lemma save_file_then_delete_file_witness :
  exists w2,
    (storage.save_file "demo" "draft.txt" "text" w_filled).1
      = Ok (OsPath.join (storage.get_files_dir "demo") "draft.txt")
    /\ storage.delete_file "demo" "draft.txt"
         (storage.save_file "demo" "draft.txt" "text" w_filled).2 = (Ok true, w2)
    /\ storage.delete_file "demo" "draft.txt" w2 = (Ok false, w2)
    /\ w_db w2 = w_db w_filled.
Proof.
  assert (Hn : plain_id "draft.txt").
  { split; [discriminate|]. split; [cbn; not_in_list|]. split; discriminate. }
  pose proof (save_file_then_delete_file (E := externals) "demo" "draft.txt" "text"
                w_filled Hn) as Hthm.
  cbn zeta in Hthm.
  destruct (storage.save_file "demo" "draft.txt" "text" w_filled) as [[path|e] w1] eqn:Hsave.
  - destruct Hthm as (-> & w2 & dir & Hdel & Hagain & _ & _ & _ & _ & Hdb).
    exists w2. cbn [fst snd]. split; [reflexivity|]. split; [exact Hdel|].
    split; [exact Hagain|exact Hdb].
  - exfalso. revert Hsave. vm_compute. discriminate.
Defined.
